(** * scrapyd/webservice.py: a shallow embedding of the HTTP control plane

  The Python module is embedded as functions over an explicit state:
  handlers run in a state-and-exception monad over the host context
  ([Root]) and the Twisted request object ([Request]); a state change made
  before an exception is raised stays made, as in Python.

  - Library calls that the module makes (the UTF-8 codec, [float],
    [zipfile], [json], [traceback], [subprocess], [uuid], the clock) are
    fields of a [Platform] record and are left uninterpreted.
  - [os.path] is written out for POSIX ([posixpath]); the file system is a
    record of oracles on path strings.
  - The collaborators that the host context supplies (queues, scheduler,
    launcher, egg store) are modelled from the specification, each marked as
    such.
  - A [dict] whose order can be observed is an association list with
    distinct keys; the spider-list cache, whose order cannot, is a [gmap]. *)

From stdpp Require Import gmap strings list fin_maps.
From Stdlib Require Import ZArith Ascii String DecimalString.

Set Warnings "-register-all".

Open Scope string_scope.
Open Scope list_scope.

(** Python [str] and [bytes] are both carried by [string]; the codec between
  them is the platform's [decode]. *)
Abbreviation str := string (only parsing).
Abbreviation bytes := string (only parsing).

(** ** Python dictionaries

  A [dict] keeps insertion order, which [items()] exposes, so it is an
  association list whose keys are pairwise distinct. *)
Module Dict.
Section Dict.
Context {K V : Type} `{EqDecision K}.

Fixpoint get (k : K) (d : list (K * V)) : option V :=
  match d with
  | [] => None
  | (k', v) :: d' => if decide (k = k') then Some v else get k d'
  end.

(** [k in d] *)
Definition mem (k : K) (d : list (K * V)) : bool :=
  match get k d with Some _ => true | None => false end.

(** [d[k] = v]: overwrite in place, or append a new key. *)
Fixpoint set (k : K) (v : V) (d : list (K * V)) : list (K * V) :=
  match d with
  | [] => [(k, v)]
  | (k', v') :: d' =>
      if decide (k = k') then (k, v) :: d' else (k', v') :: set k v d'
  end.

(** [del d[k]] when present. *)
Fixpoint remove (k : K) (d : list (K * V)) : list (K * V) :=
  match d with
  | [] => []
  | (k', v') :: d' =>
      if decide (k = k') then d' else (k', v') :: remove k d'
  end.

(** [d.pop(k)]: [None] stands for [KeyError]. *)
Definition pop (k : K) (d : list (K * V)) : option (V * list (K * V)) :=
  match get k d with
  | Some v => Some (v, remove k d)
  | None => None
  end.

Definition keys (d : list (K * V)) : list K := d.*1.

(** [dict(pairs)] *)
Definition of_pairs (l : list (K * V)) : list (K * V) :=
  foldl (fun d kv => set kv.1 kv.2 d) [] l.

End Dict.
End Dict.

(** ** Values, exceptions, results *)

(** Exceptions: [twisted.web.error.Error] carries a status and a message; any
  other exception is known by its type name and its [str()]. *)
Inductive Exn :=
| Error (status : nat) (message : str)
| Exception (type_name : str) (text : str).

Inductive Res (A : Type) :=
| Ok (a : A)
| Raise (e : Exn).
Arguments Ok {A} a.
Arguments Raise {A} e.

Definition OK : nat := 200.
Definition NO_CONTENT : nat := 204.
Definition FORBIDDEN : nat := 403.
Definition NOT_FOUND : nat := 404.
Definition INTERNAL_SERVER_ERROR : nat := 500.

(** [str(n)] for a length. *)
Definition str_of_nat (n : nat) : str :=
  NilZero.string_of_uint (Nat.to_uint n).

(** The byte [b"\n"]. *)
Definition newline : str := String (ascii_of_nat 10) "".

(** [len(s)] *)
Definition len (s : string) : nat := String.length s.

(** A Python float, by its IEEE-754 binary64 bit pattern; the module only
  passes floats on. *)
Record float := { float_bits : Z }.

(** Values bound to handler arguments. *)
Inductive Value :=
| VNone
| VStr (s : str)
| VBytes (b : bytes)
| VInt (z : Z)
| VFloat (f : float)
| VList (l : list Value).

(** What a handler returns: a JSON-serialisable object, raw bytes, or
  [None]. *)
Inductive Json :=
| JNull
| JString (s : str)
| JInt (z : Z)
| JFloat (f : float)
| JList (l : list Json)
| JDict (d : list (str * Json)).

Inductive Data :=
| DNone
| DJson (j : Json)
| DBytes (b : bytes).

Record ProcResult := {
  returncode : Z;
  stdout : bytes;
  stderr : bytes;
}.

(** The library functions the module calls.  [inr] results are the text of
  the exception the call raises. *)
Record Platform := {
  (** [b.decode()]: UTF-8, [inr] on [UnicodeDecodeError] *)
  decode : bytes → str + str;
  (** [float(b)]: [inr] on [ValueError] *)
  float_of : bytes → float + str;
  (** [zipfile.is_zipfile(BytesIO(b))] *)
  is_zipfile : bytes → bool;
  (** [s.splitlines()] *)
  splitlines : str → list str;
  (** [json.JSONEncoder().encode(d)], then [.encode()] *)
  json_encode : Json → bytes;
  (** [traceback.format_exc().encode()] *)
  format_exc : Exn → bytes;
  sys_executable : str;
  os_environ : gmap str str;
  (** [Popen(args, env=env).communicate()] *)
  Popen : list str → gmap str str → ProcResult;
  (** the n-th [uuid.uuid1().hex] *)
  uuid1_hex : nat → str;
  (** the n-th reading of [datetime.now()] *)
  datetime_now : nat → Z;
  (** default signal name: ["INT"], or ["BREAK"] on win32 *)
  default_signal : str;
}.

(** ** The host context *)

(** A queued message, as [scheduler.schedule] builds it. *)
Record Message := {
  m_name : str;
  m_job : str;
  m_priority : Value;
  m_settings : list (str * str);
  m_args : list (str * str);
}.

(** A launcher process; [end_time] is unset while it runs. *)
Module Process.
Record t := {
  project : str;
  spider : str;
  job : str;
  pid : nat;
  start_time : Z;
  end_time : option Z;
}.
End Process.
Abbreviation Process := Process.t.

Record FileSystem := {
  (** [os.path.exists] *)
  fs_exists : str → bool;
  (** [os.path.isfile] *)
  fs_isfile : str → bool;
  (** [open(p, "rb").read()], or the exception it raises *)
  fs_read : str → Res bytes;
  (** [os.getcwd()] *)
  getcwd : str;
}.

Record Root := {
  (** [root.poller.queues]: project -> pending messages *)
  queues : list (str * list Message);
  (** [root.launcher.processes]: slot -> process *)
  processes : list (nat * Process);
  (** [root.launcher.finished] *)
  finished : list Process;
  (** [root.eggstorage]: project -> (version, egg) *)
  eggstorage : gmap str (list (str * bytes));
  (** [SpiderList.cache] (a class attribute, shared by all requests) *)
  cache : gmap str (gmap (option str) (list str));
  debug : bool;
  node_name : str;
  runner : str;
  (** signals delivered through [process.transport.signalProcess] *)
  signalled : list (nat * str);
  (** how many readings of the clock and of [uuid1] were taken so far *)
  clock_reads : nat;
  uuid_reads : nat;
  files : FileSystem;
}.

(** The request object: parsed arguments and the response being built. *)
Inductive Method := GET | POST | HEAD | OPTIONS | OtherMethod (m : str).

Record Request := {
  args : list (bytes * list bytes);
  method : Method;
  code : nat;
  headers : gmap str str;
}.

Record State := {
  root : Root;
  tx : Request;
}.

(** ** The handler monad: state that survives exceptions *)
Definition M (A : Type) : Type := State → Res A * State.

Definition ret {A} (a : A) : M A := fun s => (Ok a, s).
Definition raise {A} (e : Exn) : M A := fun s => (Raise e, s).
Definition bind {A B} (m : M A) (k : A → M B) : M B :=
  fun s =>
    match m s with
    | (Ok a, s') => k a s'
    | (Raise e, s') => (Raise e, s')
    end.
Definition gets {A} (f : State → A) : M A := fun s => (Ok (f s), s).
Definition modify (f : State → State) : M unit := fun s => (Ok tt, f s).
(** [try: m except Exception as e: h e] *)
Definition try_except {A} (m : M A) (h : Exn → M A) : M A :=
  fun s =>
    match m s with
    | (Ok a, s') => (Ok a, s')
    | (Raise e, s') => h e s'
    end.

Notation "'do' x <- m ; k" := (bind m (fun x => k))
  (at level 10, x name, m at level 100, k at level 200).

(** *** State access *)

Definition with_root (f : Root → Root) (s : State) : State :=
  {| root := f (root s); tx := tx s |}.
Definition with_tx (f : Request → Request) (s : State) : State :=
  {| root := root s; tx := f (tx s) |}.

Definition set_queues (v : list (str * list Message)) (r : Root) : Root :=
  {| queues := v; processes := processes r; finished := finished r;
     eggstorage := eggstorage r; cache := cache r; debug := debug r;
     node_name := node_name r; runner := runner r; signalled := signalled r;
     clock_reads := clock_reads r; uuid_reads := uuid_reads r;
     files := files r |}.
Definition set_processes (v : list (nat * Process)) (r : Root) : Root :=
  {| queues := queues r; processes := v; finished := finished r;
     eggstorage := eggstorage r; cache := cache r; debug := debug r;
     node_name := node_name r; runner := runner r; signalled := signalled r;
     clock_reads := clock_reads r; uuid_reads := uuid_reads r;
     files := files r |}.
Definition set_finished (v : list Process) (r : Root) : Root :=
  {| queues := queues r; processes := processes r; finished := v;
     eggstorage := eggstorage r; cache := cache r; debug := debug r;
     node_name := node_name r; runner := runner r; signalled := signalled r;
     clock_reads := clock_reads r; uuid_reads := uuid_reads r;
     files := files r |}.
Definition set_eggstorage (v : gmap str (list (str * bytes))) (r : Root) : Root :=
  {| queues := queues r; processes := processes r; finished := finished r;
     eggstorage := v; cache := cache r; debug := debug r;
     node_name := node_name r; runner := runner r; signalled := signalled r;
     clock_reads := clock_reads r; uuid_reads := uuid_reads r;
     files := files r |}.
Definition set_cache (v : gmap str (gmap (option str) (list str))) (r : Root) : Root :=
  {| queues := queues r; processes := processes r; finished := finished r;
     eggstorage := eggstorage r; cache := v; debug := debug r;
     node_name := node_name r; runner := runner r; signalled := signalled r;
     clock_reads := clock_reads r; uuid_reads := uuid_reads r;
     files := files r |}.
Definition set_signalled (v : list (nat * str)) (r : Root) : Root :=
  {| queues := queues r; processes := processes r; finished := finished r;
     eggstorage := eggstorage r; cache := cache r; debug := debug r;
     node_name := node_name r; runner := runner r; signalled := v;
     clock_reads := clock_reads r; uuid_reads := uuid_reads r;
     files := files r |}.
Definition set_clock_reads (v : nat) (r : Root) : Root :=
  {| queues := queues r; processes := processes r; finished := finished r;
     eggstorage := eggstorage r; cache := cache r; debug := debug r;
     node_name := node_name r; runner := runner r; signalled := signalled r;
     clock_reads := v; uuid_reads := uuid_reads r;
     files := files r |}.
Definition set_uuid_reads (v : nat) (r : Root) : Root :=
  {| queues := queues r; processes := processes r; finished := finished r;
     eggstorage := eggstorage r; cache := cache r; debug := debug r;
     node_name := node_name r; runner := runner r; signalled := signalled r;
     clock_reads := clock_reads r; uuid_reads := v;
     files := files r |}.

Definition set_args (v : list (bytes * list bytes)) (t : Request) : Request :=
  {| args := v; method := method t; code := code t; headers := headers t |}.

Definition set_code (c : nat) (t : Request) : Request :=
  {| args := args t; method := method t; code := c; headers := headers t |}.
Definition set_header (k v : str) (t : Request) : Request :=
  {| args := args t; method := method t; code := code t;
     headers := <[k := v]> (headers t) |}.

(** [txrequest.setResponseCode(c)] *)
Definition setResponseCode (c : nat) : M unit :=
  modify (with_tx (set_code c)).

(** [txrequest.setHeader(k, v)]: replaces an earlier value of the header. *)
Definition setHeader (k v : str) : M unit :=
  modify (with_tx (set_header k v)).

(** Truth value of a string-or-[None]: [None] and [""] are false. *)
Definition truthy (v : option str) : bool :=
  match v with
  | Some s => negb (String.eqb s "")
  | None => false
  end.

(** [a or b] on byte strings. *)
Definition bytes_or (a b : bytes) : bytes :=
  if String.eqb a "" then b else a.

(** ** String helpers and posixpath *)

(** The double-quote character. *)
Definition dquote : str := String (ascii_of_nat 34) "".

(** [s.startswith(prefix)] *)
Definition startswith (s prefix : str) : bool := String.prefix prefix s.

(** [s.endswith(suffix)] *)
Definition endswith (s suffix : str) : bool :=
  let n := String.length s in
  let m := String.length suffix in
  (m <=? n)%nat && String.eqb (String.substring (n - m) m s) suffix.

(** [s.split("/")] *)
Fixpoint split_sep (s : str) : list str :=
  match s with
  | EmptyString => [""]
  | String c s' =>
      if Ascii.eqb c "/"%char then "" :: split_sep s'
      else
        match split_sep s' with
        | h :: t => String c h :: t
        | [] => [String c ""]
        end
  end.

(** [posixpath.join(a, *p)] *)
Fixpoint join (path : str) (p : list str) : str :=
  match p with
  | [] => path
  | b :: rest =>
      if startswith b "/" then join b rest
      else if String.eqb path "" || endswith path "/" then join (path +:+ b) rest
      else join (path +:+ "/" +:+ b) rest
  end.

(** One turn of the loop of [posixpath.normpath] over the components. *)
Definition normpath_step (initial_slashes : nat) (new_comps : list str)
    (comp : str) : list str :=
  if String.eqb comp "" || String.eqb comp "." then new_comps
  else if negb (String.eqb comp "..")
          || ((initial_slashes =? 0)%nat && bool_decide (new_comps = []))
          || (negb (bool_decide (new_comps = []))
              && String.eqb (List.last new_comps "") "..")
  then new_comps ++ [comp]
  else if negb (bool_decide (new_comps = [])) then removelast new_comps
  else new_comps.

(** [posixpath.normpath(path)] *)
Definition normpath (path : str) : str :=
  if String.eqb path "" then "."
  else
    let initial_slashes :=
      if startswith path "/" then
        if startswith path "//" && negb (startswith path "///") then 2 else 1
      else 0 in
    let comps := foldl (normpath_step initial_slashes) [] (split_sep path) in
    let path := String.concat "/" comps in
    let path :=
      match initial_slashes with
      | 0 => path
      | 1 => "/" +:+ path
      | _ => "//" +:+ path
      end in
    if String.eqb path "" then "." else path.

(** [posixpath.abspath(path)], given [os.getcwd()]. *)
Definition abspath (cwd : str) (path : str) : str :=
  if startswith path "/" then normpath path else normpath (join cwd [path]).

(** ** Parameter declarations *)

Inductive PType := type_str | type_float | type_bytes.

(** A default is a literal, or a callable evaluated afresh per request. *)
Inductive DefaultSpec :=
| Literal (v : Value)
| Callable (f : M Value).

(** The arguments of one [@param(...)] line. *)
Record Param := {
  decoded : str;
  dest : option str;
  required : bool;
  default : DefaultSpec;
  multiple : bool;
  type : PType;
}.

(** A Twisted resource, by the [render_*] methods its class defines. *)
Record Resource := {
  render_GET : option (M Data);
  render_POST : option (M Data);
  render_OPTIONS : option (M Data);
}.

(** The seventeen resources of the module. *)
Inductive Operation :=
| DaemonStatus | SpiderStatus | SpiderStorage | SpiderDownloadLog
| SpiderDownloadResult | SpiderLogs | SpiderResults | Schedule | Cancel
| AddVersion | ListProjects | ListVersions | ListSpiders | Status | ListJobs
| DeleteProject | DeleteVersion.

(** The class a resource derives its [render] from. *)
Inductive BaseClass :=
| WsResource | RawContentResource | JustContentResource | SpiderResultsClass.

Section Handlers.
Variable P : Platform.

(** [b.decode()] as a computation. *)
Definition decode_m (b : bytes) : M str :=
  match decode P b with
  | inl s => ret s
  | inr e => raise (Exception "UnicodeDecodeError" e)
  end.

(** ** SpiderList *)

(** [self.cache[project]] on the [defaultdict(dict)]: a missing project is
  created with an empty dictionary. *)
Definition cache_getitem (project : str) : M (gmap (option str) (list str)) :=
  fun s =>
    match cache (root s) !! project with
    | Some d => (Ok d, s)
    | None => (Ok ∅, with_root (set_cache (<[project := ∅]> (cache (root s)))) s)
    end.

(** In-place update of the dictionary held at [self.cache[project]]. *)
Definition cache_update (project : str)
    (f : gmap (option str) (list str) → gmap (option str) (list str)) : M unit :=
  do d <- cache_getitem project;
  modify (with_root (fun r => set_cache (<[project := f d]> (cache r)) r)).

Definition SpiderList_set (project : str) (version : option str) (runner : str)
  : M (list str) :=
  let env := <["PYTHONIOENCODING" := "UTF-8"]> (os_environ P) in
  let env := <["SCRAPY_PROJECT" := project]> env in
  let env :=
    match version with
    | Some v => if truthy version then <["SCRAPYD_EGG_VERSION" := v]> env else env
    | None => env
    end in
  let args := [sys_executable P; "-m"; runner; "list"; "-s"; "LOG_STDOUT=0"] in
  let process := Popen P args env in
  if decide (returncode process ≠ 0%Z) then
    do text <- decode_m (bytes_or (stderr process) (bytes_or (stdout process) ""));
    raise (Exception "RunnerError" text)
  else
    do out <- decode_m (stdout process);
    let spiders := splitlines P out in
    do _ <- cache_update project (delete None);
    do _ <- cache_update project (<[version := spiders]>);
    ret spiders.

Definition SpiderList_get (project : str) (version : option str) (runner : str)
  : M (list str) :=
  do d <- cache_getitem project;
  match d !! version with
  | Some spiders => ret spiders
  | None => SpiderList_set project version runner
  end.

Definition SpiderList_delete (project : str) (version : option str) : M unit :=
  match version with
  | None => modify (with_root (fun r => set_cache (delete project (cache r)) r))
  | Some _ =>
      do _ <- cache_update project (delete None);
      cache_update project (delete version)
  end.

(** ** param *)

(** [value.decode() if type is str else type(value)]; [inr] is the text of
  the [UnicodeDecodeError] or [ValueError]. *)
Definition convert (type : PType) (value : bytes) : Value + str :=
  match type with
  | type_str =>
      match decode P value with inl s => inl (VStr s) | inr e => inr e end
  | type_float =>
      match float_of P value with inl f => inl (VFloat f) | inr e => inr e end
  | type_bytes => inl (VBytes value)
  end.

(** [list(values)] over the generator: stops at the first failure. *)
Fixpoint convert_all (type : PType) (values : list bytes) : list Value + str :=
  match values with
  | [] => inl []
  | value :: rest =>
      match convert type value with
      | inr e => inr e
      | inl v =>
          match convert_all type rest with
          | inr e => inr e
          | inl vs => inl (v :: vs)
          end
      end
  end.

(** [default() if callable(default) else default] *)
Definition eval_default (p : Param) : M Value :=
  match default p with
  | Callable f => f
  | Literal v => ret v
  end.

(** [dest], which is [decoded] unless given. *)
Definition dest_of (p : Param) : str :=
  match dest p with
  | Some d => d
  | None => decoded p
  end.

(** The value a [@param] line binds, as the wrapper computes it before it
  calls the function.  Error messages are carried as text: the source formats
  them as bytes around [decoded.encode()] and the renderer decodes them. *)
Definition param_value (p : Param) : M Value :=
  let encoded := decoded p in
  do default_value <- eval_default p;
  do a <- gets (fun s => args (tx s));
  match Dict.pop encoded a with
  | None =>
      if required p then
        raise (Error OK ("'" +:+ encoded +:+ "' parameter is required"))
      else ret default_value
  | Some (values, a') =>
      do _ <- modify (with_tx (set_args a'));
      if multiple p then
        match convert_all (type p) values with
        | inl vs => ret (VList vs)
        | inr e => raise (Error OK (encoded +:+ " is invalid: " +:+ e))
        end
      else
        match values with
        | [] => raise (Exception "StopIteration" "")
        | value :: _ =>
            match convert (type p) value with
            | inl v => ret v
            | inr e => raise (Error OK (encoded +:+ " is invalid: " +:+ e))
            end
        end
  end.

(** The decorator: the wrapper binds the value under [dest] and calls the
  function. *)
Definition param (p : Param) (func : gmap str Value → M Data)
    (kwargs : gmap str Value) : M Data :=
  do value <- param_value p;
  func (<[dest_of p := value]> kwargs).

(** A stack of [@param] lines over a function, outermost first. *)
Definition decorate (decls : list Param) (func : gmap str Value → M Data)
  : gmap str Value → M Data :=
  foldr param func decls.

(** [lambda: uuid.uuid1().hex] *)
Definition uuid1 : M Value :=
  fun s =>
    (Ok (VStr (uuid1_hex P (uuid_reads (root s)))),
     with_root (set_uuid_reads (S (uuid_reads (root s)))) s).

(** Binding of keyword arguments to the parameters of the decorated function;
  a value of another shape than the body uses is a [TypeError]. *)
Definition arg_str (kwargs : gmap str Value) (name : str) : M str :=
  match kwargs !! name with
  | Some (VStr s) => ret s
  | _ => raise (Exception "TypeError" name)
  end.
Definition arg_bytes (kwargs : gmap str Value) (name : str) : M bytes :=
  match kwargs !! name with
  | Some (VBytes s) => ret s
  | _ => raise (Exception "TypeError" name)
  end.
Definition arg_opt_str (kwargs : gmap str Value) (name : str) : M (option str) :=
  match kwargs !! name with
  | Some (VStr s) => ret (Some s)
  | Some VNone => ret None
  | _ => raise (Exception "TypeError" name)
  end.
Definition arg_any (kwargs : gmap str Value) (name : str) : M Value :=
  match kwargs !! name with
  | Some v => ret v
  | None => raise (Exception "TypeError" name)
  end.
Definition arg_str_list (kwargs : gmap str Value) (name : str) : M (list str) :=
  match kwargs !! name with
  | Some (VList l) =>
      foldr (fun v acc =>
               do rest <- acc;
               match v with
               | VStr s => ret (s :: rest)
               | _ => raise (Exception "TypeError" name)
               end) (ret []) l
  | _ => raise (Exception "TypeError" name)
  end.

(** ** twisted.web.resource.Resource.render

  Dispatch on the request method; [render_HEAD] is inherited and calls
  [self.render_GET]. *)
Definition Resource_render (r : Resource) : M Data :=
  do m <- gets (fun s => method (tx s));
  match m with
  | GET =>
      match render_GET r with
      | Some h => h
      | None => raise (Exception "UnsupportedMethod" "")
      end
  | POST =>
      match render_POST r with
      | Some h => h
      | None => raise (Exception "UnsupportedMethod" "")
      end
  | HEAD =>
      match render_GET r with
      | Some h => h
      | None => raise (Exception "AttributeError" "render_GET")
      end
  | OPTIONS =>
      match render_OPTIONS r with
      | Some h => h
      | None => raise (Exception "UnsupportedMethod" "")
      end
  | OtherMethod _ => raise (Exception "UnsupportedMethod" "")
  end.

(** [methods]: ["OPTIONS, HEAD"], then GET and POST when defined. *)
Definition methods (r : Resource) : str :=
  ("OPTIONS, HEAD"
   +:+ (if render_GET r is Some _ then ", GET" else "")
   +:+ (if render_POST r is Some _ then ", POST" else "")).

Definition render_OPTIONS_of (r : Resource) : M Data :=
  do _ <- setHeader "Allow" (methods r);
  do _ <- setResponseCode NO_CONTENT;
  ret DNone.

(** [e.message.decode() if isinstance(e, error.Error)
     else f"{type(e).__name__}: {e}"] *)
Definition message_of (e : Exn) : str :=
  match e with
  | Error _ message => message
  | Exception type_name text => type_name +:+ ": " +:+ text
  end.

(** [if isinstance(e, error.Error): txrequest.setResponseCode(int(e.status))] *)
Definition set_status_of (e : Exn) : M unit :=
  match e with
  | Error status _ => setResponseCode status
  | Exception _ _ => ret tt
  end.

Definition error_data (e : Exn) : list (str * Json) :=
  [("status", JString "error"); ("message", JString (message_of e))].

(** The tail shared by [WsResource.render] and [JustContentResource.render]:
  CORS headers and [Content-Length]. *)
Definition finish (r : Resource) (content : bytes) : M Data :=
  do _ <- setHeader "Access-Control-Allow-Origin" "*";
  do _ <- setHeader "Access-Control-Allow-Methods" (methods r);
  do _ <- setHeader "Access-Control-Allow-Headers" "X-Requested-With";
  do _ <- setHeader "Content-Length" (str_of_nat (len content));
  ret (DBytes content).

(** The part of [WsResource.render] after the [try] statement. *)
Definition WsResource_finish (r : Resource) (data : Data) : M Data :=
  match data with
  | DNone => finish r ""
  | DJson (JDict d) =>
      do node <- gets (fun s => node_name (root s));
      let d := Dict.set "node_name" (JString node) d in
      let content := (json_encode P (JDict d) +:+ newline) in
      do _ <- setHeader "Content-Type" "application/json";
      finish r content
  | _ => raise (Exception "TypeError" "")
  end.

Definition WsResource_render (r : Resource) : M Data :=
  fun s =>
    match Resource_render r s with
    | (Raise e, s1) =>
        (do _ <- set_status_of e;
         do dbg <- gets (fun s => debug (root s));
         if dbg then ret (DBytes (format_exc P e))
         else WsResource_finish r (DJson (JDict (error_data e)))) s1
    | (Ok data, s1) =>
        match data with
        | DNone => WsResource_finish r DNone s1
        | DJson (JDict d) =>
            WsResource_finish r
              (DJson (JDict (Dict.set "status" (JString "ok") d))) s1
        | _ => (Raise (Exception "TypeError" ""), s1)
        end
    end.

(** The part of [JustContentResource.render] after the [try] statement. *)
Definition JustContentResource_finish (r : Resource) (data : Data) : M Data :=
  match data with
  | DNone => finish r ""
  | DJson j =>
      let content := (json_encode P j +:+ newline) in
      do _ <- setHeader "Content-Type" "application/json";
      finish r content
  | DBytes _ => raise (Exception "TypeError" "")
  end.

Definition JustContentResource_render (r : Resource) : M Data :=
  fun s =>
    match Resource_render r s with
    | (Raise e, s1) =>
        (do _ <- set_status_of e;
         do dbg <- gets (fun s => debug (root s));
         if dbg then ret (DBytes (format_exc P e))
         else JustContentResource_finish r (DJson (JDict (error_data e)))) s1
    | (Ok data, s1) => JustContentResource_finish r data s1
    end.

(** [RawContentResource.render]: no interception at all. *)
Definition RawContentResource_render (r : Resource) : M Data :=
  Resource_render r.

(** [SpiderResults.render] *)
Definition SpiderResults_render (r : Resource) : M Data :=
  try_except (Resource_render r) (fun e =>
    do _ <- set_status_of e;
    do dbg <- gets (fun s => debug (root s));
    if dbg then ret (DBytes (format_exc P e))
    else ret (DBytes (json_encode P (JDict (error_data e))))).

(** ** External collaborators of the host context *)

(** Modelled from the spec: the per-project queue is an ordered list of
  pending messages; [queue.remove(func)] drops every message the predicate
  accepts and returns how many it dropped. *)
Definition queue_remove (func : Message → bool) (q : list Message)
  : nat * list Message :=
  (List.length (filter (fun m => func m = true) q),
   filter (fun m => func m ≠ true) q).

(** Modelled from the spec: [scheduler.schedule(project, spider, priority=,
  settings=, _job=, **args)] enqueues one message at the back of the
  project's queue.  The priority is stored with the message; how a queue
  orders messages of different priorities is not modelled. *)
Definition scheduler_schedule (project spider : str) (priority : Value)
    (settings : list (str * str)) (_job : str) (args : list (str * str))
  : M unit :=
  do qs <- gets (fun s => queues (root s));
  match Dict.get project qs with
  | None => raise (Exception "KeyError" project)
  | Some q =>
      let message :=
        {| m_name := spider; m_job := _job; m_priority := priority;
           m_settings := settings; m_args := args |} in
      modify (with_root (set_queues (Dict.set project (q ++ [message]) qs)))
  end.

(** Modelled from the spec: the egg store maps a project to its versions.
  [eggstorage.get(project, version)] with an explicit version; [None] stands
  for the pair [(None, None)]. *)
Definition eggstorage_get (eggs : gmap str (list (str * bytes)))
    (project version : str) : option (str * bytes) :=
  match eggs !! project with
  | Some versions =>
      match Dict.get version versions with
      | Some egg => Some (version, egg)
      | None => None
      end
  | None => None
  end.

(** Modelled from the spec: [eggstorage.put(egg, project, version)]. *)
Definition eggstorage_put (egg : bytes) (project version : str) : M unit :=
  modify (with_root (fun r =>
    let versions := from_option id [] (eggstorage r !! project) in
    set_eggstorage
      (<[project := Dict.set version egg versions]> (eggstorage r)) r)).

(** Modelled from the spec: [eggstorage.delete(project, version)], with
  distinguishable signals for an unknown project and an unknown version.
  Which of the two is raised when a version is asked of an unknown project,
  and whether a project outlives its last version, are choices made here:
  the spec fixes neither. *)
Definition eggstorage_delete (project : str) (version : option str) : M unit :=
  do eggs <- gets (fun s => eggstorage (root s));
  match eggs !! project with
  | None => raise (Exception "ProjectNotFoundError" "")
  | Some versions =>
      match version with
      | None => modify (with_root (set_eggstorage (delete project eggs)))
      | Some v =>
          if Dict.mem v versions then
            modify (with_root
              (set_eggstorage (<[project := Dict.remove v versions]> eggs)))
          else raise (Exception "EggNotFoundError" "")
      end
  end.

(** Modelled from the spec: [root.update_projects()] refreshes the known
  projects from the egg store: every stored project has a queue, a project
  that is new gets an empty one. *)
Definition update_projects : M unit :=
  modify (with_root (fun r =>
    set_queues
      (map (fun p => (p, from_option id [] (Dict.get p (queues r))))
           (elements (dom (eggstorage r)))) r)).

(** Modelled from the spec: [process.transport.signalProcess(signal)]
  delivers the signal and returns. *)
Definition signalProcess (process : Process) (signal : str) : M unit :=
  modify (with_root (fun r =>
    set_signalled (signalled r ++ [(Process.pid process, signal)]) r)).

(** Modelled from the spec: [launcher.finished.add(process)] appends. *)
Definition finished_add (process : Process) : M unit :=
  modify (with_root (fun r => set_finished (finished r ++ [process]) r)).

(** [process.end_time = t] *)
Definition set_end_time (t : Z) (process : Process) : Process :=
  {| Process.project := Process.project process;
     Process.spider := Process.spider process;
     Process.job := Process.job process;
     Process.pid := Process.pid process;
     Process.start_time := Process.start_time process;
     Process.end_time := Some t |}.

(** [datetime.now()] *)
Definition now : M Z :=
  fun s =>
    (Ok (datetime_now P (clock_reads (root s))),
     with_root (set_clock_reads (S (clock_reads (root s)))) s).

(** [launcher.processes.pop(key)] *)
Definition processes_pop (key : nat) : M Process :=
  do ps <- gets (fun s => processes (root s));
  match Dict.pop key ps with
  | Some (process, ps') =>
      do _ <- modify (with_root (set_processes ps'));
      ret process
  | None => raise (Exception "KeyError" "")
  end.

Definition project_not_found {A} (project : str) : M A :=
  raise (Error OK ("project '" +:+ project +:+ "' not found")).
Definition version_not_found {A} (version : str) : M A :=
  raise (Error OK ("version '" +:+ version +:+ "' not found")).
Definition spider_not_found {A} (spider : str) : M A :=
  raise (Error OK ("spider '" +:+ spider +:+ "' not found")).

(** ** SpiderDownloadResult *)

Definition File_not_found : bytes := "File not found".

Definition SpiderDownloadResult_render_GET (project job_id : str) : M Data :=
  do fs <- gets (fun s => files (root s));
  let directory_path := "results/" +:+ project +:+ "/" +:+ job_id in
  if negb (fs_exists fs directory_path) || negb (fs_isfile fs directory_path)
  then
    do _ <- setResponseCode NOT_FOUND;
    ret (DBytes File_not_found)
  else
    let base_directory := "results" in
    let directory_path := join base_directory [project; job_id] in
    let absolute_path := abspath (getcwd fs) directory_path in
    if negb (startswith absolute_path (abspath (getcwd fs) base_directory))
    then
      do _ <- setResponseCode FORBIDDEN;
      ret (DBytes File_not_found)
    else if negb (fs_exists fs absolute_path)
            || negb (fs_isfile fs absolute_path)
    then
      do _ <- setResponseCode NOT_FOUND;
      ret (DBytes File_not_found)
    else
      match fs_read fs directory_path with
      | Ok content =>
          do _ <- setHeader "Content-Type" "application/json";
          do _ <- setHeader "Content-Disposition"
                    ("attachment; filename=" +:+ dquote +:+ job_id +:+ dquote);
          do _ <- setHeader "Content-Length" (str_of_nat (len job_id));
          ret (DBytes content)
      | Raise e =>
          do _ <- setResponseCode INTERNAL_SERVER_ERROR;
          ret (DBytes "Error sending results")
      end.

(** ** SpiderResults *)

Definition SpiderResults_render_GET (project configID configName : str)
  : M Data :=
  do fs <- gets (fun s => files (root s));
  let file_path :=
    "results/" +:+ project +:+ "/local-" +:+ configName +:+ "-" +:+ configID
    +:+ "-result.json" in
  match fs_read fs file_path with
  | Ok content =>
      do _ <- setHeader "Content-Disposition"
                ("attachment; filename=" +:+ configName +:+ "-" +:+ configID
                 +:+ "-result");
      do _ <- setHeader "Content-Type" "application/octet-stream";
      do _ <- setHeader "Content-Length" (str_of_nat (len content));
      ret (DBytes content)
  | Raise (Exception "FileNotFoundError" _) =>
      do _ <- setResponseCode 404;
      ret (DBytes File_not_found)
  | Raise e =>
      do _ <- setResponseCode 500;
      do dbg <- gets (fun s => debug (root s));
      if dbg then ret (DBytes (format_exc P e))
      else
        ret (DBytes ("Error: " +:+
                       match e with
                       | Error _ message => message
                       | Exception _ text => text
                       end))
  end.

(** ** Schedule *)

(** [{key.decode(): values[0].decode() for key, values in args.items()}] *)
Fixpoint decode_items (items : list (bytes * list bytes))
    (acc : list (str * str)) : M (list (str * str)) :=
  match items with
  | [] => ret acc
  | (key, values) :: rest =>
      do k <- decode_m key;
      match values with
      | [] => raise (Exception "IndexError" "list index out of range")
      | v0 :: _ =>
          do v <- decode_m v0;
          decode_items rest (Dict.set k v acc)
      end
  end.

(** [s.split("=", 1)] when it has two parts. *)
Fixpoint split_eq (s : str) : option (str * str) :=
  match s with
  | EmptyString => None
  | String c s' =>
      if Ascii.eqb c "="%char then Some ("", s')
      else
        match split_eq s' with
        | Some (k, v) => Some (String c k, v)
        | None => None
        end
  end.

(** [dict(s.split("=", 1) for s in setting)], from the i-th element on. *)
Fixpoint settings_dict (setting : list str) (i : nat)
    (acc : list (str * str)) : M (list (str * str)) :=
  match setting with
  | [] => ret acc
  | s :: rest =>
      match split_eq s with
      | Some (k, v) => settings_dict rest (S i) (Dict.set k v acc)
      | None =>
          raise (Exception "ValueError"
                   ("dictionary update sequence element #" +:+ str_of_nat i
                    +:+ " has length 1; 2 is required"))
      end
  end.

(** A key of [**args] that repeats a keyword written out in the call. *)
Definition keyword_clash (args : list (str * str)) : bool :=
  Dict.mem "priority" args || Dict.mem "settings" args || Dict.mem "_job" args.

(** [if version is not None: args["_version"] = version] *)
Definition add_version (version : option str) (args : list (str * str))
  : list (str * str) :=
  match version with
  | Some v => Dict.set "_version" v args
  | None => args
  end.

Definition Schedule_render_POST (project spider : str) (version : option str)
    (jobid : str) (priority : Value) (setting : list str) : M Data :=
  do qs <- gets (fun s => queues (root s));
  if negb (Dict.mem project qs) then project_not_found project
  else
    do eggs <- gets (fun s => eggstorage (root s));
    do _ <-
      (match version with
       | Some v =>
           if truthy version
              && bool_decide (eggstorage_get eggs project v = None)
           then version_not_found v else ret tt
       | None => ret tt
       end);
    do runner <- gets (fun s => runner (root s));
    do spiders <- SpiderList_get project version runner;
    if negb (bool_decide (spider ∈ spiders)) then spider_not_found spider
    else
      do a <- gets (fun s => args (tx s));
      do args <- decode_items a [];
      let args := add_version version args in
      do settings <- settings_dict setting 0 [];
      if keyword_clash args then raise (Exception "TypeError" "")
      else
        do _ <- scheduler_schedule project spider priority settings jobid args;
        ret (DJson (JDict [("jobid", JString jobid)])).

(** ** Cancel *)

Definition json_of_state (state : option str) : Json :=
  match state with
  | Some s => JString s
  | None => JNull
  end.

(** The loop over [list(self.root.launcher.processes.items())]. *)
Fixpoint Cancel_loop (project job signal : str)
    (items : list (nat * Process)) (prevstate : option str)
  : M (option str) :=
  match items with
  | [] => ret prevstate
  | (key, process) :: rest =>
      if String.eqb (Process.project process) project
         && String.eqb (Process.job process) job
      then
        do _ <- signalProcess process signal;
        do _ <- processes_pop key;
        do t <- now;
        let process := set_end_time t process in
        do _ <- finished_add process;
        Cancel_loop project job signal rest (Some "running")
      else Cancel_loop project job signal rest prevstate
  end.

Definition Cancel_render_POST (project job signal : str) : M Data :=
  do qs <- gets (fun s => queues (root s));
  match Dict.get project qs with
  | None => project_not_found project
  | Some q =>
      let (removed, q') := queue_remove (fun message => String.eqb (m_job message) job) q in
      do _ <- modify (with_root (set_queues (Dict.set project q' qs)));
      let prevstate := if (0 <? removed)%nat then Some "pending" else None in
      do items <- gets (fun s => processes (root s));
      do prevstate <- Cancel_loop project job signal items prevstate;
      ret (DJson (JDict [("prevstate", json_of_state prevstate)]))
  end.

(** ** AddVersion *)

Definition AddVersion_render_POST (project version : str) (egg : bytes)
  : M Data :=
  if negb (is_zipfile P egg) then
    raise (Error OK
      "egg is not a ZIP file (if using curl, use egg=@path not egg=path)")
  else
    do _ <- eggstorage_put egg project version;
    do _ <- update_projects;
    do runner <- gets (fun s => runner (root s));
    do spiders <- SpiderList_set project (Some version) runner;
    ret (DJson (JDict [("project", JString project);
                       ("version", JString version);
                       ("spiders", JInt (Z.of_nat (List.length spiders)))])).

(** ** ListSpiders *)

Definition ListSpiders_render_GET (project : str) (version : option str)
  : M Data :=
  do qs <- gets (fun s => queues (root s));
  if negb (Dict.mem project qs) then project_not_found project
  else
    do eggs <- gets (fun s => eggstorage (root s));
    do _ <-
      (match version with
       | Some v =>
           if truthy version
              && bool_decide (eggstorage_get eggs project v = None)
           then version_not_found v else ret tt
       | None => ret tt
       end);
    do runner <- gets (fun s => runner (root s));
    do spiders <- SpiderList_get project version runner;
    ret (DJson (JDict [("spiders", JList (map JString spiders))])).

(** ** Status *)

(** [(project is None or x.project == project) and x.job == job] *)
Definition matches (project : option str) (job : str) (x : Process) : bool :=
  match project with
  | None => true
  | Some p => String.eqb (Process.project x) p
  end && String.eqb (Process.job x) job.

Definition currstate (state : option str) : Data :=
  DJson (JDict [("currstate", json_of_state state)]).

Definition Status_render_GET (job : str) (project : option str) : M Data :=
  do queues <- gets (fun s => queues (root s));
  if match project with
     | Some p => negb (Dict.mem p queues)
     | None => false
     end
  then project_not_found (from_option id "" project)
  else
    do finished <- gets (fun s => finished (root s));
    if existsb (matches project job) finished then ret (currstate (Some "finished"))
    else
      do processes <- gets (fun s => processes (root s));
      if existsb (matches project job) processes.*2
      then ret (currstate (Some "running"))
      else
        let names :=
          match project with
          | None => Dict.keys queues
          | Some p => [p]
          end in
        if existsb (fun queue_name =>
                      existsb (fun message => String.eqb (m_job message) job)
                        (from_option id [] (Dict.get queue_name queues)))
             names
        then ret (currstate (Some "pending"))
        else ret (currstate None).

(** ** DeleteProject, DeleteVersion *)

Definition _delete_version (project : str) (version : option str) : M unit :=
  do _ <-
    try_except (eggstorage_delete project version) (fun e =>
      match e with
      | Exception "ProjectNotFoundError" _ => project_not_found project
      | Exception "EggNotFoundError" _ =>
          version_not_found (from_option id "" version)
      | _ => raise e
      end);
  update_projects.

Definition DeleteProject_render_POST (project : str) : M Data :=
  do _ <- _delete_version project None;
  do _ <- SpiderList_delete project None;
  ret (DJson (JDict [])).

Definition DeleteVersion_render_POST (project version : str) : M Data :=
  do _ <- _delete_version project (Some version);
  do _ <- SpiderList_delete project (Some version);
  ret (DJson (JDict [])).

(** ** The resources *)

(** [@param(decoded)] with the decorator's defaults. *)
Definition param_ (decoded : str) : Param :=
  {| decoded := decoded; dest := None; required := true;
     default := Literal VNone; multiple := false; type := type_str |}.

(** [@param(decoded, required=False)], with a default. *)
Definition param_optional (decoded : str) (default : DefaultSpec) : Param :=
  {| decoded := decoded; dest := None; required := false;
     default := default; multiple := false; type := type_str |}.

(** The [@param] lines of each handler, in the order they are written. *)
Definition decls (op : Operation) : list Param :=
  match op with
  | DaemonStatus | SpiderStorage | ListProjects => []
  | SpiderStatus => [param_ "project"; param_ "jobid"]
  | SpiderDownloadLog | SpiderDownloadResult =>
      [param_ "project"; param_ "job_id"]
  | SpiderLogs =>
      [param_ "project"; param_ "jobid";
       param_optional "maxlen" (Literal VNone)]
  | SpiderResults =>
      [param_ "project"; param_ "configID"; param_ "configName"]
  | Schedule =>
      [param_ "project"; param_ "spider";
       {| decoded := "_version"; dest := Some "version"; required := false;
          default := Literal VNone; multiple := false; type := type_str |};
       param_optional "jobid" (Callable uuid1);
       {| decoded := "priority"; dest := None; required := false;
          default := Literal (VInt 0); multiple := false;
          type := type_float |};
       {| decoded := "setting"; dest := None; required := false;
          default := Callable (ret (VList [])); multiple := true;
          type := type_str |}]
  | Cancel =>
      [param_ "project"; param_ "job";
       param_optional "signal" (Literal (VStr (default_signal P)))]
  | AddVersion =>
      [param_ "project"; param_ "version";
       {| decoded := "egg"; dest := None; required := true;
          default := Literal VNone; multiple := false; type := type_bytes |}]
  | ListVersions => [param_ "project"]
  | ListSpiders =>
      [param_ "project";
       {| decoded := "_version"; dest := Some "version"; required := false;
          default := Literal VNone; multiple := false; type := type_str |}]
  | Status => [param_ "job"; param_optional "project" (Literal VNone)]
  | ListJobs => [param_optional "project" (Literal VNone)]
  | DeleteProject => [param_ "project"]
  | DeleteVersion => [param_ "project"; param_ "version"]
  end.

Definition base_class (op : Operation) : BaseClass :=
  match op with
  | SpiderDownloadLog | SpiderDownloadResult => RawContentResource
  | SpiderStorage | SpiderLogs => JustContentResource
  | SpiderResults => SpiderResultsClass
  | _ => WsResource
  end.

(** Whether the class defines [render_POST] (else it defines [render_GET]). *)
Definition is_POST (op : Operation) : bool :=
  match op with
  | Schedule | Cancel | AddVersion | DeleteProject | DeleteVersion => true
  | _ => false
  end.

(** Bodies of the handlers that are not written out here (process metrics,
  directory listings, log download and tail, counts and listings). *)
Variable other_body : Operation → gmap str Value → M Data.

(** The decorated function of each handler, applied to its keyword
  arguments. *)
Definition func (op : Operation) (kwargs : gmap str Value) : M Data :=
  match op with
  | SpiderDownloadResult =>
      do project <- arg_str kwargs "project";
      do job_id <- arg_str kwargs "job_id";
      SpiderDownloadResult_render_GET project job_id
  | SpiderResults =>
      do project <- arg_str kwargs "project";
      do configID <- arg_str kwargs "configID";
      do configName <- arg_str kwargs "configName";
      SpiderResults_render_GET project configID configName
  | Schedule =>
      do project <- arg_str kwargs "project";
      do spider <- arg_str kwargs "spider";
      do version <- arg_opt_str kwargs "version";
      do jobid <- arg_str kwargs "jobid";
      do priority <- arg_any kwargs "priority";
      do setting <- arg_str_list kwargs "setting";
      Schedule_render_POST project spider version jobid priority setting
  | Cancel =>
      do project <- arg_str kwargs "project";
      do job <- arg_str kwargs "job";
      do signal <- arg_str kwargs "signal";
      Cancel_render_POST project job signal
  | AddVersion =>
      do project <- arg_str kwargs "project";
      do version <- arg_str kwargs "version";
      do egg <- arg_bytes kwargs "egg";
      AddVersion_render_POST project version egg
  | ListSpiders =>
      do project <- arg_str kwargs "project";
      do version <- arg_opt_str kwargs "version";
      ListSpiders_render_GET project version
  | Status =>
      do job <- arg_str kwargs "job";
      do project <- arg_opt_str kwargs "project";
      Status_render_GET job project
  | DeleteProject =>
      do project <- arg_str kwargs "project";
      DeleteProject_render_POST project
  | DeleteVersion =>
      do project <- arg_str kwargs "project";
      do version <- arg_str kwargs "version";
      DeleteVersion_render_POST project version
  | _ => other_body op kwargs
  end.

(** A handler as its class holds it: a function [f] under the decorators
  of the operation. *)
Definition handler_of (op : Operation) (f : gmap str Value → M Data)
  : M Data :=
  decorate (decls op) f ∅.

Definition resource_of (op : Operation) (f : gmap str Value → M Data)
  : Resource :=
  let r :=
    {| render_GET := if is_POST op then None else Some (handler_of op f);
       render_POST := if is_POST op then Some (handler_of op f) else None;
       render_OPTIONS := None |} in
  match base_class op with
  | WsResource | JustContentResource =>
      {| render_GET := render_GET r; render_POST := render_POST r;
         render_OPTIONS := Some (render_OPTIONS_of r) |}
  | RawContentResource | SpiderResultsClass => r
  end.

(** [resource.render(txrequest)], for the class of the operation. *)
Definition render_of (op : Operation) (f : gmap str Value → M Data)
  : M Data :=
  match base_class op with
  | WsResource => WsResource_render (resource_of op f)
  | JustContentResource => JustContentResource_render (resource_of op f)
  | RawContentResource => RawContentResource_render (resource_of op f)
  | SpiderResultsClass => SpiderResults_render (resource_of op f)
  end.

(** The module's resources: each operation with its own function. *)
Definition handler (op : Operation) : M Data := handler_of op (func op).
Definition render (op : Operation) : M Data := render_of op (func op).

End Handlers.

(** ** Reading the state *)

(** The cached spider list of a (project, version-or-unspecified) pair. *)
Definition entry (s : State) (project : str) (version : option str)
  : option (list str) :=
  match cache (root s) !! project with
  | Some d => d !! version
  | None => None
  end.


(** The keyword arguments that a stack of [@param] lines builds when every
  line binds; the first line that fails raises. *)
Fixpoint bind_params (P : Platform) (decls : list Param)
    (kwargs : gmap str Value) : M (gmap str Value) :=
  match decls with
  | [] => ret kwargs
  | p :: rest =>
      do value <- param_value P p;
      bind_params P rest (<[dest_of p := value]> kwargs)
  end.

(** Whether the default of a declaration is a literal. *)
Definition is_literal (p : Param) : bool :=
  match default p with
  | Literal _ => true
  | Callable _ => false
  end.

(** Every declaration up to the last required one has a literal default. *)
Fixpoint literal_prefix (decls : list Param) : bool :=
  match decls with
  | [] => true
  | p :: rest =>
      if existsb required (p :: rest) then is_literal p && literal_prefix rest
      else true
  end.

(** The body that reports a failure, for the class of the operation: the
  JSON error object, with the node name and a final newline as the class
  adds them. *)
Definition error_envelope (P : Platform) (op : Operation) (node message : str)
  : bytes :=
  match base_class op with
  | WsResource =>
      json_encode P (JDict [("status", JString "error");
                            ("message", JString message);
                            ("node_name", JString node)]) +:+ newline
  | JustContentResource =>
      json_encode P (JDict [("status", JString "error");
                            ("message", JString message)]) +:+ newline
  | _ =>
      json_encode P (JDict [("status", JString "error");
                            ("message", JString message)])
  end.

(** The request methods that reach the handler of an operation. *)
Definition handles (op : Operation) (m : Method) : bool :=
  match m with
  | GET | HEAD => negb (is_POST op)
  | POST => is_POST op
  | _ => false
  end.

(** Two host contexts that differ at most in the count of [uuid1] calls. *)
Definition same_host (r r' : Root) : Prop :=
  r' = set_uuid_reads (uuid_reads r') r.

(** Two host contexts that differ at most in the spider-list cache. *)
Definition same_but_cache (r r' : Root) : Prop :=
  r' = set_cache (cache r') r.

(** A default whose evaluation cannot fail and leaves the request and the
  host context alone, up to the count of [uuid1] calls. *)
Definition benign (p : Param) : Prop :=
  ∀ s, ∃ d s0,
    eval_default p s = (Ok d, s0) ∧ tx s0 = tx s
    ∧ same_host (root s) (root s0).

(** How the value bound by a declaration follows from what the request
  carries under its wire name: the default [d] when the name is absent, all
  the values converted when [multiple], and else the first value converted,
  whatever follows it. *)
Definition bound (P : Platform) (p : Param) (d : Value)
    (found : option (list bytes)) (v : Value) : Prop :=
  match found with
  | None => required p = false ∧ v = d
  | Some values =>
      if multiple p then
        ∃ vs, convert_all P (type p) values = inl vs ∧ v = VList vs
      else
        ∃ b rest, values = b :: rest ∧ convert P (type p) b = inl v
  end.

(** An extra argument as Schedule forwards it: the decoded name and the
  decoded first value of a request parameter. *)
Definition forwarded (P : Platform) (kv : bytes * list bytes)
    (pair : str * str) : Prop :=
  decode P kv.1 = inl pair.1
  ∧ ∃ v0 rest, kv.2 = v0 :: rest ∧ decode P v0 = inl pair.2.

(** An explicit, non-empty version that the egg store does not hold. *)
Definition version_missing (r : Root) (project : str) (version : option str)
  : Prop :=
  ∃ v, version = Some v ∧ v ≠ ""
       ∧ eggstorage_get (eggstorage r) project v = None.

(** The message Schedule enqueues. *)
Definition scheduled (spider jobid : str) (priority : Value)
    (settings args : list (str * str)) : Message :=
  {| m_name := spider; m_job := jobid; m_priority := priority;
     m_settings := settings; m_args := args |}.

(** The wire names that the declared parameters of Schedule consume. *)
Definition Schedule_consumed : list bytes :=
  ["project"; "spider"; "_version"; "jobid"; "priority"; "setting"].

(** What it means for a job to be in one of the three collections, as seen
  through an optional project filter. *)
Definition job_of (project : option str) (job : str) (x : Process) : Prop :=
  (∀ p, project = Some p → Process.project x = p) ∧ Process.job x = job.

Definition is_finished (s : State) (project : option str) (job : str) : Prop :=
  ∃ x, x ∈ finished (root s) ∧ job_of project job x.

Definition is_running (s : State) (project : option str) (job : str) : Prop :=
  ∃ key x, (key, x) ∈ processes (root s) ∧ job_of project job x.

Definition is_pending (s : State) (project : option str) (job : str) : Prop :=
  ∃ name q message,
    Dict.get name (queues (root s)) = Some q
    ∧ (∀ p, project = Some p → name = p)
    ∧ message ∈ q ∧ m_job message = job.

(** End times given by successive readings of the clock, from the n-th. *)
Fixpoint stamp (P : Platform) (n : nat) (xs : list Process) : list Process :=
  match xs with
  | [] => []
  | x :: rest => set_end_time (datetime_now P n) x :: stamp P (S n) rest
  end.

(** The path a result download asks for, and the results root. *)
Definition requested_path (project job_id : str) : str :=
  "results/" +:+ project +:+ "/" +:+ job_id.

Definition results_root (fs : FileSystem) : str :=
  abspath (getcwd fs) "results".

(** A path is inside a directory when it is the directory or continues it
  past a separator. *)
Definition inside (dir path : str) : bool :=
  String.eqb path dir || startswith path (dir +:+ "/").

(** The requested path resolves to an absolute path outside the results
  root. *)
Definition resolves_outside (fs : FileSystem) (project job_id : str) : Prop :=
  inside (results_root fs)
    (abspath (getcwd fs) (requested_path project job_id)) = false.

(** The response as the client sees it: status code and body. *)
Definition status_of {A} (r : Res A * State) : nat := code (tx r.2).
Definition body_of (r : Res Data * State) : option bytes :=
  match r.1 with
  | Ok (DBytes b) => Some b
  | _ => None
  end.
Definition header_of {A} (r : Res A * State) (name : str) : option str :=
  headers (tx r.2) !! name.


(** * The handlers that read the job collections *)

(** ** DaemonStatus *)

(** The response object of DaemonStatus. *)
Definition daemon_status (pending running finished : nat) : Data :=
  DJson (JDict [("pending", JInt (Z.of_nat pending));
                ("running", JInt (Z.of_nat running));
                ("finished", JInt (Z.of_nat finished))]).

(** [queue.count()] is the length of the queue; [queues.values()] are the
  queues in the order of their projects. *)
Definition DaemonStatus_render_GET : M Data :=
  do qs <- gets (fun s => queues (root s));
  do ps <- gets (fun s => processes (root s));
  do fin <- gets (fun s => finished (root s));
  ret (daemon_status (sum_list (List.length <$> qs.*2))
         (List.length ps) (List.length fin)).

(** ** ListJobs *)

(** What the host context and the standard library contribute to a listing:
  [root.get_log_url] and [root.get_item_url] (a URL or [None]) and [str] of
  a [datetime]; they are left uninterpreted. *)
Record Listing := {
  get_log_url : Process → Json;
  get_item_url : Process → Json;
  str_of_datetime : Z → str;
}.

Section Listings.
Variable L : Listing.

Definition json_of_dict (d : list (str * str)) : Json :=
  JDict (map (fun kv => (kv.1, JString kv.2)) d).

(** [message.get("_version")], and the comprehension that leaves the four
  reserved keys out of [args]. *)
Definition pending_entry (queue_name : str) (message : Message) : Json :=
  JDict [("id", JString (m_job message));
         ("project", JString queue_name);
         ("spider", JString (m_name message));
         ("version", json_of_state (Dict.get "_version" (m_args message)));
         ("settings", json_of_dict (m_settings message));
         ("args",
          json_of_dict
            (filter (fun kv => kv.1 ∉ ["name"; "_job"; "_version"; "settings"])
               (m_args message)))].

Definition running_entry (process : Process) : Json :=
  JDict [("id", JString (Process.job process));
         ("project", JString (Process.project process));
         ("spider", JString (Process.spider process));
         ("pid", JInt (Z.of_nat (Process.pid process)));
         ("start_time",
          JString (str_of_datetime L (Process.start_time process)));
         ("log_url", get_log_url L process);
         ("items_url", get_item_url L process)].

(** [str(finished.end_time)]; an unset end time prints as [None]. *)
Definition finished_entry (finished : Process) : Json :=
  JDict [("id", JString (Process.job finished));
         ("project", JString (Process.project finished));
         ("spider", JString (Process.spider finished));
         ("start_time",
          JString (str_of_datetime L (Process.start_time finished)));
         ("end_time",
          JString match Process.end_time finished with
                  | Some t => str_of_datetime L t
                  | None => "None"
                  end);
         ("log_url", get_log_url L finished);
         ("items_url", get_item_url L finished)].

(** [project is None or x.project == project] *)
Definition selects (project : option str) (x : Process) : bool :=
  match project with
  | None => true
  | Some p => String.eqb (Process.project x) p
  end.

(** The response object of ListJobs. *)
Definition jobs (pending running finished : list Json) : Data :=
  DJson (JDict [("pending", JList pending);
                ("running", JList running);
                ("finished", JList finished)]).

Definition ListJobs_render_GET (project : option str) : M Data :=
  do queues <- gets (fun s => queues (root s));
  if match project with
     | Some p => negb (Dict.mem p queues)
     | None => false
     end
  then project_not_found (from_option id "" project)
  else
    do processes <- gets (fun s => processes (root s));
    do finished <- gets (fun s => finished (root s));
    let names :=
      match project with
      | None => Dict.keys queues
      | Some p => [p]
      end in
    ret (jobs
           (flat_map (fun queue_name =>
                        map (pending_entry queue_name)
                          (from_option id [] (Dict.get queue_name queues)))
              names)
           (map running_entry
              (filter (fun x => selects project x = true) processes.*2))
           (map finished_entry
              (filter (fun x => selects project x = true) finished))).

End Listings.

(** The job ids of a listing, and whether an entry names a project. *)
Definition field (name : str) (entry : Json) : option Json :=
  match entry with
  | JDict d => Dict.get name d
  | _ => None
  end.

Definition id_of (entry : Json) : option str :=
  match field "id" entry with
  | Some (JString i) => Some i
  | _ => None
  end.

Definition ids (entries : list Json) : list str := omap id_of entries.

Definition of_project (p : str) (entry : Json) : bool :=
  match field "project" entry with
  | Some (JString q) => String.eqb q p
  | _ => false
  end.

(** ** SpiderStatus *)

(** The object returned when no process of the job is running. *)
Definition Spider_not_found : Data :=
  DJson (JDict [("code", JInt (Z.of_nat NOT_FOUND));
                ("usage", JDict [("cpu", JInt 0); ("memory", JInt 0)]);
                ("pid", JInt 0);
                ("message", JString "Spider not found")]).

Section Measurement.

(** The [try] statement of SpiderStatus reads the usage of the process from
  [/proc] or through [psutil], by platform; each of its branches, the
  handlers of its exceptions included, returns an object.  That object is
  left uninterpreted, as a function of the process. *)
Variable measure : Process → list (str * Json).

(** The loop has no [break]: the last process that matches is kept. *)
Definition SpiderStatus_render_GET (project jobid : str) : M Data :=
  do processes <- gets (fun s => processes (root s));
  let spider :=
    foldl (fun spider process =>
             if String.eqb (Process.project process) project
                && String.eqb (Process.job process) jobid
             then Some process else spider)
      None processes.*2 in
  match spider with
  | None => ret Spider_not_found
  | Some spider => ret (DJson (JDict (measure spider)))
  end.

End Measurement.

(** ** Names of files *)

(** A name that is a single path component and does not step up: it holds
  no separator and is not [..]. *)
Fixpoint has_slash (s : str) : bool :=
  match s with
  | EmptyString => false
  | String c s' => Ascii.eqb c "/"%char || has_slash s'
  end.

Definition plain_name (name : str) : bool :=
  negb (has_slash name) && negb (String.eqb name "..").

(** ** Reading the state, continued *)

(** What a Status lookup finds, by the order of its three loops. *)
Definition job_state (s : State) (project : option str) (job : str)
  : option str :=
  if existsb (matches project job) (finished (root s)) then Some "finished"
  else if existsb (matches project job) (processes (root s)).*2
  then Some "running"
  else if existsb (fun queue_name =>
                     existsb (fun message => String.eqb (m_job message) job)
                       (from_option id []
                          (Dict.get queue_name (queues (root s)))))
            match project with
            | None => Dict.keys (queues (root s))
            | Some p => [p]
            end
  then Some "pending"
  else None.

(** ** Concrete platforms and states, for evaluating the handlers *)

Module Demo.

(** [s.splitlines()] for text whose only line break is the newline byte. *)
Fixpoint lines (s : str) : list str :=
  match s with
  | EmptyString => []
  | String c s' =>
      if Ascii.eqb c (ascii_of_nat 10) then "" :: lines s'
      else
        match lines s' with
        | h :: t => String c h :: t
        | [] => [String c ""]
        end
  end.

(** A compact JSON printer for text without characters to escape. *)
Fixpoint json (j : Json) : bytes :=
  match j with
  | JNull => "null"
  | JString s => dquote +:+ s +:+ dquote
  | JInt z => NilZero.string_of_int (Z.to_int z)
  | JFloat f => "<float>"
  | JList l => "[" +:+ String.concat ", " (map json l) +:+ "]"
  | JDict d =>
      "{" +:+ String.concat ", "
                (map (fun kv => dquote +:+ kv.1 +:+ dquote +:+ ": " +:+ json kv.2) d)
      +:+ "}"
  end.

(** A platform whose listing command exits with [rc] and prints [out]; text
  is decoded byte for byte, archives are recognised by their first bytes. *)
Definition platform (rc : Z) (out : bytes) : Platform :=
  {| decode := fun b => inl b;
     float_of := fun b => inr "could not convert string to float";
     is_zipfile := fun b => startswith b "PK";
     splitlines := lines;
     json_encode := json;
     format_exc := fun e => "Traceback (most recent call last)";
     sys_executable := "python";
     os_environ := ∅;
     Popen := fun _ _ => {| returncode := rc; stdout := out; stderr := "" |};
     uuid1_hex := fun n => "uuid" +:+ str_of_nat n;
     datetime_now := fun n => (1000 + Z.of_nat n)%Z;
     default_signal := "INT" |}.

Definition two_spiders : bytes := "alpha" +:+ newline +:+ "beta".

(** A file system holding the given files, by normalised absolute path. *)
Definition fs (cwd : str) (content : list (str * bytes)) : FileSystem :=
  {| fs_exists := fun p => Dict.mem (abspath cwd p) content;
     fs_isfile := fun p => Dict.mem (abspath cwd p) content;
     fs_read := fun p =>
       match Dict.get (abspath cwd p) content with
       | Some b => Ok b
       | None => Raise (Exception "FileNotFoundError" p)
       end;
     getcwd := cwd |}.

Definition request (m : Method) (a : list (bytes * list bytes)) : Request :=
  {| args := a; method := m; code := OK; headers := ∅ |}.

Definition host (qs : list (str * list Message))
    (ps : list (nat * Process)) (fin : list Process)
    (c : gmap str (gmap (option str) (list str))) (dbg : bool)
    (f : FileSystem) : Root :=
  {| queues := qs; processes := ps; finished := fin; eggstorage := ∅;
     cache := c; debug := dbg; node_name := "node"; runner := "scrapyd.runner";
     signalled := []; clock_reads := 0; uuid_reads := 0; files := f |}.

Definition state (r : Root) (t : Request) : State := {| root := r; tx := t |}.

Definition process (project job : str) (pid : nat) : Process :=
  {| Process.project := project; Process.spider := "alpha";
     Process.job := job; Process.pid := pid; Process.start_time := 900;
     Process.end_time := None |}.

Definition message (job : str) : Message :=
  {| m_name := "alpha"; m_job := job; m_priority := VInt 0;
     m_settings := []; m_args := [] |}.

(** A cache that holds, for project ["p"], the unspecified version and two
  explicit ones. *)
Definition cache3 : gmap str (gmap (option str) (list str)) :=
  {[ "p" := <[None := ["old"]]> (<[Some "1" := ["a"]]> {[ Some "2" := ["b"] ]}) ]}.

(** A daemon with that cache, nothing queued or running, and no files. *)
Definition cached : State :=
  state (host [("p", [])] [] [] cache3 false (fs "/srv" []))
        (request POST []).

(** Job [j1] of project ["p"] is both in the finished records and among
  the running processes, and a job of that id is queued as well. *)
Definition finished_and_running : State :=
  state (host [("p", [message "j1"])] [(0, process "p" "j1" 41)]
           [process "p" "j1" 40] ∅ false (fs "/srv" []))
        (request GET []).

(** Job [j1] of project ["p"] is running, and a job of the same id is
  queued behind it. *)
Definition pending_and_running : State :=
  state (host [("p", [message "j1"; message "j2"])]
           [(0, process "p" "j0" 40); (1, process "p" "j1" 41)]
           [] ∅ false (fs "/srv" []))
        (request POST []).

(** A daemon started in [/srv] whose disk holds the given files. *)
Definition disk (content : list (str * bytes)) (dbg : bool) : State :=
  state (host [("p", [])] [] [] ∅ dbg (fs "/srv" content)) (request GET []).

(** A secret next to the results directory, a directory whose name merely
  begins like the root's, and one named result of project ["p"]. *)
Definition secret : list (str * bytes) := [("/srv/secret", "hunter2")].
Definition sibling : list (str * bytes) := [("/srv/results_old/x", "old")].
Definition named : list (str * bytes) :=
  [("/srv/results/p/local-shop-7-result.json", "0123456789")].
Definition stored : list (str * bytes) := [("/srv/results/p/job1", "{}")].

(** No handler body is examined through these. *)
Definition no_body (op : Operation) (kwargs : gmap str Value) : M Data :=
  ret DNone.
Definition no_body_of (kwargs : gmap str Value) : M Data := ret DNone.

(** A POST that names a project and nothing else. *)
Definition only_project (dbg : bool) : State :=
  state (host [("p", [])] [] [] ∅ dbg (fs "/srv" []))
        (request POST [("project", ["p"])]).

(** A GET without arguments. *)
Definition bare_get (dbg : bool) : State :=
  state (host [("p", [])] [] [] ∅ dbg (fs "/srv" [])) (request GET []).

(** An upload whose egg is plain text. *)
Definition upload : State :=
  state (host [("p", [])] [] [] cache3 false (fs "/srv" []))
        (request POST [("project", ["p"]); ("version", ["1"]);
                       ("egg", ["plain text"])]).

(** A Schedule request for version 1 of project [p], with a repeated
  argument [colour] and a repeated [_version]; the egg store holds that
  version. *)
Definition versioned : State :=
  state (set_eggstorage {[ "p" := [("1", "PK")] ]}
           (host [("p", [])] [] [] cache3 false (fs "/srv" [])))
        (request POST [("project", ["p"]); ("colour", ["red"; "blue"]);
                       ("spider", ["a"]); ("_version", ["1"; "2"]);
                       ("jobid", ["job7"])]).

End Demo.


(** ** Further fixtures *)

Module Cases.

(** Log links by job id, no item feeds, and times printed as numbers. *)
Definition listing : Listing :=
  {| get_log_url := fun x => JString ("/logs/" +:+ Process.job x +:+ ".log");
     get_item_url := fun _ => JNull;
     str_of_datetime := fun t => NilZero.string_of_int (Z.to_int t) |}.

(** A disk whose one file lies inside the results root, under a path that
  ends like an absolute path. *)
Definition nested : list (str * bytes) :=
  [("/srv/results/p/etc/passwd", "x")].

(** Project [p] with two stored versions and the cache of [Demo.cache3]. *)
Definition two_versions : State :=
  Demo.state
    (set_eggstorage {[ "p" := [("1", "PK-one"); ("2", "PK-two")] ]}
       (Demo.host [("p", [])] [] [] Demo.cache3 false (Demo.fs "/srv" [])))
    (Demo.request POST [("project", ["p"]); ("version", ["1"])]).

(** Two projects, each with a pending job; one job of each is running and
  one job of the second has finished. *)
Definition two_projects : State :=
  Demo.state
    (Demo.host [("p", [Demo.message "j1"]); ("q", [Demo.message "j2"])]
       [(0, Demo.process "q" "j3" 40); (1, Demo.process "p" "j4" 41)]
       [Demo.process "q" "j5" 39] ∅ false (Demo.fs "/srv" []))
    (Demo.request GET []).

End Cases.
(** * Properties *)

(** ** The definitions at work *)

Example normpath_examples :
  normpath "/srv/results/../etc/passwd" = "/srv/etc/passwd"
  ∧ normpath "///a/./b/" = "/a/b"
  ∧ normpath "//a" = "//a"
  ∧ normpath "/.." = "/"
  ∧ normpath "../a/.." = ".."
  ∧ normpath "a/.." = ".".
Proof. repeat split. Qed.

Example join_examples :
  join "results" ["p"; "job1"] = "results/p/job1"
  ∧ join "results" [""; "x"] = "results/x"
  ∧ join "results" ["p/"; "x"] = "results/p/x"
  ∧ join "results" ["p"; "/etc/passwd"] = "/etc/passwd".
Proof. repeat split. Qed.

Example abspath_examples :
  abspath "/srv" "results/p//x" = "/srv/results/p/x"
  ∧ abspath "/srv" "results/../results_old/x" = "/srv/results_old/x"
  ∧ abspath "/srv" "/etc/./passwd" = "/etc/passwd"
  ∧ abspath "/" "results" = "/results".
Proof. repeat split. Qed.

Example inside_examples :
  inside "/srv/results" "/srv/results/p/x" = true
  ∧ inside "/srv/results" "/srv/results" = true
  ∧ inside "/srv/results" "/srv/results_old/x" = false
  ∧ startswith "/srv/results_old/x" "/srv/results" = true.
Proof. repeat split. Qed.

Example split_eq_examples :
  split_eq "LOG_LEVEL=INFO" = Some ("LOG_LEVEL", "INFO")
  ∧ split_eq "a=b=c" = Some ("a", "b=c")
  ∧ split_eq "=x" = Some ("", "x")
  ∧ split_eq "LOG_LEVEL" = None.
Proof. repeat split. Qed.

Example dict_examples :
  Dict.set "b" 2 [("a", 1); ("b", 0)] = [("a", 1); ("b", 2)]
  ∧ Dict.set "c" 3 [("a", 1); ("b", 2)] = [("a", 1); ("b", 2); ("c", 3)]
  ∧ Dict.pop "a" [("a", 1); ("b", 2)] = Some (1, [("b", 2)])
  ∧ Dict.pop "z" [("a", 1); ("b", 2)] = None
  ∧ Dict.of_pairs [("a", 1); ("b", 2); ("a", 3)] = [("a", 3); ("b", 2)].
Proof. repeat split. Qed.

Example str_of_nat_examples :
  str_of_nat 0 = "0" ∧ str_of_nat 10 = "10" ∧ len "job1" = 4.
Proof. repeat split. Qed.

Example methods_examples :
  methods (resource_of (Demo.platform 0 "") Schedule Demo.no_body_of)
  = "OPTIONS, HEAD, POST"
  ∧ methods (resource_of (Demo.platform 0 "") Status Demo.no_body_of)
    = "OPTIONS, HEAD, GET".
Proof. repeat split. Qed.

(** A preflight request to Schedule: 204, an [Allow] header and the CORS
  headers, no body. *)
Example options_example :
  let r := render (Demo.platform 0 "") Demo.no_body Schedule
             (Demo.state (Demo.host [] [] [] ∅ false (Demo.fs "/srv" []))
                (Demo.request OPTIONS [])) in
  status_of r = NO_CONTENT
  ∧ body_of r = Some ""
  ∧ header_of r "Allow" = Some "OPTIONS, HEAD, POST"
  ∧ header_of r "Access-Control-Allow-Origin" = Some "*"
  ∧ header_of r "Content-Length" = Some "0".
Proof. vm_compute. repeat split. Qed.

(** Status of a job that is only queued, and of one that is unknown. *)
Example status_examples :
  (Status_render_GET "j2" None Demo.pending_and_running).1
  = Ok (DJson (JDict [("currstate", JString "pending")]))
  ∧ (Status_render_GET "j1" None Demo.pending_and_running).1
    = Ok (DJson (JDict [("currstate", JString "running")]))
  ∧ (Status_render_GET "j9" (Some "p") Demo.pending_and_running).1
    = Ok (DJson (JDict [("currstate", JNull)]))
  ∧ (Status_render_GET "j1" (Some "q") Demo.pending_and_running).1
    = Raise (Error OK "project 'q' not found").
Proof. vm_compute. repeat split. Qed.

(** Deleting version 1 from the cache of [Demo.cached] keeps version 2. *)
Example delete_example :
  cache (root (SpiderList_delete "p" (Some "1") Demo.cached).2)
  = {[ "p" := {[ Some "2" := ["b"] ]} ]}.
Proof. vm_compute. reflexivity. Qed.

Section CacheFacts.
Variable P : Platform.

Lemma cache_update_spec project f (s : State) :
  cache_update project f s =
  (Ok tt,
   with_root (set_cache
     (<[project := f (from_option id ∅ (cache (root s) !! project))]>
        (cache (root s)))) s).
Proof.
  unfold cache_update, cache_getitem, bind, modify.
  destruct (cache (root s) !! project) as [d|] eqn:E; simpl; [done|].
  unfold with_root, set_cache; simpl.
  by rewrite insert_insert_eq.
Qed.

Lemma entry_set_cache s c p v :
  entry (with_root (set_cache c) s) p v =
  match c !! p with Some d => d !! v | None => None end.
Proof. done. Qed.

End CacheFacts.

Section CacheRule.
Variable P : Platform.

Lemma SpiderList_set_ok project version runner s spiders s1 :
  SpiderList_set P project version runner s = (Ok spiders, s1) →
  s1 = with_root (set_cache
         (<[project := <[version := spiders]>
              (delete None (from_option id ∅ (cache (root s) !! project)))]>
            (cache (root s)))) s.
Proof.
  unfold SpiderList_set.
  case_decide as Hrc.
  - unfold bind, decode_m. destruct (decode P _); simpl; intros [=].
  - unfold bind at 1. unfold decode_m.
    destruct (decode P _) as [out|e]; simpl; [|intros [=]].
    unfold bind. rewrite !cache_update_spec. simpl.
    intros [= <- <-]. unfold with_root, set_cache; simpl.
    rewrite lookup_insert_eq; simpl. by rewrite insert_insert_eq.
Qed.

Lemma SpiderList_delete_ok project version s :
  SpiderList_delete project version s =
  (Ok tt,
   with_root (set_cache
     match version with
     | None => delete project (cache (root s))
     | Some v =>
         <[project := delete (Some v)
             (delete None (from_option id ∅ (cache (root s) !! project)))]>
           (cache (root s))
     end) s).
Proof.
  destruct version as [v|]; simpl; [|done].
  unfold bind. rewrite !cache_update_spec. simpl.
  unfold with_root, set_cache; simpl.
  rewrite lookup_insert_eq; simpl. by rewrite insert_insert_eq.
Qed.

End CacheRule.

Section CacheTheorems.
Variable P : Platform.

(** C6.  The spider-list cache keeps the ambiguity-avoidance rule.  A
  successful [set(p, v)] leaves the cache of [p] equal to the old one with
  the unspecified-version entry evicted first and the [(p, v)] entry written
  after it, so [(p, v)] holds the new list, the unspecified-version entry is
  gone unless [v] is itself unspecified, and every other entry is as before.
  [delete(p)] leaves no entry of [p] and keeps the other projects.
  [delete(p, v)] leaves neither [(p, v)] nor the unspecified-version entry of
  [p], and keeps every other entry, in particular the other explicit versions
  of [p]. *)
Theorem SpiderList_ambiguity_rule (s : State) (p : str) :
  (∀ v runner spiders s1,
     SpiderList_set P p v runner s = (Ok spiders, s1) →
     cache (root s1) !! p
       = Some (<[v := spiders]>
                 (delete None (from_option id ∅ (cache (root s) !! p))))
     ∧ entry s1 p v = Some spiders
     ∧ (v ≠ None → entry s1 p None = None)
     ∧ (∀ p' v', p' ≠ p ∨ (v' ≠ v ∧ v' ≠ None) →
          entry s1 p' v' = entry s p' v'))
  ∧ (∃ s2, SpiderList_delete p None s = (Ok tt, s2)
       ∧ (∀ v', entry s2 p v' = None)
       ∧ (∀ p' v', p' ≠ p → entry s2 p' v' = entry s p' v'))
  ∧ (∀ v : str, ∃ s3, SpiderList_delete p (Some v) s = (Ok tt, s3)
       ∧ entry s3 p (Some v) = None
       ∧ entry s3 p None = None
       ∧ (∀ p' v', p' ≠ p ∨ (v' ≠ Some v ∧ v' ≠ None) →
            entry s3 p' v' = entry s p' v')).
Proof.
  split; [|split].
  - intros v runner spiders s1 Hset.
    apply SpiderList_set_ok in Hset as ->.
    split; [|split; [|split]].
    + simpl. by rewrite lookup_insert_eq.
    + rewrite entry_set_cache, lookup_insert_eq. by rewrite lookup_insert_eq.
    + intros Hv. rewrite entry_set_cache, lookup_insert_eq.
      rewrite lookup_insert_ne by done. by rewrite lookup_delete_eq.
    + intros p' v' H. rewrite entry_set_cache. unfold entry.
      destruct (decide (p' = p)) as [->|Hp].
      * destruct H as [?|[Hv Hn]]; [done|].
        rewrite lookup_insert_eq, lookup_insert_ne by done.
        rewrite lookup_delete_ne by done.
        destruct (cache (root s) !! p); [done|]. simpl. by rewrite lookup_empty.
      * by rewrite lookup_insert_ne.
  - eexists. split; [apply SpiderList_delete_ok|]. split.
    + intros v'. by rewrite entry_set_cache, lookup_delete_eq.
    + intros p' v' Hp. rewrite entry_set_cache. unfold entry.
      by rewrite lookup_delete_ne.
  - intros v. eexists. split; [apply SpiderList_delete_ok|].
    split; [|split].
    + by rewrite entry_set_cache, lookup_insert_eq, lookup_delete_eq.
    + rewrite entry_set_cache, lookup_insert_eq.
      rewrite lookup_delete_ne by done. by rewrite lookup_delete_eq.
    + intros p' v' H. rewrite entry_set_cache. unfold entry.
      destruct (decide (p' = p)) as [->|Hp].
      * destruct H as [?|[Hv Hn]]; [done|].
        rewrite lookup_insert_eq, !lookup_delete_ne by done.
        destruct (cache (root s) !! p); [done|]. simpl. by rewrite lookup_empty.
      * by rewrite lookup_insert_ne.
Qed.

End CacheTheorems.

(** The rule at work: over a cache holding the unspecified version and the
  versions 1 and 2 of a project, recomputing version 1 stores the new list,
  evicts the unspecified-version entry and keeps version 2. *)
Lemma SpiderList_ambiguity_rule_witness :
  let s1 :=
    (SpiderList_set (Demo.platform 0 Demo.two_spiders) "p" (Some "1")
       "scrapyd.runner" Demo.cached).2 in
  entry s1 "p" (Some "1") = Some ["alpha"; "beta"]
  ∧ entry s1 "p" None = None
  ∧ entry s1 "p" (Some "2") = entry Demo.cached "p" (Some "2").
Proof.
  intros s1.
  destruct (proj1 (SpiderList_ambiguity_rule
                     (Demo.platform 0 Demo.two_spiders) Demo.cached "p")
              (Some "1") "scrapyd.runner" ["alpha"; "beta"] s1)
    as (_ & H1 & H2 & H3); [vm_compute; reflexivity|].
  split; [exact H1|]. split; [apply H2; discriminate|].
  apply H3. right. split; discriminate.
Defined.

(** ** Status *)

Lemma matches_job_of project job x :
  matches project job x = true ↔ job_of project job x.
Proof.
  unfold matches, job_of. rewrite andb_true_iff, String.eqb_eq.
  destruct project as [p|]; simpl.
  - rewrite String.eqb_eq. split.
    + intros [H1 H2]. split; [|done]. by intros ? [= <-].
    + intros [H1 H2]. split; [|done]. by apply H1.
  - split; [|tauto]. intros [_ H]. by split.
Qed.

Lemma existsb_finished s project job :
  existsb (matches project job) (finished (root s)) = true
  ↔ is_finished s project job.
Proof.
  rewrite existsb_exists. unfold is_finished.
  split; intros (x & Hx & Hm); exists x.
  - by rewrite <- matches_job_of, list_elem_of_In.
  - by rewrite matches_job_of, <- list_elem_of_In.
Qed.

Lemma existsb_running s project job :
  existsb (matches project job) (processes (root s)).*2 = true
  ↔ is_running s project job.
Proof.
  rewrite existsb_exists. unfold is_running. split.
  - intros (x & Hx & Hm). apply list_elem_of_In, list_elem_of_fmap in Hx.
    destruct Hx as ([key x'] & -> & Hin). exists key, x'.
    by rewrite <- matches_job_of.
  - intros (key & x & Hin & Hm). exists x. split.
    + apply list_elem_of_In, list_elem_of_fmap. by exists (key, x).
    + by apply matches_job_of.
Qed.

Lemma Dict_get_keys {V} (name : str) (d : list (str * V)) :
  name ∈ Dict.keys d ↔ is_Some (Dict.get name d).
Proof.
  unfold Dict.keys. induction d as [|[k v] d IH]; simpl.
  - split; [by intros ?%elem_of_nil | by intros [? [=]]].
  - rewrite elem_of_cons. case_decide as E; [subst; split; eauto|].
    rewrite IH. split; [by intros [?|?] | by right].
Qed.

Lemma existsb_pending s project job :
  (∀ p, project = Some p → Dict.mem p (queues (root s)) = true) →
  existsb (fun queue_name =>
             existsb (fun message => String.eqb (m_job message) job)
               (from_option id [] (Dict.get queue_name (queues (root s)))))
    match project with
    | None => Dict.keys (queues (root s))
    | Some p => [p]
    end = true
  ↔ is_pending s project job.
Proof.
  intros Hknown. rewrite existsb_exists. unfold is_pending. split.
  - intros (name & Hname & Hex). apply existsb_exists in Hex as (m & Hm & Hj).
    destruct (Dict.get name (queues (root s))) as [q|] eqn:Hq;
      [|by destruct Hm].
    exists name, q, m. split; [done|]. split.
    + intros p ->. simpl in Hname. by destruct Hname.
    + by rewrite list_elem_of_In, <- String.eqb_eq.
  - intros (name & q & m & Hq & Hp & Hm & Hj). exists name. split.
    + destruct project as [p|]; [left; symmetry; by apply Hp|].
      apply list_elem_of_In, Dict_get_keys. by rewrite Hq.
    + rewrite Hq. simpl. apply existsb_exists. exists m.
      by rewrite <- list_elem_of_In, String.eqb_eq.
Qed.

(** C4.  A Status lookup with no project filter, or with the name of a known
  project, changes nothing and answers with the object [{"currstate": ...}]
  whose value is found by looking at the finished records first, then at
  the running processes, then at the pending queue(s): for a job that is
  finished the value is the string "finished" whatever else holds the job
  (so a job both finished and running reports "finished"); otherwise for a
  running one it is "running"; otherwise for a pending one it is "pending";
  for a job found nowhere it is null. *)
Theorem Status_precedence (s : State) (job : str) (project : option str) :
  (∀ p, project = Some p → Dict.mem p (queues (root s)) = true) →
  ∃ reply : Json,
    Status_render_GET job project s
    = (Ok (DJson (JDict [("currstate", reply)])), s)
    ∧ (is_finished s project job → reply = JString "finished")
    ∧ (¬ is_finished s project job → is_running s project job →
       reply = JString "running")
    ∧ (¬ is_finished s project job → ¬ is_running s project job →
       is_pending s project job → reply = JString "pending")
    ∧ (¬ is_finished s project job → ¬ is_running s project job →
       ¬ is_pending s project job → reply = JNull).
Proof.
  intros Hknown.
  pose proof (existsb_finished s project job) as Hf.
  pose proof (existsb_running s project job) as Hr.
  pose proof (existsb_pending s project job Hknown) as Hp.
  unfold Status_render_GET, bind, gets. simpl.
  assert (match project with
          | Some p => negb (Dict.mem p (queues (root s)))
          | None => false
          end = false) as ->.
  { destruct project as [p|]; [|done]. by rewrite Hknown. }
  destruct (existsb (matches project job) (finished (root s))).
  { exists (JString "finished"). unfold ret. intuition. }
  destruct (existsb (matches project job) (processes (root s)).*2).
  { exists (JString "running"). unfold ret. intuition; discriminate. }
  destruct (existsb _ _).
  { exists (JString "pending"). unfold ret. intuition; discriminate. }
  exists JNull. unfold ret. intuition; discriminate.
Qed.

(** A job that is both finished and running (and queued as well) reports
  "finished". *)
Lemma Status_precedence_witness :
  Status_render_GET "j1" (Some "p") Demo.finished_and_running
  = (Ok (DJson (JDict [("currstate", JString "finished")])),
     Demo.finished_and_running)
  ∧ is_finished Demo.finished_and_running (Some "p") "j1"
  ∧ is_running Demo.finished_and_running (Some "p") "j1".
Proof.
  assert (is_finished Demo.finished_and_running (Some "p") "j1") as Hf.
  { exists (Demo.process "p" "j1" 40). split; [by left|].
    split; [by intros ? [= <-] | done]. }
  assert (is_running Demo.finished_and_running (Some "p") "j1") as Hr.
  { exists 0, (Demo.process "p" "j1" 41). split; [by left|].
    split; [by intros ? [= <-] | done]. }
  destruct (Status_precedence Demo.finished_and_running "j1" (Some "p"))
    as (reply & Heq & H1 & _).
  { intros p [= <-]. vm_compute. reflexivity. }
  rewrite Heq, (H1 Hf). done.
Defined.

(** ** Cancel *)

(** Reduce the projections of the state records, and nothing else. *)
Ltac state_simpl :=
  cbv [with_root with_tx set_queues set_processes set_finished
       set_eggstorage set_cache set_signalled set_clock_reads set_uuid_reads
       set_args set_code set_header root tx queues processes finished eggstorage cache debug
       node_name runner signalled clock_reads uuid_reads files args method
       code headers].

Lemma Dict_get_app_r {V} (k : nat) (pre d : list (nat * V)) :
  k ∉ pre.*1 → Dict.get k (pre ++ d) = Dict.get k d.
Proof.
  induction pre as [|[k' v] pre IH]; simpl; [done|].
  intros Hk. apply not_elem_of_cons in Hk as [Hne Hk].
  case_decide; [done|]. by apply IH.
Qed.

Lemma Dict_remove_app_r {V} (k : nat) (pre d : list (nat * V)) :
  k ∉ pre.*1 → Dict.remove k (pre ++ d) = pre ++ Dict.remove k d.
Proof.
  induction pre as [|[k' v] pre IH]; simpl; [done|].
  intros Hk. apply not_elem_of_cons in Hk as [Hne Hk].
  case_decide; [done|]. by rewrite IH.
Qed.

Section CancelFacts.
Variable P : Platform.
Variables project job signal : str.

Lemma Cancel_loop_spec items : ∀ pre s prev,
  processes (root s) = pre ++ items →
  NoDup (pre ++ items).*1 →
  Cancel_loop P project job signal items prev s =
  (Ok (if existsb (matches (Some project) job) items.*2
       then Some "running" else prev),
   with_root (fun r =>
     set_processes
       (pre ++ filter (fun kx => matches (Some project) job kx.2 ≠ true) items)
       (set_finished
          (finished r ++ stamp P (clock_reads r)
             (filter (fun x => matches (Some project) job x = true) items.*2))
          (set_signalled
             (signalled r ++ map (fun x => (Process.pid x, signal))
                (filter (fun x => matches (Some project) job x = true) items.*2))
             (set_clock_reads
                (clock_reads r + List.length
                   (filter (fun x => matches (Some project) job x = true)
                      items.*2)) r)))) s).
Proof.
  induction items as [|[key x] items IH]; intros pre s prev Hps Hnd.
  - destruct s as [r t]. destruct r. cbn [root processes] in Hps. subst.
    unfold ret. state_simpl. rewrite fmap_nil, !filter_nil.
    cbn [stamp map List.length]. by rewrite !app_nil_r, Nat.add_0_r.
  - destruct s as [r t]. destruct r. cbn [root processes] in Hps. subst.
    cbn [Cancel_loop]. rewrite fmap_cons, !filter_cons. cbn [existsb snd].
    change (String.eqb (Process.project x) project
            && String.eqb (Process.job x) job)
      with (matches (Some project) job x).
    destruct (matches (Some project) job x) eqn:Hm.
    + repeat case_decide; try congruence.
      assert (key ∉ pre.*1) as Hpre.
      { rewrite fmap_app in Hnd. apply NoDup_app in Hnd as (_ & Hd & _).
        intros Hin. apply (Hd _ Hin). rewrite fmap_cons. by left. }
      assert (NoDup (pre ++ items).*1) as Hnd'.
      { rewrite fmap_app in *. rewrite fmap_cons in Hnd.
        apply NoDup_app in Hnd as (H1 & H2 & H3).
        apply NoDup_app. split; [done|]. split.
        - intros k Hk Hin. apply (H2 k Hk). by right.
        - by apply NoDup_cons in H3 as [_ ?]. }
      unfold bind at 1. unfold signalProcess, modify.
      unfold bind at 1. unfold processes_pop.
      unfold bind at 1. unfold gets. state_simpl.
      unfold Dict.pop. rewrite Dict_get_app_r by done. cbn [Dict.get].
      rewrite decide_True by done.
      rewrite Dict_remove_app_r by done. cbn [Dict.remove].
      rewrite decide_True by done.
      unfold bind at 1. unfold modify. unfold ret.
      unfold bind at 1. unfold now.
      unfold bind at 1. unfold finished_add, modify. state_simpl.
      rewrite (IH pre); [|reflexivity|exact Hnd'].
      state_simpl. cbn [stamp map List.length]. rewrite <- !app_assoc.
      cbn [app orb]. rewrite Nat.add_succ_r. cbn [Nat.add].
      by destruct (existsb _ _).
    + repeat case_decide; try congruence.
      rewrite (IH (pre ++ [(key, x)])).
      * state_simpl. by rewrite <- !app_assoc.
      * state_simpl. by rewrite <- app_assoc.
      * by rewrite <- app_assoc.
Qed.

End CancelFacts.

Lemma is_running_existsb s project job :
  is_running s (Some project) job
  ↔ existsb (matches (Some project) job) (processes (root s)).*2 = true.
Proof. symmetry. apply existsb_running. Qed.

Lemma removed_pending (job : str) (q : list Message) :
  (0 <? List.length
          (filter (fun m => String.eqb (m_job m) job = true) q))%nat = true
  ↔ ∃ m, m ∈ q ∧ m_job m = job.
Proof.
  rewrite Nat.ltb_lt. split.
  - intros Hlen.
    destruct (filter (fun m => String.eqb (m_job m) job = true) q)
      as [|m l] eqn:E; [simpl in Hlen; lia|].
    assert (m ∈ filter (fun m => String.eqb (m_job m) job = true) q) as Hin
      by (rewrite E; by left).
    apply list_elem_of_filter in Hin as [Hj Hin].
    exists m. by rewrite <- String.eqb_eq.
  - intros (m & Hin & Hj).
    assert (m ∈ filter (fun m => String.eqb (m_job m) job = true) q) as Hin'.
    { apply list_elem_of_filter. by rewrite String.eqb_eq. }
    destruct (filter _ q); [by apply elem_of_nil in Hin'|simpl; lia].
Qed.

(** C2, as the code has it.  A Cancel request on a project that has a queue
  succeeds.  Every pending message with the job id leaves the project's
  queue.  Every running process of that project and job is signalled, leaves
  the running processes and is appended to the finished records, its end
  time the reading of the clock taken at that moment; nothing waits for the
  process to exit.  [prevstate] is "running" when a running process matched
  (also when a pending job was removed as well), "pending" when only a
  pending job matched, and null when neither did, whatever the finished
  records hold. *)
Theorem Cancel_effects (P : Platform) (s : State) (project job signal : str)
    (q : list Message) :
  Dict.get project (queues (root s)) = Some q →
  NoDup (processes (root s)).*1 →
  let hit :=
    filter (fun x => matches (Some project) job x = true)
      (processes (root s)).*2 in
  ∃ (prevstate : Json) s',
    Cancel_render_POST P project job signal s
    = (Ok (DJson (JDict [("prevstate", prevstate)])), s')
    ∧ queues (root s')
      = Dict.set project (filter (fun m => m_job m ≠ job) q) (queues (root s))
    ∧ processes (root s')
      = filter (fun kx => matches (Some project) job kx.2 ≠ true)
          (processes (root s))
    ∧ finished (root s')
      = finished (root s) ++ stamp P (clock_reads (root s)) hit
    ∧ signalled (root s')
      = signalled (root s) ++ map (fun x => (Process.pid x, signal)) hit
    ∧ (is_running s (Some project) job → prevstate = JString "running")
    ∧ (¬ is_running s (Some project) job → (∃ m, m ∈ q ∧ m_job m = job) →
       prevstate = JString "pending")
    ∧ (¬ is_running s (Some project) job → ¬ (∃ m, m ∈ q ∧ m_job m = job) →
       prevstate = JNull).
Proof.
  intros Hq Hnd hit.
  unfold Cancel_render_POST. unfold bind at 1. unfold gets. rewrite Hq.
  unfold queue_remove. unfold bind at 1. unfold modify.
  unfold bind at 1. unfold gets.
  unfold bind at 1.
  rewrite (Cancel_loop_spec P project job signal _ []); [|done|done].
  unfold ret. eexists _, _. split; [reflexivity|].
  cbn [root with_root processes set_queues queues finished signalled
       set_processes set_finished set_signalled set_clock_reads clock_reads
       app].
  split; [|split; [done|split; [done|split; [done|]]]].
  { f_equal. apply list_filter_iff. intros m.
    rewrite <- String.eqb_eq. by destruct (String.eqb _ _). }
  rewrite is_running_existsb. rewrite <- removed_pending.
  destruct (existsb _ _); destruct (_ <? _)%nat; cbn [json_of_state];
    intuition; discriminate.
Qed.

(** Cancelling [j1], which is both queued and running: the message leaves
  the queue, the process moves to the finished records with the clock's
  reading, and [prevstate] is "running". *)
Lemma Cancel_effects_witness :
  ∃ s',
    Cancel_render_POST (Demo.platform 0 "") "p" "j1" "INT"
      Demo.pending_and_running
    = (Ok (DJson (JDict [("prevstate", JString "running")])), s')
    ∧ queues (root s') = [("p", [Demo.message "j2"])]
    ∧ processes (root s') = [(0, Demo.process "p" "j0" 40)]
    ∧ finished (root s') = [set_end_time 1000 (Demo.process "p" "j1" 41)]
    ∧ signalled (root s') = [(41, "INT")].
Proof.
  destruct (Cancel_effects (Demo.platform 0 "") Demo.pending_and_running
              "p" "j1" "INT" [Demo.message "j1"; Demo.message "j2"])
    as (prevstate & s' & Heq & Hqs & Hps & Hfin & Hsig & Hrun & _).
  { vm_compute. reflexivity. }
  { apply (bool_decide_unpack _). vm_compute. reflexivity. }
  exists s'. rewrite Heq, Hqs, Hps, Hfin, Hsig, Hrun.
  - vm_compute. repeat split; reflexivity.
  - exists 1, (Demo.process "p" "j1" 41). split; [set_solver|].
    split; [intros ? ?; by simplify_eq | done].
Defined.

(** C2 as stated fails where a job id is queued and running at once: the
  pending job is in the project's queue and is removed, and yet [prevstate]
  is "running", not "pending". *)
Lemma Cancel_pending_reported_running :
  (∃ m, Dict.get "p" (queues (root Demo.pending_and_running)) = Some [m; Demo.message "j2"]
        ∧ m_job m = "j1")
  ∧ (Cancel_render_POST (Demo.platform 0 "") "p" "j1" "INT"
       Demo.pending_and_running).1
    = Ok (DJson (JDict [("prevstate", JString "running")]))
  ∧ (Cancel_render_POST (Demo.platform 0 "") "p" "j1" "INT"
       Demo.pending_and_running).1
    ≠ Ok (DJson (JDict [("prevstate", JString "pending")])).
Proof.
  split; [exists (Demo.message "j1"); by vm_compute|].
  split; [by vm_compute|]. vm_compute. discriminate.
Qed.

(** ** Result downloads *)

Section Downloads.
Variables (s : State) (project job_id : str).

Let fs := files (root s).
Let absolute_path :=
  abspath (getcwd fs) (join "results" [project; job_id]).

Lemma download_missing :
  fs_exists fs (requested_path project job_id)
  && fs_isfile fs (requested_path project job_id) = false →
  SpiderDownloadResult_render_GET project job_id s
  = (Ok (DBytes File_not_found), with_tx (set_code NOT_FOUND) s).
Proof.
  intros H. unfold SpiderDownloadResult_render_GET, bind, gets.
  fold fs. fold (requested_path project job_id).
  apply andb_false_iff in H as [-> | ->]; simpl; [done|].
  by rewrite orb_true_r.
Qed.

Lemma download_forbidden :
  fs_exists fs (requested_path project job_id) = true →
  fs_isfile fs (requested_path project job_id) = true →
  startswith absolute_path (results_root fs) = false →
  SpiderDownloadResult_render_GET project job_id s
  = (Ok (DBytes File_not_found), with_tx (set_code FORBIDDEN) s).
Proof.
  intros H1 H2 H3. unfold SpiderDownloadResult_render_GET, bind, gets.
  fold fs. fold (requested_path project job_id).
  rewrite H1, H2. cbn [negb orb]. fold absolute_path.
  fold (results_root fs). by rewrite H3.
Qed.

Lemma download_status :
  code (tx s) = OK →
  status_of (SpiderDownloadResult_render_GET project job_id s) = FORBIDDEN →
  fs_exists fs (requested_path project job_id) = true
  ∧ fs_isfile fs (requested_path project job_id) = true
  ∧ startswith absolute_path (results_root fs) = false.
Proof.
  intros Hc. unfold status_of, SpiderDownloadResult_render_GET, bind, gets.
  fold fs. fold (requested_path project job_id).
  destruct (fs_exists fs (requested_path project job_id));
    [|cbn; discriminate].
  destruct (fs_isfile fs (requested_path project job_id));
    [|cbn; discriminate].
  cbn [negb orb]. fold absolute_path. fold (results_root fs).
  destruct (startswith absolute_path (results_root fs)); [|done].
  cbn [negb]. destruct (_ || _); [cbn; discriminate|].
  destruct (fs_read fs _); cbn; rewrite ?Hc; discriminate.
Qed.

End Downloads.

(** C9, as the code has it.  For a fresh request (status 200 so far), the
  existence check on the raw path comes before the containment check.  A
  request whose raw path does not exist as a file is answered 404 with
  "File not found" wherever the path resolves to, so in particular when it
  resolves outside the results root.  The answer is 403 exactly when the
  raw path exists, is a file, and the path built with [os.path.join],
  resolved, does not start with the resolved root; its body is then the
  same "File not found".  So the status of a 403 shows that the raw path
  exists, and the body does not. *)
Theorem existence_check_precedes_containment (s : State)
    (project job_id : str) :
  code (tx s) = OK →
  let fs := files (root s) in
  let raw := requested_path project job_id in
  let escapes :=
    negb (startswith (abspath (getcwd fs) (join "results" [project; job_id]))
            (results_root fs)) in
  let r := SpiderDownloadResult_render_GET project job_id s in
  (fs_exists fs raw && fs_isfile fs raw = false →
   status_of r = NOT_FOUND ∧ body_of r = Some "File not found")
  ∧ (status_of r = FORBIDDEN ↔
     fs_exists fs raw = true ∧ fs_isfile fs raw = true ∧ escapes = true)
  ∧ (status_of r = FORBIDDEN → body_of r = Some "File not found").
Proof.
  intros Hc fs raw escapes r.
  assert (fs_exists fs raw && fs_isfile fs raw = false →
          status_of r = NOT_FOUND ∧ body_of r = Some "File not found") as Hmiss.
  { intros H. subst r. by rewrite (download_missing s project job_id H). }
  assert (fs_exists fs raw = true ∧ fs_isfile fs raw = true ∧ escapes = true →
          status_of r = FORBIDDEN ∧ body_of r = Some "File not found") as Hforb.
  { intros (H1 & H2 & H3). subst r escapes.
    apply negb_true_iff in H3.
    by rewrite (download_forbidden s project job_id H1 H2 H3). }
  assert (status_of r = FORBIDDEN →
          fs_exists fs raw = true ∧ fs_isfile fs raw = true ∧ escapes = true)
    as Hinv.
  { intros H. destruct (download_status s project job_id Hc H) as (?&?&?).
    subst escapes. by rewrite negb_true_iff. }
  split; [exact Hmiss|].
  split; [split; [exact Hinv | intros H; by destruct (Hforb H)] |].
  intros H. by destruct (Hforb (Hinv H)).
Qed.

(** The same request, ../secret, against a disk with and without the file:
  403 when it exists, 404 when it does not, the same body both times. *)
Lemma existence_check_precedes_containment_witness :
  resolves_outside (files (root (Demo.disk [] false))) ".." "secret"
  ∧ status_of (SpiderDownloadResult_render_GET ".." "secret"
                 (Demo.disk [] false)) = NOT_FOUND
  ∧ status_of (SpiderDownloadResult_render_GET ".." "secret"
                 (Demo.disk Demo.secret false)) = FORBIDDEN
  ∧ body_of (SpiderDownloadResult_render_GET ".." "secret"
               (Demo.disk [] false))
    = body_of (SpiderDownloadResult_render_GET ".." "secret"
                 (Demo.disk Demo.secret false)).
Proof.
  destruct (existence_check_precedes_containment (Demo.disk [] false)
              ".." "secret" eq_refl) as (Hmiss & _).
  destruct (existence_check_precedes_containment (Demo.disk Demo.secret false)
              ".." "secret" eq_refl) as (_ & Hiff & Hbody).
  assert (resolves_outside (files (root (Demo.disk [] false))) ".." "secret")
    as Hout by (vm_compute; reflexivity).
  destruct Hmiss as [H404 Hb404]; [vm_compute; reflexivity|].
  assert (status_of (SpiderDownloadResult_render_GET ".." "secret"
                       (Demo.disk Demo.secret false)) = FORBIDDEN) as H403.
  { apply Hiff. vm_compute. repeat split. }
  split; [exact Hout|]. split; [exact H404|]. split; [exact H403|].
  by rewrite Hb404, (Hbody H403).
Defined.

(** C9 as stated fails on an absolute job id.  The disk holds one file, and
  it is inside the results root; the request for project [p] and job id
  [/etc/passwd] has a raw path that resolves to that file, inside the root;
  [os.path.join] drops what precedes the absolute job id, so the path that
  is tested for containment is [/etc/passwd], which does not exist.  The
  answer is 403 all the same: no file outside the root exists. *)
Lemma forbidden_without_a_target_outside :
  status_of (SpiderDownloadResult_render_GET "p" "/etc/passwd"
               (Demo.disk Cases.nested false)) = FORBIDDEN
  ∧ ¬ resolves_outside (files (root (Demo.disk Cases.nested false)))
        "p" "/etc/passwd"
  ∧ abspath "/srv" (join "results" ["p"; "/etc/passwd"]) = "/etc/passwd"
  ∧ fs_exists (files (root (Demo.disk Cases.nested false))) "/etc/passwd"
    = false
  ∧ ∀ path,
      fs_exists (files (root (Demo.disk Cases.nested false))) path = true →
      inside (results_root (files (root (Demo.disk Cases.nested false))))
        (abspath "/srv" path) = true.
Proof.
  split; [vm_compute; reflexivity|].
  split; [unfold resolves_outside; vm_compute; discriminate|].
  split; [vm_compute; reflexivity|].
  split; [vm_compute; reflexivity|].
  intros path. cbn [Demo.disk Demo.state Demo.host root files Demo.fs
                    fs_exists getcwd].
  unfold Dict.mem, Cases.nested. cbn [Dict.get].
  case_decide as Hpath; [|done]. intros _. rewrite Hpath.
  vm_compute. reflexivity.
Qed.

(** C1, as the code has it.  A request whose raw path exists as a file and
  whose resolved path does not start with the resolved results root is
  answered 403, and its body is byte for byte the body of the 404 that any
  request for a missing file gets: the body does not tell the two apart. *)
Theorem forbidden_body_is_not_found_body (s : State) (project job_id : str) :
  let fs := files (root s) in
  fs_exists fs (requested_path project job_id) = true →
  fs_isfile fs (requested_path project job_id) = true →
  startswith (abspath (getcwd fs) (join "results" [project; job_id]))
    (results_root fs) = false →
  let r := SpiderDownloadResult_render_GET project job_id s in
  status_of r = FORBIDDEN
  ∧ body_of r = Some "File not found"
  ∧ ∀ s2 project2 job_id2,
      fs_exists (files (root s2)) (requested_path project2 job_id2)
      && fs_isfile (files (root s2)) (requested_path project2 job_id2)
      = false →
      let r2 := SpiderDownloadResult_render_GET project2 job_id2 s2 in
      status_of r2 = NOT_FOUND ∧ body_of r2 = body_of r.
Proof.
  intros fs H1 H2 H3 r. subst r.
  rewrite (download_forbidden s project job_id H1 H2 H3).
  split; [done|]. split; [done|].
  intros s2 project2 job_id2 Hmiss r2. subst r2.
  by rewrite (download_missing s2 project2 job_id2 Hmiss).
Qed.

(** The secret next to the results directory: 403, with the body that a
  missing result of project [p] gets with its 404. *)
Lemma forbidden_body_is_not_found_body_witness :
  status_of (SpiderDownloadResult_render_GET ".." "secret"
               (Demo.disk Demo.secret false)) = FORBIDDEN
  ∧ status_of (SpiderDownloadResult_render_GET "p" "job1"
                 (Demo.disk Demo.secret false)) = NOT_FOUND
  ∧ body_of (SpiderDownloadResult_render_GET "p" "job1"
               (Demo.disk Demo.secret false))
    = body_of (SpiderDownloadResult_render_GET ".." "secret"
                 (Demo.disk Demo.secret false)).
Proof.
  destruct (forbidden_body_is_not_found_body (Demo.disk Demo.secret false)
              ".." "secret") as (H403 & _ & H404);
    try (vm_compute; reflexivity).
  destruct (H404 (Demo.disk Demo.secret false) "p" "job1") as [Hs Hb];
    [vm_compute; reflexivity|].
  split; [exact H403|]. split; [exact Hs|exact Hb].
Defined.

(** C1 as stated fails at two requests whose paths resolve outside the
  results root.  The first does not exist and is answered 404, not 403.  The
  second exists in a directory whose name begins like the root's
  (/srv/results_old against /srv/results): the prefix test lets it through
  and the file is served with status 200. *)
Lemma outside_root_not_forbidden :
  (resolves_outside (files (root (Demo.disk [] false))) ".." "secret"
   ∧ status_of (SpiderDownloadResult_render_GET ".." "secret"
                  (Demo.disk [] false)) = NOT_FOUND)
  ∧ (resolves_outside (files (root (Demo.disk Demo.sibling false)))
       "../results_old" "x"
     ∧ status_of (SpiderDownloadResult_render_GET "../results_old" "x"
                    (Demo.disk Demo.sibling false)) = OK
     ∧ body_of (SpiderDownloadResult_render_GET "../results_old" "x"
                  (Demo.disk Demo.sibling false)) = Some "old").
Proof.
  split; [split; vm_compute; reflexivity|].
  split; [vm_compute; reflexivity|]. split; vm_compute; reflexivity.
Qed.

(** ** Content-Length of the two result downloads *)

(** C8, as the code has it.  On its success path the named-result download
  returns the file's content and sets Content-Length from the length of
  that content.  It is the plain result download (results/<project>/<job
  id>) whose success path sets Content-Length from the length of the job
  identifier string, whatever the length of the content it returns. *)
Theorem Content_Length_of_downloads (P : Platform) (s : State)
    (project : str) :
  (∀ configID configName content,
     fs_read (files (root s))
       ("results/" +:+ project +:+ "/local-" +:+ configName +:+ "-"
        +:+ configID +:+ "-result.json") = Ok content →
     let r := SpiderResults_render_GET P project configID configName s in
     body_of r = Some content
     ∧ header_of r "Content-Length" = Some (str_of_nat (len content)))
  ∧ (∀ job_id content,
       let fs := files (root s) in
       let directory_path := join "results" [project; job_id] in
       let absolute_path := abspath (getcwd fs) directory_path in
       fs_exists fs (requested_path project job_id) = true →
       fs_isfile fs (requested_path project job_id) = true →
       startswith absolute_path (results_root fs) = true →
       fs_exists fs absolute_path = true →
       fs_isfile fs absolute_path = true →
       fs_read fs directory_path = Ok content →
       let r := SpiderDownloadResult_render_GET project job_id s in
       body_of r = Some content
       ∧ header_of r "Content-Length" = Some (str_of_nat (len job_id))).
Proof.
  split.
  - intros configID configName content Hread r. subst r.
    unfold SpiderResults_render_GET, bind, gets. rewrite Hread.
    unfold header_of, body_of, setHeader, modify, ret, with_tx, set_header.
    cbn [fst snd tx headers]. split; [done|]. by rewrite lookup_insert_eq.
  - intros job_id content fs directory_path absolute_path H1 H2 H3 H4 H5 H6 r.
    subst r. unfold SpiderDownloadResult_render_GET, bind, gets.
    fold fs. fold (requested_path project job_id). rewrite H1, H2.
    cbn [negb orb]. fold directory_path. fold absolute_path.
    fold (results_root fs). rewrite H3, H4, H5, H6. cbn [negb orb].
    unfold header_of, body_of, setHeader, modify, ret, with_tx, set_header.
    cbn [fst snd tx headers]. split; [done|]. by rewrite lookup_insert_eq.
Qed.

(** A ten-byte named result is announced with Content-Length 10; a two-byte
  result stored as job1 is announced with Content-Length 4. *)
Lemma Content_Length_of_downloads_witness :
  header_of (SpiderResults_render_GET (Demo.platform 0 "") "p" "7" "shop"
               (Demo.disk Demo.named false)) "Content-Length"
  = Some "10"
  ∧ body_of (SpiderDownloadResult_render_GET "p" "job1"
               (Demo.disk Demo.stored false)) = Some "{}"
  ∧ header_of (SpiderDownloadResult_render_GET "p" "job1"
                 (Demo.disk Demo.stored false)) "Content-Length"
    = Some "4".
Proof.
  destruct (proj1 (Content_Length_of_downloads (Demo.platform 0 "")
                     (Demo.disk Demo.named false) "p")
              "7" "shop" "0123456789") as [_ H1]; [vm_compute; reflexivity|].
  destruct (proj2 (Content_Length_of_downloads (Demo.platform 0 "")
                     (Demo.disk Demo.stored false) "p")
              "job1" "{}") as [H2 H3]; try (vm_compute; reflexivity).
  split; [exact H1|]. split; [exact H2|exact H3].
Defined.

(** C8 as stated fails: the named-result download of a ten-byte file for
  configName shop and configID 7 announces 10, the length of the content,
  which is the length of none of the identifier strings of the request. *)
Lemma named_result_Content_Length_is_content_length :
  let r := SpiderResults_render_GET (Demo.platform 0 "") "p" "7" "shop"
             (Demo.disk Demo.named false) in
  body_of r = Some "0123456789"
  ∧ header_of r "Content-Length" = Some (str_of_nat (len "0123456789"))
  ∧ Forall (fun identifier =>
              header_of r "Content-Length" ≠ Some (str_of_nat (len identifier)))
      ["7"; "shop"; "p"; "shop-7-result"; "local-shop-7-result.json";
       "results/p/local-shop-7-result.json"].
Proof.
  split; [vm_compute; reflexivity|]. split; [vm_compute; reflexivity|].
  repeat constructor; vm_compute; discriminate.
Qed.

(** ** Parameter binding *)

Lemma Dict_get_remove_None {V} (k k' : str) (d : list (str * V)) :
  Dict.get k d = None → Dict.get k (Dict.remove k' d) = None.
Proof.
  induction d as [|[k0 v] d IH]; simpl; [done|].
  destruct (decide (k = k0)) as [->|Hk]; [done|]. intros Hg.
  destruct (decide (k' = k0)) as [->|Hk']; [done|]. simpl.
  rewrite decide_False by done. by apply IH.
Qed.

Lemma Dict_get_remove_ne {V} (k k' : str) (d : list (str * V)) :
  k ≠ k' → Dict.get k (Dict.remove k' d) = Dict.get k d.
Proof.
  intros Hne. induction d as [|[k0 v] d IH]; simpl; [done|].
  destruct (decide (k' = k0)) as [->|Hk'];
    destruct (decide (k = k0)) as [->|Hk]; simpl;
    rewrite ?decide_True, ?decide_False by done; done.
Qed.

Section ParamFacts.
Variable P : Platform.

Lemma decorate_bind_params decls func : ∀ kwargs s,
  decorate P decls func kwargs s
  = bind (bind_params P decls kwargs) func s.
Proof.
  induction decls as [|p decls IH]; intros kwargs s.
  - done.
  - cbn [decorate foldr bind_params].
    change (foldr (param P) func decls) with (decorate P decls func).
    unfold param. unfold bind at 1 2 3.
    destruct (param_value P p s) as [[v|e] s1]; [|done].
    by rewrite IH.
Qed.

Lemma bind_params_app pre post : ∀ kwargs s,
  bind_params P (pre ++ post) kwargs s
  = bind (bind_params P pre kwargs) (bind_params P post) s.
Proof.
  induction pre as [|p pre IH]; intros kwargs s.
  - done.
  - cbn [app bind_params]. unfold bind at 1 2 3.
    destruct (param_value P p s) as [[v|e] s1]; [|done].
    by rewrite IH.
Qed.

(** A required parameter that the request does not carry. *)
Lemma param_value_missing p s :
  is_literal p = true →
  required p = true →
  Dict.get (decoded p) (args (tx s)) = None →
  param_value P p s
  = (Raise (Error OK ("'" +:+ decoded p +:+ "' parameter is required")), s).
Proof.
  intros Hlit Hreq Hget. unfold param_value, eval_default, is_literal in *.
  destruct (default p); [|done].
  unfold bind, ret, gets, Dict.pop. simpl. by rewrite Hget, Hreq.
Qed.

(** Binding a parameter with a literal default touches the request
  arguments only, and only removes from them. *)
Lemma param_value_frame p s r s1 :
  is_literal p = true →
  param_value P p s = (r, s1) →
  root s1 = root s
  ∧ method (tx s1) = method (tx s)
  ∧ code (tx s1) = code (tx s)
  ∧ headers (tx s1) = headers (tx s)
  ∧ ∀ k, Dict.get k (args (tx s)) = None → Dict.get k (args (tx s1)) = None.
Proof.
  intros Hlit. unfold param_value, eval_default, is_literal in *.
  destruct (default p); [|done].
  unfold bind, ret, gets, Dict.pop, modify, raise. simpl.
  destruct (Dict.get (decoded p) (args (tx s))) as [values|] eqn:Hget.
  - assert (∀ k, Dict.get k (args (tx s)) = None →
                 Dict.get k (Dict.remove (decoded p) (args (tx s))) = None)
      as Hrem by (intros; by apply Dict_get_remove_None).
    destruct (multiple p).
    + destruct (convert_all P (type p) values); intros [= <- <-]; done.
    + destruct values as [|b rest]; [intros [= <- <-]; done|].
      destruct (convert P (type p) b); intros [= <- <-]; done.
  - destruct (required p); intros [= <- <-]; done.
Qed.

Lemma bind_params_frame pre : ∀ kwargs s r s1,
  forallb is_literal pre = true →
  bind_params P pre kwargs s = (r, s1) →
  root s1 = root s
  ∧ method (tx s1) = method (tx s)
  ∧ ∀ k, Dict.get k (args (tx s)) = None → Dict.get k (args (tx s1)) = None.
Proof.
  induction pre as [|p pre IH]; intros kwargs s r s1 Hlit.
  - intros [= <- <-]. done.
  - cbn [forallb] in Hlit. apply andb_true_iff in Hlit as [Hp Hpre].
    cbn [bind_params]. unfold bind.
    destruct (param_value P p s) as [[v|e] s0] eqn:Hv;
      destruct (param_value_frame _ _ _ _ Hp Hv) as (Hr & Hm & _ & _ & Ha).
    + intros H. destruct (IH _ _ _ _ Hpre H) as (Hr' & Hm' & Ha').
      split; [congruence|]. split; [congruence|]. intros k Hk. by apply Ha', Ha.
    + intros [= <- <-]. done.
Qed.

Lemma literal_prefix_split decls : ∀ pre p post,
  literal_prefix decls = true →
  decls = pre ++ p :: post →
  required p = true →
  forallb is_literal pre = true ∧ is_literal p = true.
Proof.
  induction decls as [|q decls IH]; intros pre p post Hlit Heq Hreq.
  - by destruct pre.
  - cbn [literal_prefix] in Hlit.
    assert (existsb required (q :: decls) = true) as Hex.
    { rewrite Heq. apply existsb_exists. exists p. split; [|done].
      apply in_or_app. right. by left. }
    rewrite Hex in Hlit. apply andb_true_iff in Hlit as [Hq Hrest].
    destruct pre as [|q' pre]; simplify_eq/=; [done|].
    destruct (IH pre p post Hrest eq_refl Hreq) as [H1 H2].
    by rewrite Hq, H1, H2.
Qed.

Lemma decls_literal_prefix op : literal_prefix (decls P op) = true.
Proof. by destruct op. Qed.

Lemma Resource_render_handles op f s :
  handles op (method (tx s)) = true →
  Resource_render (resource_of P op f) s = handler_of P op f s.
Proof.
  unfold handles, Resource_render, bind, gets, resource_of. simpl.
  destruct (method (tx s)), (is_POST op), (base_class op); simpl; done.
Qed.

(** The handler of an operation stops at a required parameter that is
  missing, once the parameters declared before it are bound. *)
Lemma handler_missing op f pre p post s kwargs s1 :
  decls P op = pre ++ p :: post →
  required p = true →
  bind_params P pre ∅ s = (Ok kwargs, s1) →
  Dict.get (decoded p) (args (tx s)) = None →
  handler_of P op f s
  = (Raise (Error OK ("'" +:+ decoded p +:+ "' parameter is required")), s1)
  ∧ root s1 = root s.
Proof.
  intros Hdecls Hreq Hpre Hget.
  destruct (literal_prefix_split _ _ _ _ (decls_literal_prefix op) Hdecls Hreq)
    as [Hlit Hp].
  destruct (bind_params_frame _ _ _ _ _ Hlit Hpre) as (Hroot & _ & Hargs).
  split; [|done].
  unfold handler_of. rewrite decorate_bind_params, Hdecls.
  unfold bind at 1. rewrite bind_params_app.
  unfold bind at 1. rewrite Hpre. cbn [bind_params]. unfold bind at 1.
  rewrite param_value_missing; [done..|]. by apply Hargs.
Qed.

End ParamFacts.

(** ** Missing required parameters *)

Ltac response_simpl :=
  cbv [status_of body_of header_of fst snd bind ret raise gets modify
       set_status_of setResponseCode setHeader finish
       with_root with_tx set_args set_code set_header root tx args method
       code headers].

(** A failure [Error(200, message)] of the handler under a class that
  intercepts failures, outside debug mode. *)
Lemma render_error (P : Platform) (op : Operation)
    (f : gmap str Value → M Data) (s s1 : State) (message : str) :
  base_class op ≠ RawContentResource →
  handles op (method (tx s)) = true →
  handler_of P op f s = (Raise (Error OK message), s1) →
  debug (root s1) = false →
  status_of (render_of P op f s) = OK
  ∧ body_of (render_of P op f s)
    = Some (error_envelope P op (node_name (root s1)) message)
  ∧ root (render_of P op f s).2 = root s1.
Proof.
  intros Hraw Hmeth Hh Hdbg.
  pose proof (Resource_render_handles P op f s Hmeth) as Hdisp.
  rewrite Hh in Hdisp.
  destruct s1 as [r1 [a m c h]]. cbn [root debug] in Hdbg.
  unfold render_of, error_envelope.
  destruct (base_class op); [| done | |].
  - unfold WsResource_render. rewrite Hdisp.
    unfold WsResource_finish. response_simpl. rewrite Hdbg.
    response_simpl. done.
  - unfold JustContentResource_render. rewrite Hdisp.
    unfold JustContentResource_finish. response_simpl. rewrite Hdbg.
    response_simpl. done.
  - unfold SpiderResults_render, try_except. rewrite Hdisp.
    response_simpl. rewrite Hdbg. done.
Qed.

(** C7, as the code has it.  Take an operation whose class intercepts
  failures (every class but the raw pass-through one), a request by a method
  that reaches its handler, and a required parameter that the request does
  not carry, the parameters declared before it being bound.  When the daemon
  is not in debug mode the response has status 200 and its body is the JSON
  error object whose message is ['<name>' parameter is required], for the
  name of that parameter.  The function under the decorators is not called:
  the response is the same whatever that function is, and the host context
  is as before the request. *)
Theorem required_parameter_missing (P : Platform) (op : Operation)
    (f : gmap str Value → M Data) (pre post : list Param) (p : Param)
    (s s1 : State) (kwargs : gmap str Value) :
  decls P op = pre ++ p :: post →
  required p = true →
  base_class op ≠ RawContentResource →
  handles op (method (tx s)) = true →
  bind_params P pre ∅ s = (Ok kwargs, s1) →
  Dict.get (decoded p) (args (tx s)) = None →
  debug (root s) = false →
  let r := render_of P op f s in
  status_of r = OK
  ∧ body_of r
    = Some (error_envelope P op (node_name (root s))
              ("'" +:+ decoded p +:+ "' parameter is required"))
  ∧ root r.2 = root s.
Proof.
  intros Hdecls Hreq Hraw Hmeth Hpre Hget Hdbg r. subst r.
  destruct (handler_missing P op f pre p post s kwargs s1
              Hdecls Hreq Hpre Hget) as [Hh Hroot].
  rewrite <- Hroot in Hdbg |- *. by apply render_error.
Qed.

(** A Schedule request that names a project and no spider. *)
Lemma required_parameter_missing_witness :
  let r := render (Demo.platform 0 "") Demo.no_body Schedule
             (Demo.only_project false) in
  status_of r = OK
  ∧ body_of r
    = Some (error_envelope (Demo.platform 0 "") Schedule "node"
              "'spider' parameter is required")
  ∧ root r.2 = root (Demo.only_project false).
Proof.
  apply (required_parameter_missing (Demo.platform 0 "") Schedule
           (func (Demo.platform 0 "") Demo.no_body Schedule)
           [param_ "project"] (skipn 2 (decls (Demo.platform 0 "") Schedule))
           (param_ "spider") (Demo.only_project false)
           (bind_params (Demo.platform 0 "") [param_ "project"] ∅
              (Demo.only_project false)).2
           {[ "project" := VStr "p" ]}).
  - reflexivity.
  - reflexivity.
  - discriminate.
  - reflexivity.
  - vm_compute. reflexivity.
  - reflexivity.
  - reflexivity.
Defined.

(** C7 as stated fails in two ways.  In debug mode the body of the response
  is the traceback, not the JSON error object.  And the result download,
  which declares required parameters on the raw pass-through class, lets the
  failure escape its [render]: the handler builds no response, neither a
  status nor a JSON body. *)
Lemma missing_parameter_without_envelope :
  (body_of (render (Demo.platform 0 "") Demo.no_body Schedule
              (Demo.only_project true))
   = Some (format_exc (Demo.platform 0 "")
             (Error OK "'spider' parameter is required"))
   ∧ body_of (render (Demo.platform 0 "") Demo.no_body Schedule
                (Demo.only_project true))
     ≠ Some (error_envelope (Demo.platform 0 "") Schedule "node"
               "'spider' parameter is required"))
  ∧ render (Demo.platform 0 "") Demo.no_body SpiderDownloadResult
      (Demo.bare_get false)
    = (Raise (Error OK "'project' parameter is required"),
       Demo.bare_get false).
Proof.
  split; [split|].
  - vm_compute. reflexivity.
  - vm_compute. discriminate.
  - vm_compute. reflexivity.
Qed.

(** ** Schedule *)

Lemma same_but_cache_refl r : same_but_cache r r.
Proof. by destruct r. Qed.

Lemma same_but_cache_set r c : same_but_cache r (set_cache c r).
Proof. by destruct r. Qed.

Lemma same_but_cache_trans r1 r2 r3 :
  same_but_cache r1 r2 → same_but_cache r2 r3 → same_but_cache r1 r3.
Proof.
  unfold same_but_cache. intros H12 H23. rewrite H23 at 1. rewrite H12 at 1.
  by destruct r1.
Qed.

Lemma same_but_cache_queues r r' : same_but_cache r r' → queues r' = queues r.
Proof. intros ->. done. Qed.

Section ScheduleFacts.
Variable P : Platform.

Lemma cache_getitem_frame project s d s1 :
  cache_getitem project s = (d, s1) →
  tx s1 = tx s ∧ same_but_cache (root s) (root s1).
Proof.
  unfold cache_getitem. destruct (cache (root s) !! project).
  - intros [= <- <-]. split; [done|]. apply same_but_cache_refl.
  - intros [= <- <-]. split; [done|]. apply same_but_cache_set.
Qed.

Lemma SpiderList_set_frame project version runner s r s1 :
  SpiderList_set P project version runner s = (r, s1) →
  tx s1 = tx s ∧ same_but_cache (root s) (root s1).
Proof.
  unfold SpiderList_set. case_decide as Hrc.
  - unfold bind, decode_m. destruct (decode P _); simpl; intros [= <- <-];
      (split; [done|apply same_but_cache_refl]).
  - unfold bind at 1. unfold decode_m.
    destruct (decode P _) as [out|e]; simpl.
    + unfold bind. rewrite !cache_update_spec. simpl.
      intros [= <- <-]. split; [done|]. simpl.
      eapply same_but_cache_trans; apply same_but_cache_set.
    + intros [= <- <-]. split; [done|apply same_but_cache_refl].
Qed.

Lemma SpiderList_get_frame project version runner s r s1 :
  SpiderList_get P project version runner s = (r, s1) →
  tx s1 = tx s ∧ same_but_cache (root s) (root s1).
Proof.
  unfold SpiderList_get. unfold bind.
  destruct (cache_getitem project s) as [[d|e] s0] eqn:Hg;
    destruct (cache_getitem_frame _ _ _ _ Hg) as [Ht Hr].
  - destruct (d !! version).
    + intros [= <- <-]. done.
    + intros H. destruct (SpiderList_set_frame _ _ _ _ _ _ H) as [Ht' Hr'].
      split; [congruence|]. by eapply same_but_cache_trans.
  - intros [= <- <-]. done.
Qed.

(** Decoding the remaining request arguments reads no state. *)
Lemma decode_items_pure items : ∀ acc s,
  (decode_items P items acc s).2 = s
  ∧ ∀ s', (decode_items P items acc s').1 = (decode_items P items acc s).1.
Proof.
  induction items as [|[key values] items IH]; intros acc s; [done|].
  cbn [decode_items]. unfold bind, decode_m.
  destruct (decode P key) as [k|e]; simpl; [|done].
  destruct values as [|v0 rest]; simpl; [done|].
  destruct (decode P v0) as [v|e]; simpl; [|done].
  apply IH.
Qed.

Lemma settings_dict_pure setting : ∀ i acc s,
  (settings_dict setting i acc s).2 = s
  ∧ ∀ s', (settings_dict setting i acc s').1
          = (settings_dict setting i acc s).1.
Proof.
  induction setting as [|x setting IH]; intros i acc s; [done|].
  cbn [settings_dict]. destruct (split_eq x) as [[k v]|]; [apply IH|done].
Qed.

Lemma Dict_mem_get {V} (k : str) (d : list (str * V)) :
  Dict.mem k d = true ↔ ∃ v, Dict.get k d = Some v.
Proof.
  unfold Dict.mem. destruct (Dict.get k d); split; eauto; try done.
  by intros [? ?].
Qed.

End ScheduleFacts.

Section ScheduleBody.
Variable P : Platform.
Variables (project spider : str) (version : option str) (jobid : str).
Variables (priority : Value) (setting : list str).

Let render_POST :=
  Schedule_render_POST P project spider version jobid priority setting.

Lemma Schedule_unknown_project s :
  Dict.mem project (queues (root s)) = false →
  render_POST s
  = (Raise (Error OK ("project '" +:+ project +:+ "' not found")), s).
Proof.
  intros H. unfold render_POST, Schedule_render_POST, bind, gets.
  by rewrite H.
Qed.

Lemma Schedule_unknown_version s v :
  Dict.mem project (queues (root s)) = true →
  version = Some v → v ≠ "" →
  eggstorage_get (eggstorage (root s)) project v = None →
  render_POST s
  = (Raise (Error OK ("version '" +:+ v +:+ "' not found")), s).
Proof.
  intros H -> Hv Hegg. unfold render_POST, Schedule_render_POST, bind, gets.
  rewrite H. cbn [negb truthy]. rewrite Hegg.
  apply String.eqb_neq in Hv. rewrite Hv. cbn [negb andb].
  by rewrite bool_decide_eq_true_2.
Qed.

(** What Schedule does once the project and the version have passed. *)
Lemma Schedule_after_checks s q res s1 :
  Dict.get project (queues (root s)) = Some q →
  ¬ version_missing (root s) project version →
  SpiderList_get P project version (runner (root s)) s = (res, s1) →
  render_POST s =
  match res with
  | Raise e => (Raise e, s1)
  | Ok spiders =>
      if bool_decide (spider ∈ spiders) then
        match (decode_items P (args (tx s)) [] s1).1 with
        | Raise e => (Raise e, s1)
        | Ok extra =>
            match (settings_dict setting 0 [] s1).1 with
            | Raise e => (Raise e, s1)
            | Ok settings =>
                if keyword_clash (add_version version extra)
                then (Raise (Exception "TypeError" ""), s1)
                else
                  (Ok (DJson (JDict [("jobid", JString jobid)])),
                   with_root (set_queues
                     (Dict.set project
                        (q ++ [scheduled spider jobid priority settings
                                 (add_version version extra)])
                        (queues (root s)))) s1)
            end
        end
      else (Raise (Error OK ("spider '" +:+ spider +:+ "' not found")), s1)
  end.
Proof.
  intros Hq Hver Hget.
  destruct (SpiderList_get_frame _ _ _ _ _ _ _ Hget) as [Htx Hroot].
  apply same_but_cache_queues in Hroot.
  unfold render_POST, Schedule_render_POST.
  unfold bind at 1. unfold gets at 1.
  assert (Dict.mem project (queues (root s)) = true) as ->
    by (apply Dict_mem_get; eauto).
  cbn [negb]. unfold bind at 1. unfold gets at 1. unfold bind at 1.
  assert (match version with
          | Some v =>
              if truthy version
                 && bool_decide
                      (eggstorage_get (eggstorage (root s)) project v = None)
              then version_not_found v else ret tt
          | None => ret tt
          end s = (Ok tt, s)) as ->.
  { destruct version as [v|]; [|done]. cbn [truthy].
    destruct (String.eqb v "") eqn:E; [done|]. cbn [negb andb].
    case_bool_decide as Hegg; [|done]. exfalso. apply Hver.
    exists v. split; [done|]. split; [|done]. by apply String.eqb_neq. }
  unfold bind at 1. unfold gets at 1. unfold bind at 1. rewrite Hget.
  destruct res as [spiders|e]; [|done].
  destruct (bool_decide (spider ∈ spiders)); cbn [negb]; [|done].
  unfold bind at 1. unfold gets at 1. rewrite Htx. unfold bind at 1.
  destruct (decode_items_pure P (args (tx s)) [] s1) as [Hs _].
  destruct (decode_items P (args (tx s)) [] s1) as [[extra|e] s2];
    cbn [fst snd] in *; subst s2; [|done].
  unfold bind at 1.
  destruct (settings_dict_pure setting 0 [] s1) as [Hs _].
  destruct (settings_dict setting 0 [] s1) as [[settings|e] s2];
    cbn [fst snd] in *; subst s2; [|done].
  destruct (keyword_clash (add_version version extra)); [done|].
  unfold bind at 1. unfold scheduler_schedule. unfold bind at 1.
  unfold gets at 1. rewrite Hroot, Hq. done.
Qed.

(** A Schedule that succeeds has passed every check. *)
Lemma Schedule_ok_inv s data s' :
  render_POST s = (Ok data, s') →
  ∃ q spiders s1 extra settings,
    Dict.get project (queues (root s)) = Some q
    ∧ SpiderList_get P project version (runner (root s)) s = (Ok spiders, s1)
    ∧ (decode_items P (args (tx s)) [] s1).1 = Ok extra
    ∧ (settings_dict setting 0 [] s1).1 = Ok settings
    ∧ data = DJson (JDict [("jobid", JString jobid)])
    ∧ s' = with_root (set_queues
             (Dict.set project
                (q ++ [scheduled spider jobid priority settings
                         (add_version version extra)])
                (queues (root s)))) s1.
Proof.
  intros Hok.
  destruct (Dict.get project (queues (root s))) as [q|] eqn:Hq.
  2:{ rewrite Schedule_unknown_project in Hok; [done|].
      unfold Dict.mem. by rewrite Hq. }
  assert (¬ version_missing (root s) project version) as Hver.
  { intros (v & Hv & Hne & Hegg).
    rewrite (Schedule_unknown_version s v) in Hok; try done.
    apply Dict_mem_get. eauto. }
  destruct (SpiderList_get P project version (runner (root s)) s)
    as [res s1] eqn:Hget.
  rewrite (Schedule_after_checks s q res s1 Hq Hver Hget) in Hok.
  destruct res as [spiders|e]; [|done].
  destruct (bool_decide (spider ∈ spiders)); [|done].
  destruct (decode_items P (args (tx s)) [] s1).1 as [extra|e] eqn:He; [|done].
  destruct (settings_dict setting 0 [] s1).1 as [settings|e] eqn:Hs; [|done].
  destruct (keyword_clash (add_version version extra)); [done|].
  injection Hok as <- <-. by exists q, spiders, s1, extra, settings.
Qed.

End ScheduleBody.

(** C5, as the code has it.  Schedule fails with [project '<p>' not found]
  when the project has no queue; otherwise with [version '<v>' not found]
  when an explicit, non-empty version does not resolve in the egg store;
  otherwise, once the spider list of the (project, version) pair has been
  obtained, with [spider '<s>' not found] when the spider is not in it;
  otherwise, when the remaining request arguments decode, every setting has
  an [=] and no remaining argument repeats a keyword of the scheduling call,
  the job is appended to the project's queue and [{jobid}] is returned.  A
  failure of the listing itself is the failure of the request. *)
Theorem Schedule_checks_in_order (P : Platform) (s : State)
    (project spider : str) (version : option str) (jobid : str)
    (priority : Value) (setting : list str) :
  let r :=
    Schedule_render_POST P project spider version jobid priority setting s in
  (Dict.mem project (queues (root s)) = false →
   r = (Raise (Error OK ("project '" +:+ project +:+ "' not found")), s))
  ∧ (Dict.mem project (queues (root s)) = true →
     ∀ v, version = Some v → v ≠ "" →
          eggstorage_get (eggstorage (root s)) project v = None →
          r = (Raise (Error OK ("version '" +:+ v +:+ "' not found")), s))
  ∧ (∀ q spiders s1,
       Dict.get project (queues (root s)) = Some q →
       ¬ version_missing (root s) project version →
       SpiderList_get P project version (runner (root s)) s
       = (Ok spiders, s1) →
       (spider ∉ spiders →
        r = (Raise (Error OK ("spider '" +:+ spider +:+ "' not found")), s1))
       ∧ (spider ∈ spiders →
          ∀ extra settings,
            (decode_items P (args (tx s)) [] s1).1 = Ok extra →
            (settings_dict setting 0 [] s1).1 = Ok settings →
            keyword_clash (add_version version extra) = false →
            r = (Ok (DJson (JDict [("jobid", JString jobid)])),
                 with_root (set_queues
                   (Dict.set project
                      (q ++ [scheduled spider jobid priority settings
                               (add_version version extra)])
                      (queues (root s)))) s1)))
  ∧ (∀ q e s1,
       Dict.get project (queues (root s)) = Some q →
       ¬ version_missing (root s) project version →
       SpiderList_get P project version (runner (root s)) s = (Raise e, s1) →
       r = (Raise e, s1)).
Proof.
  intros r. subst r. split; [apply Schedule_unknown_project|].
  split; [intros; by eapply Schedule_unknown_version|]. split.
  - intros q spiders s1 Hq Hver Hget.
    rewrite (Schedule_after_checks P _ _ _ _ _ _ s q (Ok spiders) s1
               Hq Hver Hget).
    split.
    + intros Hnot. by rewrite bool_decide_eq_false_2.
    + intros Hin extra settings He Hs Hclash.
      by rewrite bool_decide_eq_true_2, He, Hs, Hclash.
  - intros q e s1 Hq Hver Hget.
    by rewrite (Schedule_after_checks P _ _ _ _ _ _ s q (Raise e) s1
                  Hq Hver Hget).
Qed.

(** Scheduling the cached spider [old] of project [p] with one well-formed
  setting: the job is enqueued and its id returned. *)
Lemma Schedule_checks_in_order_witness :
  Schedule_render_POST (Demo.platform 0 "") "p" "old" None "job9" (VInt 0)
    ["LOG_LEVEL=INFO"] Demo.cached
  = (Ok (DJson (JDict [("jobid", JString "job9")])),
     with_root (set_queues
       [("p", [scheduled "old" "job9" (VInt 0) [("LOG_LEVEL", "INFO")] []])])
       Demo.cached).
Proof.
  destruct (Schedule_checks_in_order (Demo.platform 0 "") Demo.cached
              "p" "old" None "job9" (VInt 0) ["LOG_LEVEL=INFO"])
    as (_ & _ & H & _).
  destruct (H [] ["old"] Demo.cached) as [_ Hok].
  - reflexivity.
  - intros (v & Hv & _). discriminate Hv.
  - vm_compute. reflexivity.
  - apply (Hok ltac:(by left) [] [("LOG_LEVEL", "INFO")]); reflexivity.
Defined.

(** C5 as stated fails on a setting without [=]: the project has a queue,
  no version is given and the spider is in the list, and yet the request
  fails and nothing is enqueued. *)
Lemma Schedule_setting_without_equals :
  Dict.mem "p" (queues (root Demo.cached)) = true
  ∧ (SpiderList_get (Demo.platform 0 "") "p" None "scrapyd.runner"
       Demo.cached).1 = Ok ["old"]
  ∧ Schedule_render_POST (Demo.platform 0 "") "p" "old" None "job9" (VInt 0)
      ["LOG_LEVEL"] Demo.cached
    = (Raise (Exception "ValueError"
                "dictionary update sequence element #0 has length 1; 2 is required"),
       Demo.cached).
Proof. repeat split; vm_compute; reflexivity. Qed.

(** ** AddVersion *)

Lemma param_value_present (P : Platform) p s b rest v :
  is_literal p = true →
  multiple p = false →
  Dict.get (decoded p) (args (tx s)) = Some (b :: rest) →
  convert P (type p) b = inl v →
  param_value P p s
  = (Ok v, with_tx (set_args (Dict.remove (decoded p) (args (tx s)))) s).
Proof.
  intros Hlit Hmul Hget Hconv. unfold param_value, eval_default, is_literal in *.
  destruct (default p); [|done].
  unfold bind, ret, gets, Dict.pop, modify. simpl.
  by rewrite Hget, Hmul, Hconv.
Qed.

(** C3.  An Add Version request whose egg is not a ZIP archive fails on the
  first statement of the handler, with a message that points to
  [egg=@path]; the response has status 200 and carries the JSON error
  object, and the host context (egg store, queues of the known projects,
  spider-list cache and all the rest) is as before the request. *)
Theorem AddVersion_rejects_non_zip (P : Platform)
    (other : Operation → gmap str Value → M Data) (s : State)
    (project version : str) (pb vb egg : bytes) (prest vrest erest : list bytes) :
  method (tx s) = POST →
  debug (root s) = false →
  Dict.get "project" (args (tx s)) = Some (pb :: prest) →
  decode P pb = inl project →
  Dict.get "version" (args (tx s)) = Some (vb :: vrest) →
  decode P vb = inl version →
  Dict.get "egg" (args (tx s)) = Some (egg :: erest) →
  is_zipfile P egg = false →
  let message :=
    "egg is not a ZIP file (if using curl, use egg=@path not egg=path)" in
  let r := render P other AddVersion s in
  (∀ s0, AddVersion_render_POST P project version egg s0
         = (Raise (Error OK message), s0))
  ∧ status_of r = OK
  ∧ body_of r = Some (error_envelope P AddVersion (node_name (root s)) message)
  ∧ root r.2 = root s
  ∧ eggstorage (root r.2) = eggstorage (root s)
  ∧ Dict.keys (queues (root r.2)) = Dict.keys (queues (root s))
  ∧ cache (root r.2) = cache (root s).
Proof.
  intros Hm Hdbg Hp Hpd Hv Hvd He Hzip message r.
  assert (∀ s0, AddVersion_render_POST P project version egg s0
                = (Raise (Error OK message), s0)) as Hbody.
  { intros s0. unfold AddVersion_render_POST. by rewrite Hzip. }
  split; [exact Hbody|].
  set (s3 := with_tx (set_args
               (Dict.remove "egg" (Dict.remove "version"
                  (Dict.remove "project" (args (tx s)))))) s).
  assert (handler_of P AddVersion (func P other AddVersion) s
          = (Raise (Error OK message), s3)) as Hh.
  { unfold handler_of. cbn [decls decorate foldr]. unfold param at 1.
    unfold bind at 1.
    rewrite (param_value_present P (param_ "project") s pb prest (VStr project));
      [|done|done|done|by cbn; rewrite Hpd].
    unfold param at 1. unfold bind at 1.
    rewrite (param_value_present P (param_ "version") _ vb vrest (VStr version));
      [|done|done| |by cbn; rewrite Hvd].
    2:{ cbn. by rewrite Dict_get_remove_ne. }
    unfold param at 1. unfold bind at 1.
    erewrite (param_value_present P _ _ egg erest (VBytes egg));
      [|done|done| |done].
    2:{ cbn. by rewrite !Dict_get_remove_ne. }
    cbn [func dest_of dest decoded param_]. unfold bind at 1.
    unfold arg_str at 1. rewrite !lookup_insert_ne by done.
    rewrite lookup_insert_eq. unfold ret at 1.
    unfold bind at 1. unfold arg_str at 1. rewrite lookup_insert_ne by done.
    rewrite lookup_insert_eq. unfold ret at 1.
    unfold bind at 1. unfold arg_bytes at 1. rewrite lookup_insert_eq.
    unfold ret at 1. by rewrite Hbody. }
  destruct (render_error P AddVersion (func P other AddVersion) s s3 message)
    as (H1 & H2 & H3); [done|by rewrite Hm|exact Hh|exact Hdbg|].
  subst r. unfold render. rewrite H1, H2, H3. done.
Qed.

(** An upload of plain text as the egg of version 1 of project [p]. *)
Lemma AddVersion_rejects_non_zip_witness :
  let r := render (Demo.platform 0 "") Demo.no_body AddVersion Demo.upload in
  status_of r = OK
  ∧ body_of r
    = Some (error_envelope (Demo.platform 0 "") AddVersion "node"
              "egg is not a ZIP file (if using curl, use egg=@path not egg=path)")
  ∧ root r.2 = root Demo.upload.
Proof.
  destruct (AddVersion_rejects_non_zip (Demo.platform 0 "") Demo.no_body
              Demo.upload "p" "1" "p" "1" "plain text" [] [] [])
    as (_ & H1 & H2 & H3 & _); try reflexivity.
  split; [exact H1|]. split; [exact H2|exact H3].
Defined.

(** ** What Schedule forwards *)

Lemma same_host_refl r : same_host r r.
Proof. by destruct r. Qed.

Lemma same_host_trans r1 r2 r3 :
  same_host r1 r2 → same_host r2 r3 → same_host r1 r3.
Proof.
  unfold same_host. intros H12 H23. rewrite H23 at 1. rewrite H12 at 1.
  by destruct r1.
Qed.

Lemma same_host_queues r r' : same_host r r' → queues r' = queues r.
Proof. intros ->. done. Qed.

Lemma Dict_remove_absent {V} (k : str) (d : list (str * V)) :
  Dict.get k d = None → Dict.remove k d = d.
Proof.
  induction d as [|[k0 v] d IH]; simpl; [done|].
  destruct (decide (k = k0)); [done|]. intros H. by rewrite IH.
Qed.

Lemma Dict_get_None_keys {V} (k : str) (d : list (str * V)) :
  Dict.get k d = None ↔ k ∉ d.*1.
Proof.
  pose proof (Dict_get_keys k d) as H. unfold Dict.keys in H. rewrite H.
  destruct (Dict.get k d) as [v|].
  - split; [done|]. intros Hn. exfalso. apply Hn. by exists v.
  - split; [|done]. intros _ [? [=]].
Qed.

Lemma Dict_remove_filter {V} (k : str) (d : list (str * V)) :
  NoDup d.*1 → Dict.remove k d = filter (fun kv => kv.1 ≠ k) d.
Proof.
  induction d as [|[k0 v] d IH]; [done|].
  rewrite fmap_cons. intros [Hk0 Hnd]%NoDup_cons. cbn [Dict.remove].
  rewrite filter_cons. cbn [fst].
  destruct (decide (k = k0)) as [->|Hne].
  - rewrite decide_False by (by intros ?).
    rewrite <- IH by done. symmetry. apply Dict_remove_absent.
    by apply Dict_get_None_keys.
  - rewrite decide_True by done. by rewrite IH.
Qed.

Lemma NoDup_filter_keys {V} (Q : str * V → Prop) `{∀ x, Decision (Q x)}
    (d : list (str * V)) :
  NoDup d.*1 → NoDup (filter Q d).*1.
Proof.
  induction d as [|[k0 v] d IH]; [done|].
  rewrite fmap_cons. intros [Hk0 Hnd]%NoDup_cons. rewrite filter_cons.
  destruct (decide (Q (k0, v))); [|by apply IH].
  rewrite fmap_cons. apply NoDup_cons. split; [|by apply IH].
  intros Hin. apply Hk0. apply list_elem_of_fmap in Hin as ([k' v'] & -> & Hin).
  apply list_elem_of_filter in Hin as [_ Hin].
  apply list_elem_of_fmap. by exists (k', v').
Qed.

Lemma Schedule_consumed_filter {V} (a : list (bytes * V)) :
  NoDup a.*1 →
  Dict.remove "setting" (Dict.remove "priority" (Dict.remove "jobid"
    (Dict.remove "_version" (Dict.remove "spider" (Dict.remove "project" a)))))
  = filter (fun kv => kv.1 ∉ Schedule_consumed) a.
Proof.
  intros Hnd.
  rewrite (Dict_remove_filter "project") by done.
  rewrite (Dict_remove_filter "spider") by (by apply NoDup_filter_keys).
  rewrite list_filter_filter.
  rewrite (Dict_remove_filter "_version") by (by apply NoDup_filter_keys).
  rewrite list_filter_filter.
  rewrite (Dict_remove_filter "jobid") by (by apply NoDup_filter_keys).
  rewrite list_filter_filter.
  rewrite (Dict_remove_filter "priority") by (by apply NoDup_filter_keys).
  rewrite list_filter_filter.
  rewrite (Dict_remove_filter "setting") by (by apply NoDup_filter_keys).
  rewrite list_filter_filter.
  apply list_filter_iff. intros [k v]. unfold Schedule_consumed. cbn [fst].
  rewrite !not_elem_of_cons. pose proof (not_elem_of_nil k). tauto.
Qed.

Section Forwarding.
Variable P : Platform.

Lemma param_value_inv p s v s1 :
  benign p →
  param_value P p s = (Ok v, s1) →
  ∃ d,
    (eval_default p s).1 = Ok d
    ∧ tx s1 = set_args (Dict.remove (decoded p) (args (tx s))) (tx s)
    ∧ same_host (root s) (root s1)
    ∧ bound P p d (Dict.get (decoded p) (args (tx s))) v.
Proof.
  intros Hb. destruct (Hb s) as (d & s0 & Hd & Htx & Hroot).
  unfold param_value. unfold bind at 1. rewrite Hd.
  unfold bind at 1. unfold gets at 1. rewrite Htx. unfold Dict.pop.
  destruct (Dict.get (decoded p) (args (tx s))) as [values|] eqn:Hget.
  - unfold bind at 1. unfold modify at 1. intros H. exists d.
    assert (s1 = with_tx (set_args (Dict.remove (decoded p) (args (tx s)))) s0)
      as ->.
    { destruct (multiple p).
      - destruct (convert_all P (type p) values); by injection H.
      - destruct values as [|b rest]; [done|].
        destruct (convert P (type p) b); by injection H. }
    split; [done|].
    split; [cbn; by rewrite Htx|]. split; [done|].
    unfold bound. destruct (multiple p).
    + destruct (convert_all P (type p) values) as [vs|]; [|done].
      injection H as <-. eauto.
    + destruct values as [|b rest]; [done|].
      destruct (convert P (type p) b) as [v'|] eqn:Hc; [|done].
      injection H as <-. eauto.
  - destruct (required p) eqn:Hreq; [done|]. intros [= <- <-]. exists d.
    rewrite Dict_remove_absent by done. split; [done|].
    split; [rewrite Htx; by destruct (tx s)|].
    split; [done|]. done.
Qed.

Lemma benign_literal p : is_literal p = true → benign p.
Proof.
  unfold is_literal, benign, eval_default. destruct (default p); [|done].
  intros _ s. exists v, s. split; [done|]. split; [done|].
  apply same_host_refl.
Qed.

Lemma benign_Schedule : Forall benign (decls P Schedule).
Proof.
  cbn [decls]. repeat apply Forall_cons_2; try (by apply benign_literal).
  - intros s. eexists _, _. split; [reflexivity|]. split; [done|].
    by destruct s as [[] ?].
  - intros s. eexists _, _. split; [reflexivity|]. split; [done|].
    apply same_host_refl.
  - apply Forall_nil_2.
Qed.

Lemma decode_items_forwarded items : ∀ acc s extra,
  (decode_items P items acc s).1 = Ok extra →
  ∃ pairs,
    Forall2 (forwarded P) items pairs
    ∧ extra = foldl (fun d kv => Dict.set kv.1 kv.2 d) acc pairs.
Proof.
  induction items as [|[key values] items IH]; intros acc s extra.
  - intros [= <-]. exists []. split; [constructor|done].
  - cbn [decode_items]. unfold bind at 1. unfold decode_m.
    destruct (decode P key) as [k|e] eqn:Hk; [|done].
    unfold ret at 1. destruct values as [|v0 rest]; [done|].
    unfold bind at 1. destruct (decode P v0) as [v|e] eqn:Hv; [|done].
    unfold ret at 1. intros H. destruct (IH _ _ _ H) as (pairs & Hf & ->).
    exists ((k, v) :: pairs). split; [|done].
    constructor; [|done]. split; [done|]. by exists v0, rest.
Qed.

Lemma arg_str_list_pure (kwargs : gmap str Value) name s :
  (arg_str_list kwargs name s).2 = s.
Proof.
  unfold arg_str_list. destruct (kwargs !! name) as [[]|]; try done.
  induction l as [|v l IH]; [done|].
  cbn [foldr]. unfold bind at 1.
  match goal with
  | |- context [foldr ?f ?a l s] =>
      destruct (foldr f a l s) as [[rest|e] s0]
  end; cbn [snd] in *; subst; [|done].
  by destruct v.
Qed.

End Forwarding.

Section ScheduleRequest.
Variable P : Platform.
Variable other : Operation → gmap str Value → M Data.

(** A Schedule request that succeeds: what was bound, and the body's run. *)
Lemma Schedule_handler_inv s data s' :
  handler P other Schedule s = (Ok data, s') →
  ∃ project spider version jobid priority setting s6,
    Schedule_render_POST P project spider version jobid priority setting s6
    = (Ok data, s')
    ∧ same_host (root s) (root s6)
    ∧ args (tx s6)
      = Dict.remove "setting" (Dict.remove "priority" (Dict.remove "jobid"
          (Dict.remove "_version" (Dict.remove "spider"
             (Dict.remove "project" (args (tx s)))))))
    ∧ bound P (nth 2 (decls P Schedule) (param_ "")) VNone
        (Dict.get "_version" (args (tx s)))
        (from_option VStr VNone version).
Proof.
  intros H. unfold handler, handler_of in H.
  pose proof (benign_Schedule P) as Hb. cbn [decls] in Hb, H.
  cbn [decorate foldr] in H.
  apply Forall_cons in Hb as [Hb1 Hb]. apply Forall_cons in Hb as [Hb2 Hb].
  apply Forall_cons in Hb as [Hb3 Hb]. apply Forall_cons in Hb as [Hb4 Hb].
  apply Forall_cons in Hb as [Hb5 Hb]. apply Forall_cons in Hb as [Hb6 _].
  unfold param at 1 in H. unfold bind at 1 in H.
  destruct (param_value P _ s) as [[v1|?] s1] eqn:H1; [|done].
  apply param_value_inv in H1 as (d1 & _ & Ht1 & Hr1 & _); [|exact Hb1].
  unfold param at 1 in H. unfold bind at 1 in H.
  destruct (param_value P _ s1) as [[v2|?] s2] eqn:H2; [|done].
  apply param_value_inv in H2 as (d2 & _ & Ht2 & Hr2 & _); [|exact Hb2].
  unfold param at 1 in H. unfold bind at 1 in H.
  destruct (param_value P _ s2) as [[v3|?] s3] eqn:H3; [|done].
  apply param_value_inv in H3 as (d3 & Hd3 & Ht3 & Hr3 & Hv3); [|exact Hb3].
  unfold param at 1 in H. unfold bind at 1 in H.
  destruct (param_value P _ s3) as [[v4|?] s4] eqn:H4; [|done].
  apply param_value_inv in H4 as (d4 & _ & Ht4 & Hr4 & _); [|exact Hb4].
  unfold param at 1 in H. unfold bind at 1 in H.
  destruct (param_value P _ s4) as [[v5|?] s5] eqn:H5; [|done].
  apply param_value_inv in H5 as (d5 & _ & Ht5 & Hr5 & _); [|exact Hb5].
  unfold param at 1 in H. unfold bind at 1 in H.
  destruct (param_value P _ s5) as [[v6|?] s6] eqn:H6; [|done].
  apply param_value_inv in H6 as (d6 & _ & Ht6 & Hr6 & _); [|exact Hb6].
  cbn [dest_of dest decoded param_ param_optional] in *.
  injection Hd3 as <-.
  assert (args (tx s6)
          = Dict.remove "setting" (Dict.remove "priority" (Dict.remove "jobid"
              (Dict.remove "_version" (Dict.remove "spider"
                 (Dict.remove "project" (args (tx s)))))))) as Hargs.
  { rewrite Ht6. cbn [args set_args]. rewrite Ht5. cbn [args set_args].
    rewrite Ht4. cbn [args set_args]. rewrite Ht3. cbn [args set_args].
    rewrite Ht2. cbn [args set_args]. rewrite Ht1. done. }
  assert (same_host (root s) (root s6)) as Hhost.
  { repeat (eapply same_host_trans; [eassumption|]). apply same_host_refl. }
  assert (Dict.get "_version" (args (tx s2))
          = Dict.get "_version" (args (tx s))) as Hver.
  { rewrite Ht2. cbn [args set_args]. rewrite Ht1. cbn [args set_args].
    by rewrite !Dict_get_remove_ne. }
  rewrite Hver in Hv3.
  cbn [func] in H.
  unfold bind at 1 in H. unfold arg_str at 1 in H.
  rewrite !lookup_insert_ne in H by done. rewrite lookup_insert_eq in H.
  destruct v1 as [|project| | | |]; try done. unfold ret at 1 in H.
  unfold bind at 1 in H. unfold arg_str at 1 in H.
  rewrite !lookup_insert_ne in H by done. rewrite lookup_insert_eq in H.
  destruct v2 as [|spider| | | |]; try done. unfold ret at 1 in H.
  unfold bind at 1 in H. unfold arg_opt_str at 1 in H.
  rewrite !lookup_insert_ne in H by done. rewrite lookup_insert_eq in H.
  destruct v3 as [|ver| | | |]; try done;
    [pose (version := @None str) | pose (version := Some ver)];
    unfold ret at 1 in H;
    (unfold bind at 1 in H; unfold arg_str at 1 in H;
     rewrite !lookup_insert_ne in H by done; rewrite lookup_insert_eq in H;
     destruct v4 as [|jobid| | | |]; try done; unfold ret at 1 in H;
     unfold bind at 1 in H; unfold arg_any at 1 in H;
     rewrite !lookup_insert_ne in H by done; rewrite lookup_insert_eq in H;
     unfold ret at 1 in H; unfold bind at 1 in H;
     match type of H with
     | context [arg_str_list ?kw ?n s6] =>
         pose proof (arg_str_list_pure kw n s6) as Hpure;
         destruct (arg_str_list kw n s6) as [[setting|?] s7]; [|done]
     end;
     cbn [snd] in Hpure; subst s7;
     exists project, spider, version, jobid, v5, setting, s6;
     split; [exact H|]; split; [exact Hhost|]; split; [exact Hargs|];
     exact Hv3).
Qed.

End ScheduleRequest.

(** C10, as the code has it.  When a Schedule request succeeds, the six
  declared wire names have left the request mapping, and the message that
  was enqueued carries as extra arguments exactly the remaining parameters,
  each by its decoded name and its decoded first value, whatever values
  follow the first.  No consumed parameter is forwarded from the mapping;
  the explicit version, when one was given, is added again under the key
  [_version], with the first value of that parameter. *)
Theorem Schedule_forwards_first_values (P : Platform)
    (other : Operation → gmap str Value → M Data)
    (s : State) (data : Data) (s' : State) :
  NoDup (args (tx s)).*1 →
  handler P other Schedule s = (Ok data, s') →
  let unconsumed :=
    filter (fun kv => kv.1 ∉ Schedule_consumed) (args (tx s)) in
  args (tx s') = unconsumed
  ∧ ∃ project q message pairs,
      Dict.get project (queues (root s)) = Some q
      ∧ queues (root s')
        = Dict.set project (q ++ [message]) (queues (root s))
      ∧ Forall2 (forwarded P) unconsumed pairs
      ∧ (Dict.get "_version" (args (tx s)) = None →
         m_args message = Dict.of_pairs pairs)
      ∧ (∀ values,
           Dict.get "_version" (args (tx s)) = Some values →
           ∃ v0 rest v,
             values = v0 :: rest ∧ decode P v0 = inl v
             ∧ m_args message = Dict.set "_version" v (Dict.of_pairs pairs)).
Proof.
  intros Hnd Hok unconsumed.
  destruct (Schedule_handler_inv P other s data s' Hok)
    as (project & spider & version & jobid & priority & setting & s6
        & Hbody & Hhost & Hargs & Hbound).
  destruct (Schedule_ok_inv P _ _ _ _ _ _ _ _ _ Hbody)
    as (q & spiders & s1 & extra & settings & Hq & Hget & Hdec & Hset
        & -> & ->).
  destruct (SpiderList_get_frame _ _ _ _ _ _ _ Hget) as [Htx _].
  rewrite Schedule_consumed_filter in Hargs by done. fold unconsumed in Hargs.
  apply same_host_queues in Hhost.
  split; [cbn; by rewrite Htx|].
  rewrite Hargs in Hdec.
  destruct (decode_items_forwarded P _ _ _ _ Hdec) as (pairs & Hfw & ->).
  exists project, q,
    (scheduled spider jobid priority settings
       (add_version version (Dict.of_pairs pairs))), pairs.
  rewrite <- Hhost. split; [done|]. split; [done|]. split; [done|].
  cbn [m_args scheduled]. split.
  - intros Hnone. rewrite Hnone in Hbound. destruct Hbound as [_ Hv].
    by destruct version.
  - intros values Hsome. rewrite Hsome in Hbound.
    cbn [nth decls multiple type bound convert] in Hbound.
    destruct Hbound as (b & rest & -> & Hconv).
    destruct (decode P b) as [x|e] eqn:Hb; [|done].
    exists b, rest, x. split; [done|]. split; [done|].
    destruct version as [ver|]; [|done]. cbn in Hconv. by simplify_eq.
Qed.

(** The request of [Demo.versioned]: the argument [colour] stays in the
  request mapping with both its values, and the declared names are gone. *)
Lemma Schedule_forwards_first_values_witness :
  args (tx (handler (Demo.platform 0 "") Demo.no_body Schedule
              Demo.versioned).2)
  = [("colour", ["red"; "blue"])].
Proof.
  destruct (Schedule_forwards_first_values (Demo.platform 0 "") Demo.no_body
              Demo.versioned
              (DJson (JDict [("jobid", JString "job7")]))
              (handler (Demo.platform 0 "") Demo.no_body Schedule
                 Demo.versioned).2) as [H _].
  - apply (bool_decide_unpack _). vm_compute. reflexivity.
  - vm_compute. reflexivity.
  - rewrite H. vm_compute. reflexivity.
Defined.

(** C10 as stated fails for [_version]: it is one of the consumed
  parameters, and its first value is among the extra arguments of the
  message that was enqueued, next to the first value of [colour]. *)
Lemma Schedule_version_is_forwarded :
  "_version" ∈ Schedule_consumed
  ∧ queues (root (handler (Demo.platform 0 "") Demo.no_body Schedule
                    Demo.versioned).2)
    = [("p", [scheduled "a" "job7" (VInt 0) []
                [("colour", "red"); ("_version", "1")]])].
Proof.
  split; [unfold Schedule_consumed; set_solver|]. vm_compute. reflexivity.
Qed.

(** * Further properties of the module *)

(** ** SpiderList: hits, failures, the empty version *)

Lemma pair_eta_fst {A B} (p : A * B) (a : A) : p.1 = a → p = (a, p.2).
Proof. destruct p. by intros <-. Qed.

Lemma SpiderList_get_hit (P : Platform) (s : State) (p : str)
    (v : option str) (runner : str) (spiders : list str) :
  entry s p v = Some spiders →
  SpiderList_get P p v runner s = (Ok spiders, s).
Proof.
  unfold entry, SpiderList_get, cache_getitem, bind.
  destruct (cache (root s) !! p) as [d|]; [|done].
  by intros ->.
Qed.

(** X1.  What [set] has computed, [get] returns: after a successful
  [set(p, v)], a [get(p, v)] gives the same list and changes nothing, on any
  platform and for any runner, so the listing command is not run again. *)
Theorem SpiderList_get_after_set (P P' : Platform) (s : State) (p : str)
    (v : option str) (runner runner' : str) (spiders : list str)
    (s1 : State) :
  SpiderList_set P p v runner s = (Ok spiders, s1) →
  SpiderList_get P' p v runner' s1 = (Ok spiders, s1).
Proof.
  intros Hset. apply SpiderList_get_hit.
  apply SpiderList_set_ok in Hset as ->.
  rewrite entry_set_cache, lookup_insert_eq. by rewrite lookup_insert_eq.
Qed.

(** After listing version 1 of project [p], a [get] finds the list even
  where the listing command would now fail. *)
Lemma SpiderList_get_after_set_witness :
  let s1 :=
    (SpiderList_set (Demo.platform 0 Demo.two_spiders) "p" (Some "1")
       "scrapyd.runner" Demo.cached).2 in
  SpiderList_get (Demo.platform 1 "") "p" (Some "1") "other.runner" s1
  = (Ok ["alpha"; "beta"], s1).
Proof.
  intros s1.
  apply (SpiderList_get_after_set (Demo.platform 0 Demo.two_spiders)
           (Demo.platform 1 "") Demo.cached "p" (Some "1") "scrapyd.runner").
  vm_compute. reflexivity.
Defined.

Lemma SpiderList_set_failure (P : Platform) (s : State) (p : str)
    (v : option str) (runner : str) (e : Exn) (s1 : State) :
  SpiderList_set P p v runner s = (Raise e, s1) →
  s1 = s
  ∧ ∃ text, e = Exception "RunnerError" text
            ∨ e = Exception "UnicodeDecodeError" text.
Proof.
  unfold SpiderList_set. case_decide as Hrc.
  - unfold bind, decode_m. destruct (decode P _) as [text|text]; simpl;
      intros [= <- <-]; split; eauto.
  - unfold bind at 1. unfold decode_m.
    destruct (decode P _) as [out|text]; simpl.
    + unfold bind. rewrite !cache_update_spec. simpl. intros [=].
    + intros [= <- <-]. split; eauto.
Qed.



(** X3.  An empty version string is listed like no version at all, and
  cached like a version.  [set(p, "")] runs the listing command exactly as
  [set(p, None)] does (no [SCRAPYD_EGG_VERSION]), so both succeed with the
  same list or fail with the same error; but the list is stored under the
  key [""] and the unspecified-version entry is evicted. *)
Theorem SpiderList_empty_version (P : Platform) (s : State) (p : str)
    (runner : str) :
  (SpiderList_set P p (Some "") runner s).1
  = (SpiderList_set P p None runner s).1
  ∧ ∀ spiders s1,
      SpiderList_set P p (Some "") runner s = (Ok spiders, s1) →
      entry s1 p (Some "") = Some spiders ∧ entry s1 p None = None.
Proof.
  split.
  - unfold SpiderList_set. cbn [truthy String.eqb negb].
    case_decide as Hrc.
    + unfold bind, decode_m. by destruct (decode P _).
    + unfold bind at 1 3. unfold decode_m.
      destruct (decode P _) as [out|text]; simpl; [|done].
      unfold bind. rewrite !cache_update_spec. simpl.
      by rewrite !cache_update_spec.
  - intros spiders s1 Hset. apply SpiderList_set_ok in Hset as ->.
    rewrite !entry_set_cache, !lookup_insert_eq. split; [done|].
    rewrite lookup_insert_ne by done. by rewrite lookup_delete_eq.
Qed.

Lemma SpiderList_empty_version_witness :
  entry (SpiderList_set (Demo.platform 0 Demo.two_spiders) "p" (Some "")
           "scrapyd.runner" Demo.cached).2 "p" (Some "")
  = Some ["alpha"; "beta"]
  ∧ entry (SpiderList_set (Demo.platform 0 Demo.two_spiders) "p" (Some "")
             "scrapyd.runner" Demo.cached).2 "p" None
    = None.
Proof.
  destruct (SpiderList_empty_version (Demo.platform 0 Demo.two_spiders)
              Demo.cached "p" "scrapyd.runner") as [_ H].
  apply (H ["alpha"; "beta"]). apply pair_eta_fst. vm_compute. reflexivity.
Defined.

(** ** Dictionaries *)

Section DictFacts.
Context {K V : Type} `{EqDecision K}.
Implicit Types (k : K) (v : V) (d : list (K * V)).

Lemma Dict_get_set_eq k v d : Dict.get k (Dict.set k v d) = Some v.
Proof.
  induction d as [|[k0 v0] d IH]; simpl.
  - by rewrite decide_True.
  - destruct (decide (k = k0)) as [->|Hne]; simpl.
    + by rewrite decide_True.
    + by rewrite decide_False.
Qed.

Lemma Dict_get_set_ne k k' v d :
  k ≠ k' → Dict.get k (Dict.set k' v d) = Dict.get k d.
Proof.
  intros Hne. induction d as [|[k0 v0] d IH]; simpl.
  - by rewrite decide_False.
  - destruct (decide (k' = k0)) as [->|Hne']; simpl.
    + by rewrite !decide_False.
    + destruct (decide (k = k0)); [done|]. apply IH.
Qed.

Lemma Dict_set_id k v d : Dict.get k d = Some v → Dict.set k v d = d.
Proof.
  induction d as [|[k0 v0] d IH]; simpl; [done|].
  destruct (decide (k = k0)) as [->|Hne].
  - by intros [= ->].
  - intros H. by rewrite IH.
Qed.

Lemma Dict_set_set k v v' d :
  Dict.set k v (Dict.set k v' d) = Dict.set k v d.
Proof.
  induction d as [|[k0 v0] d IH]; simpl.
  - by rewrite decide_True.
  - destruct (decide (k = k0)) as [->|Hne]; simpl.
    + by rewrite decide_True.
    + by rewrite decide_False, IH.
Qed.

Lemma Dict_remove_set k v d :
  Dict.remove k (Dict.set k v d) = Dict.remove k d.
Proof.
  induction d as [|[k0 v0] d IH]; simpl.
  - by rewrite decide_True.
  - destruct (decide (k = k0)) as [->|Hne]; simpl.
    + by rewrite decide_True.
    + by rewrite decide_False, IH.
Qed.

Lemma Dict_keys_set k v v' d :
  Dict.get k d = Some v' → Dict.keys (Dict.set k v d) = Dict.keys d.
Proof.
  unfold Dict.keys. induction d as [|[k0 v0] d IH]; [done|].
  cbn [Dict.get Dict.set].
  destruct (decide (k = k0)) as [->|Hne]; [done|].
  intros H. rewrite !fmap_cons. by rewrite IH.
Qed.

Lemma Dict_mem_set k k' v d :
  Dict.mem k d = true → Dict.mem k (Dict.set k' v d) = true.
Proof.
  unfold Dict.mem. destruct (decide (k = k')) as [->|Hne].
  - by rewrite Dict_get_set_eq.
  - by rewrite Dict_get_set_ne.
Qed.

End DictFacts.

(** ** Status and Cancel as functions of the state *)

Lemma Status_run (s : State) (job : str) (project : option str) :
  (∀ p, project = Some p → Dict.mem p (queues (root s)) = true) →
  Status_render_GET job project s
  = (Ok (currstate (job_state s project job)), s).
Proof.
  intros Hknown. unfold Status_render_GET, job_state, bind, gets. simpl.
  assert (match project with
          | Some p => negb (Dict.mem p (queues (root s)))
          | None => false
          end = false) as ->.
  { destruct project as [p|]; [|done]. by rewrite Hknown. }
  destruct (existsb (matches project job) (finished (root s))); [done|].
  destruct (existsb (matches project job) (processes (root s)).*2); [done|].
  by destruct (existsb _ _).
Qed.

Lemma Status_unknown_project (s : State) (job p : str) :
  Dict.mem p (queues (root s)) = false →
  Status_render_GET job (Some p) s
  = (Raise (Error OK ("project '" +:+ p +:+ "' not found")), s).
Proof.
  intros H. unfold Status_render_GET, bind, gets. simpl. by rewrite H.
Qed.

(** The state a Cancel leaves, and what it reports. *)
Lemma Cancel_run (P : Platform) (s : State) (project job signal : str)
    (q : list Message) :
  Dict.get project (queues (root s)) = Some q →
  NoDup (processes (root s)).*1 →
  let hit :=
    filter (fun x => matches (Some project) job x = true)
      (processes (root s)).*2 in
  Cancel_render_POST P project job signal s
  = (Ok (DJson (JDict
       [("prevstate",
         json_of_state
           (if existsb (matches (Some project) job) (processes (root s)).*2
            then Some "running"
            else if (0 <? List.length
                            (filter (fun m => String.eqb (m_job m) job = true)
                               q))%nat
            then Some "pending" else None))])),
     with_root (fun r =>
       set_processes
         (filter (fun kx => matches (Some project) job kx.2 ≠ true)
            (processes (root s)))
         (set_finished (finished r ++ stamp P (clock_reads r) hit)
            (set_signalled
               (signalled r ++ map (fun x => (Process.pid x, signal)) hit)
               (set_clock_reads (clock_reads r + List.length hit) r))))
       (with_root (set_queues
          (Dict.set project
             (filter (fun m => String.eqb (m_job m) job ≠ true) q)
             (queues (root s)))) s)).
Proof.
  intros Hq Hnd hit.
  unfold Cancel_render_POST. unfold bind at 1. unfold gets. rewrite Hq.
  unfold queue_remove. unfold bind at 1. unfold modify.
  unfold bind at 1. unfold gets.
  unfold bind at 1.
  by rewrite (Cancel_loop_spec P project job signal _ []).
Qed.

(** ** Job control: how Schedule, Cancel and Status compose *)

Lemma same_but_cache_fields r r' :
  same_but_cache r r' →
  queues r' = queues r ∧ processes r' = processes r
  ∧ finished r' = finished r ∧ eggstorage r' = eggstorage r.
Proof. intros ->. done. Qed.

Lemma NoDup_filter_fst {K V} (Q : K * V → Prop) `{∀ x, Decision (Q x)}
    (d : list (K * V)) :
  NoDup d.*1 → NoDup (filter Q d).*1.
Proof.
  induction d as [|[k0 v] d IH]; [done|].
  rewrite fmap_cons. intros [Hk0 Hnd]%NoDup_cons. rewrite filter_cons.
  destruct (decide (Q (k0, v))); [|by apply IH].
  rewrite fmap_cons. apply NoDup_cons. split; [|by apply IH].
  intros Hin. apply Hk0. apply list_elem_of_fmap in Hin as ([k' v'] & -> & Hin).
  apply list_elem_of_filter in Hin as [_ Hin].
  apply list_elem_of_fmap. by exists (k', v').
Qed.

Lemma filter_snd_none {A B} (f : B → bool) (l : list (A * B)) :
  existsb f l.*2 = false →
  filter (fun kx => f kx.2 ≠ true) l = l
  ∧ filter (fun x => f x = true) l.*2 = [].
Proof.
  induction l as [|[k x] l IH]; [done|].
  rewrite fmap_cons. cbn [existsb snd]. intros [Hx Hl]%orb_false_iff.
  destruct (IH Hl) as [IH1 IH2].
  rewrite !filter_cons. cbn [snd]. rewrite Hx.
  rewrite decide_True by done. rewrite decide_False by done.
  by rewrite IH1, IH2.
Qed.

Lemma existsb_filter_out {A B} (f : B → bool) (l : list (A * B)) :
  existsb f (filter (fun kx => f kx.2 ≠ true) l).*2 = false.
Proof.
  induction l as [|[k x] l IH]; [done|].
  rewrite filter_cons. cbn [snd].
  destruct (decide (f x ≠ true)) as [Hx|Hx]; [|done].
  rewrite fmap_cons. cbn [existsb snd]. rewrite IH.
  by destruct (f x).
Qed.

Lemma existsb_filter_in {A} (f : A → bool) (l : list A) :
  existsb f (filter (fun x => f x = true) l) = existsb f l.
Proof.
  induction l as [|x l IH]; [done|].
  rewrite filter_cons. cbn [existsb].
  destruct (decide (f x = true)) as [Hx|Hx].
  - cbn [existsb]. by rewrite Hx.
  - rewrite IH. by destruct (f x).
Qed.

Lemma existsb_stamp (P : Platform) project job n xs :
  existsb (matches project job) (stamp P n xs)
  = existsb (matches project job) xs.
Proof.
  revert n. induction xs as [|x xs IH]; intros n; [done|].
  cbn [stamp existsb]. rewrite IH. by destruct x.
Qed.

Lemma length_stamp (P : Platform) n xs :
  List.length (stamp P n xs) = List.length xs.
Proof.
  revert n. induction xs as [|x xs IH]; intros n; [done|].
  cbn [stamp List.length]. by rewrite IH.
Qed.

Lemma filter_out_in (job : str) (q : list Message) :
  filter (fun m => String.eqb (m_job m) job = true)
    (filter (fun m => String.eqb (m_job m) job ≠ true) q) = [].
Proof.
  induction q as [|m q IH]; [done|].
  rewrite filter_cons. destruct (decide (_ ≠ true)) as [Hm|Hm]; [|done].
  rewrite filter_cons. by rewrite decide_False.
Qed.

Lemma filter_out_out (job : str) (q : list Message) :
  filter (fun m => String.eqb (m_job m) job ≠ true)
    (filter (fun m => String.eqb (m_job m) job ≠ true) q)
  = filter (fun m => String.eqb (m_job m) job ≠ true) q.
Proof.
  induction q as [|m q IH]; [done|].
  rewrite filter_cons. destruct (decide (_ ≠ true)) as [Hm|Hm]; [|done].
  rewrite filter_cons. rewrite decide_True by done. by rewrite IH.
Qed.

Lemma existsb_filter_job (job : str) (q : list Message) :
  existsb (fun m => String.eqb (m_job m) job)
    (filter (fun m => String.eqb (m_job m) job ≠ true) q) = false.
Proof.
  induction q as [|m q IH]; [done|].
  rewrite filter_cons. destruct (decide (_ ≠ true)) as [Hm|Hm]; [|done].
  cbn [existsb]. rewrite IH. by destruct (String.eqb _ _).
Qed.

Lemma with_root_queues_id (s : State) :
  with_root (set_queues (queues (root s))) s = s.
Proof. by destruct s as [[] ?]. Qed.

(** A Cancel that finds no process of the job only rewrites the queue. *)
Lemma Cancel_quiet (P : Platform) (s : State) (project job signal : str)
    (q : list Message) :
  Dict.get project (queues (root s)) = Some q →
  NoDup (processes (root s)).*1 →
  existsb (matches (Some project) job) (processes (root s)).*2 = false →
  Cancel_render_POST P project job signal s
  = (Ok (DJson (JDict
       [("prevstate",
         json_of_state
           (if (0 <? List.length
                       (filter (fun m => String.eqb (m_job m) job = true) q))%nat
            then Some "pending" else None))])),
     with_root (set_queues
       (Dict.set project
          (filter (fun m => String.eqb (m_job m) job ≠ true) q)
          (queues (root s)))) s).
Proof.
  intros Hq Hnd Hex.
  pose proof (Cancel_run P s project job signal q Hq Hnd) as Hrun.
  cbv zeta in Hrun. rewrite Hrun, Hex. f_equal.
  destruct (filter_snd_none _ _ Hex) as [Hkeep Hhit].
  destruct s as [r t]. destruct r. cbn [root] in *.
  cbv [with_root set_queues set_processes set_finished set_signalled
       set_clock_reads root tx queues processes finished signalled
       clock_reads eggstorage cache debug node_name runner uuid_reads files]
    in *.
  rewrite Hhit, Hkeep. cbn [stamp map List.length].
  by rewrite !app_nil_r, Nat.add_0_r.
Qed.

Lemma filter_job_absent (job : str) (q : list Message) :
  (∀ m, m ∈ q → m_job m ≠ job) →
  filter (fun m => String.eqb (m_job m) job ≠ true) q = q
  ∧ filter (fun m => String.eqb (m_job m) job = true) q = [].
Proof.
  induction q as [|m q IH]; [done|]. intros Hq.
  destruct IH as [IH1 IH2].
  { intros m' Hm'. apply Hq. by right. }
  assert (String.eqb (m_job m) job = false) as Hm.
  { apply String.eqb_neq. apply Hq. by left. }
  rewrite !filter_cons, Hm.
  rewrite decide_True by done. rewrite decide_False by done.
  by rewrite IH1, IH2.
Qed.

(** The ways a Schedule can end: with an error and nothing enqueued, or with
  one message at the back of the project's queue; the spider-list cache may
  have grown on the way. *)
Lemma Schedule_cases (P : Platform) (project spider : str)
    (version : option str) (jobid : str) (priority : Value)
    (setting : list str) (s : State) (r : Res Data) (s' : State) :
  Schedule_render_POST P project spider version jobid priority setting s
  = (r, s') →
  ∃ s1, tx s1 = tx s ∧ same_but_cache (root s) (root s1)
    ∧ ((∃ e, r = Raise e ∧ s' = s1)
       ∨ (∃ q spiders message,
            Dict.get project (queues (root s)) = Some q
            ∧ SpiderList_get P project version (runner (root s)) s
              = (Ok spiders, s1)
            ∧ spider ∈ spiders
            ∧ m_name message = spider ∧ m_job message = jobid
            ∧ r = Ok (DJson (JDict [("jobid", JString jobid)]))
            ∧ s' = with_root (set_queues
                     (Dict.set project (q ++ [message]) (queues (root s))))
                     s1)).
Proof.
  intros Hrun.
  destruct (Dict.get project (queues (root s))) as [q|] eqn:Hq.
  2:{ rewrite Schedule_unknown_project in Hrun.
      - injection Hrun as <- <-. exists s.
        split; [done|]. split; [apply same_but_cache_refl|]. left. eauto.
      - unfold Dict.mem. by rewrite Hq. }
  assert (version_missing (root s) project version
          ∨ ¬ version_missing (root s) project version)
    as [(v & Hv & Hne & Hegg)|Hver].
  { unfold version_missing. destruct version as [v|].
    2:{ right. by intros (v & ? & _). }
    destruct (decide (v = "")) as [->|Hne].
    { right. by intros (v' & [= <-] & ? & _). }
    destruct (eggstorage_get (eggstorage (root s)) project v) eqn:Hegg.
    - right. intros (v' & [= <-] & _ & ?). congruence.
    - left. eauto. }
  { rewrite (Schedule_unknown_version P project spider version jobid priority
               setting s v) in Hrun; try done.
    - injection Hrun as <- <-. exists s.
      split; [done|]. split; [apply same_but_cache_refl|]. left. eauto.
    - apply Dict_mem_get. eauto. }
  destruct (SpiderList_get P project version (runner (root s)) s)
    as [res s1] eqn:Hget.
  destruct (SpiderList_get_frame P _ _ _ _ _ _ Hget) as [Htx Hsame].
  rewrite (Schedule_after_checks P project spider version jobid priority
             setting s q res s1 Hq Hver Hget) in Hrun.
  exists s1. split; [done|]. split; [done|].
  destruct res as [spiders|e].
  2:{ injection Hrun as <- <-. left. eauto. }
  destruct (bool_decide (spider ∈ spiders)) eqn:Hin.
  2:{ injection Hrun as <- <-. left. eauto. }
  apply bool_decide_eq_true in Hin.
  destruct (decode_items P (args (tx s)) [] s1).1 as [extra|e].
  2:{ injection Hrun as <- <-. left. eauto. }
  destruct (settings_dict setting 0 [] s1).1 as [settings|e].
  2:{ injection Hrun as <- <-. left. eauto. }
  destruct (keyword_clash (add_version version extra)).
  { injection Hrun as <- <-. left. eauto. }
  injection Hrun as <- <-. right.
  by exists q, spiders,
    (scheduled spider jobid priority settings (add_version version extra)).
Qed.

(** X4. Cancelling the same job again is a no-op: after a Cancel of a job in
  a project that has a queue, a second Cancel of that job, with any signal,
  reports [prevstate] null and leaves the whole state as the first one left
  it: nothing is signalled twice and no finished record is added. *)
Theorem Cancel_twice (P : Platform) (s : State)
    (project job signal signal' : str) (r : Res Data) (s1 : State) :
  Dict.mem project (queues (root s)) = true →
  NoDup (processes (root s)).*1 →
  Cancel_render_POST P project job signal s = (r, s1) →
  Cancel_render_POST P project job signal' s1
  = (Ok (DJson (JDict [("prevstate", JNull)])), s1).
Proof.
  intros [q Hq]%Dict_mem_get Hnd Hfirst.
  pose proof (Cancel_run P s project job signal q Hq Hnd) as Hrun.
  cbv zeta in Hrun. rewrite Hrun in Hfirst. injection Hfirst as _ <-.
  match goal with |- Cancel_render_POST _ _ _ _ ?st = _ => set (s1 := st) end.
  assert (queues (root s1)
          = Dict.set project
              (filter (fun m => String.eqb (m_job m) job ≠ true) q)
              (queues (root s))) as Hqs by done.
  assert (processes (root s1)
          = filter (fun kx => matches (Some project) job kx.2 ≠ true)
              (processes (root s))) as Hps by done.
  rewrite (Cancel_quiet P s1 project job signal'
             (filter (fun m => String.eqb (m_job m) job ≠ true) q)).
  - rewrite filter_out_in, filter_out_out. cbn [List.length Nat.ltb Nat.leb].
    f_equal. rewrite Dict_set_id.
    + apply with_root_queues_id.
    + rewrite Hqs. apply Dict_get_set_eq.
  - rewrite Hqs. apply Dict_get_set_eq.
  - rewrite Hps. by apply NoDup_filter_fst.
  - rewrite Hps. apply existsb_filter_out.
Qed.

Lemma Cancel_twice_witness :
  Cancel_render_POST (Demo.platform 0 "") "p" "j1" "TERM"
    (Cancel_render_POST (Demo.platform 0 "") "p" "j1" "INT"
       Demo.pending_and_running).2
  = (Ok (DJson (JDict [("prevstate", JNull)])),
     (Cancel_render_POST (Demo.platform 0 "") "p" "j1" "INT"
        Demo.pending_and_running).2).
Proof.
  apply (Cancel_twice (Demo.platform 0 "") Demo.pending_and_running
           "p" "j1" "INT" "TERM"
           (Ok (DJson (JDict [("prevstate", JString "running")])))).
  - reflexivity.
  - apply (bool_decide_unpack _). vm_compute. reflexivity.
  - apply pair_eta_fst. vm_compute. reflexivity.
Defined.

(** X5. After a Cancel, Status never reports the job of that project as
  pending or running: its answer is the object [{"currstate": ...}] with the
  string "finished" exactly when the job was among the finished records or
  the running processes before the Cancel, and with null otherwise. *)
Theorem Cancel_then_Status (P : Platform) (s : State)
    (project job signal : str) (r : Res Data) (s1 : State) :
  Dict.mem project (queues (root s)) = true →
  NoDup (processes (root s)).*1 →
  Cancel_render_POST P project job signal s = (r, s1) →
  ∃ reply : Json,
    Status_render_GET job (Some project) s1
    = (Ok (DJson (JDict [("currstate", reply)])), s1)
    ∧ (reply = JString "finished" ∨ reply = JNull)
    ∧ (reply = JString "finished"
       ↔ is_finished s (Some project) job ∨ is_running s (Some project) job).
Proof.
  intros [q Hq]%Dict_mem_get Hnd Hfirst.
  pose proof (Cancel_run P s project job signal q Hq Hnd) as Hrun.
  cbv zeta in Hrun. rewrite Hrun in Hfirst. injection Hfirst as _ <-.
  match goal with |- context [Status_render_GET _ _ ?st] => set (s1 := st) end.
  assert (queues (root s1)
          = Dict.set project
              (filter (fun m => String.eqb (m_job m) job ≠ true) q)
              (queues (root s))) as Hqs by done.
  assert (processes (root s1)
          = filter (fun kx => matches (Some project) job kx.2 ≠ true)
              (processes (root s))) as Hps by done.
  assert (finished (root s1)
          = finished (root s)
            ++ stamp P (clock_reads (root s))
                 (filter (fun x => matches (Some project) job x = true)
                    (processes (root s)).*2)) as Hfin by done.
  rewrite Status_run.
  2:{ intros p [= <-]. rewrite Hqs. apply Dict_mem_get.
      eexists. apply Dict_get_set_eq. }
  unfold job_state. rewrite Hfin, Hps, Hqs.
  rewrite existsb_app, existsb_stamp, existsb_filter_in, existsb_filter_out.
  cbn [existsb]. rewrite Dict_get_set_eq. cbn [from_option id].
  rewrite existsb_filter_job. cbn [orb].
  pose proof (existsb_finished s (Some project) job) as Hf.
  pose proof (existsb_running s (Some project) job) as Hr.
  destruct (existsb (matches (Some project) job) (finished (root s)));
    destruct (existsb (matches (Some project) job) (processes (root s)).*2);
    cbn [orb];
    [exists (JString "finished") | exists (JString "finished")
     | exists (JString "finished") | exists JNull];
    (split; [reflexivity|]); split;
    try (by left); try (by right); intuition congruence.
Qed.

Lemma Cancel_then_Status_witness :
  ∃ reply : Json,
    Status_render_GET "j1" (Some "p")
      (Cancel_render_POST (Demo.platform 0 "") "p" "j1" "INT"
         Demo.pending_and_running).2
    = (Ok (DJson (JDict [("currstate", reply)])),
       (Cancel_render_POST (Demo.platform 0 "") "p" "j1" "INT"
          Demo.pending_and_running).2)
    ∧ (reply = JString "finished" ∨ reply = JNull)
    ∧ (reply = JString "finished"
       ↔ is_finished Demo.pending_and_running (Some "p") "j1"
         ∨ is_running Demo.pending_and_running (Some "p") "j1").
Proof.
  apply (Cancel_then_Status (Demo.platform 0 "") Demo.pending_and_running
           "p" "j1" "INT"
           (Ok (DJson (JDict [("prevstate", JString "running")])))).
  - reflexivity.
  - apply (bool_decide_unpack _). vm_compute. reflexivity.
  - apply pair_eta_fst. vm_compute. reflexivity.
Defined.

(** X6. A job that Schedule has accepted is known to Status at once, asked
  with the project or without one: the answer is the object
  [{"currstate": ...}] with a string, never null.  The string is "pending"
  unless a job of that id was already finished or running, which Status
  then reports instead, by its order of precedence. *)
Theorem Schedule_then_Status (P : Platform) (project spider : str)
    (version : option str) (jobid : str) (priority : Value)
    (setting : list str) (filter : option str) (s : State) (data : Data)
    (s' : State) :
  Schedule_render_POST P project spider version jobid priority setting s
  = (Ok data, s') →
  (∀ p, filter = Some p → p = project) →
  ∃ st : str,
    Status_render_GET jobid filter s'
    = (Ok (DJson (JDict [("currstate", JString st)])), s')
    ∧ (st = "finished" ↔ is_finished s filter jobid)
    ∧ (st = "running"
       ↔ ¬ is_finished s filter jobid ∧ is_running s filter jobid)
    ∧ (st = "pending"
       ↔ ¬ is_finished s filter jobid ∧ ¬ is_running s filter jobid).
Proof.
  intros Hrun Hfilter.
  destruct (Schedule_cases _ _ _ _ _ _ _ _ _ _ Hrun)
    as (s1 & Htx & Hsame & [(e & ? & _)|Hok]); [done|].
  destruct Hok as (q & spiders & message & Hq & _ & _ & _ & Hjob & _ & ->).
  destruct (same_but_cache_fields _ _ Hsame) as (Hqs & Hps & Hfin & _).
  match goal with |- context [Status_render_GET _ _ ?st] => set (s' := st) end.
  assert (queues (root s')
          = Dict.set project (q ++ [message]) (queues (root s))) as Hqs'
    by done.
  assert (processes (root s') = processes (root s)) as Hps' by done.
  assert (finished (root s') = finished (root s)) as Hfin' by done.
  assert (∀ p, filter = Some p → Dict.mem p (queues (root s')) = true)
    as Hknown.
  { intros p ->%Hfilter. rewrite Hqs'. apply Dict_mem_get.
    eexists. apply Dict_get_set_eq. }
  rewrite Status_run by done.
  assert (is_pending s' filter jobid) as Hpending.
  { exists project, (q ++ [message]), message.
    rewrite Hqs', Dict_get_set_eq. split; [done|].
    split; [by intros p ->%Hfilter|]. split; [|done].
    apply elem_of_app. right. by left. }
  apply (existsb_pending s' filter jobid Hknown) in Hpending.
  unfold job_state. rewrite Hpending, Hfin', Hps'.
  pose proof (existsb_finished s filter jobid) as Hf.
  pose proof (existsb_running s filter jobid) as Hr.
  destruct (existsb (matches filter jobid) (finished (root s)));
    destruct (existsb (matches filter jobid) (processes (root s)).*2);
    [exists "finished" | exists "finished" | exists "running"
     | exists "pending"];
    (split; [reflexivity|]); intuition congruence.
Qed.

Lemma Schedule_then_Status_witness :
  ∃ st : str,
    Status_render_GET "job9" None
      (Schedule_render_POST (Demo.platform 0 "") "p" "old" None "job9"
         (VInt 0) [] Demo.cached).2
    = (Ok (DJson (JDict [("currstate", JString st)])),
       (Schedule_render_POST (Demo.platform 0 "") "p" "old" None "job9"
          (VInt 0) [] Demo.cached).2)
    ∧ (st = "finished" ↔ is_finished Demo.cached None "job9")
    ∧ (st = "running"
       ↔ ¬ is_finished Demo.cached None "job9"
         ∧ is_running Demo.cached None "job9")
    ∧ (st = "pending"
       ↔ ¬ is_finished Demo.cached None "job9"
         ∧ ¬ is_running Demo.cached None "job9").
Proof.
  apply (Schedule_then_Status (Demo.platform 0 "") "p" "old" None "job9"
           (VInt 0) [] None Demo.cached
           (DJson (JDict [("jobid", JString "job9")]))).
  - apply pair_eta_fst. vm_compute. reflexivity.
  - intros p Hp. discriminate Hp.
Defined.

(** X7. Cancel undoes Schedule.  When no job of the id was pending or
  running in the project, cancelling a job that Schedule has just accepted
  reports [prevstate] "pending" and restores the queues, the processes, the
  finished records and the request as they were before the Schedule; only
  the spider-list cache may keep what the Schedule looked up. *)
Theorem Schedule_then_Cancel (P : Platform) (project spider : str)
    (version : option str) (jobid : str) (priority : Value)
    (setting : list str) (signal : str) (s : State) (data : Data)
    (s' : State) :
  Schedule_render_POST P project spider version jobid priority setting s
  = (Ok data, s') →
  NoDup (processes (root s)).*1 →
  ¬ is_running s (Some project) jobid →
  ¬ is_pending s (Some project) jobid →
  ∃ s1, Cancel_render_POST P project jobid signal s'
        = (Ok (DJson (JDict [("prevstate", JString "pending")])), s1)
    ∧ tx s1 = tx s ∧ same_but_cache (root s) (root s1).
Proof.
  intros Hrun Hnd Hnr Hnp.
  destruct (Schedule_cases _ _ _ _ _ _ _ _ _ _ Hrun)
    as (s1 & Htx & Hsame & [(e & ? & _)|Hok]); [done|].
  destruct Hok as (q & spiders & message & Hq & _ & _ & _ & Hjob & _ & ->).
  destruct (same_but_cache_fields _ _ Hsame) as (Hqs & Hps & Hfin & _).
  exists s1. split; [|done].
  match goal with |- Cancel_render_POST _ _ _ _ ?st = _ => set (s' := st) end.
  assert (queues (root s')
          = Dict.set project (q ++ [message]) (queues (root s))) as Hqs'
    by done.
  assert (processes (root s') = processes (root s)) as Hps' by done.
  destruct (filter_job_absent jobid q) as [Hkeep Hdrop].
  { intros m Hm Hmj. apply Hnp. exists project, q, m.
    split; [done|]. split; [by intros p [= <-]|done]. }
  rewrite (Cancel_quiet P s' project jobid signal (q ++ [message])).
  - rewrite !filter_app, Hkeep, Hdrop, !filter_cons, !filter_nil.
    rewrite Hjob, String.eqb_refl.
    rewrite decide_True by done. rewrite decide_False by (intros H; by apply H).
    rewrite app_nil_r. cbn [app List.length Nat.ltb Nat.leb json_of_state].
    f_equal. rewrite Hqs', Dict_set_set, (Dict_set_id project q) by done.
    rewrite <- Hqs. subst s'. by destruct s1 as [[] ?].
  - rewrite Hqs'. apply Dict_get_set_eq.
  - by rewrite Hps'.
  - rewrite Hps'. apply not_true_is_false. intros H. apply Hnr.
    by apply existsb_running.
Qed.

Lemma Schedule_then_Cancel_witness :
  ∃ s1,
    Cancel_render_POST (Demo.platform 0 "") "p" "job9" "INT"
      (Schedule_render_POST (Demo.platform 0 "") "p" "old" None "job9"
         (VInt 0) [] Demo.cached).2
    = (Ok (DJson (JDict [("prevstate", JString "pending")])), s1)
    ∧ tx s1 = tx Demo.cached
    ∧ same_but_cache (root Demo.cached) (root s1).
Proof.
  apply (Schedule_then_Cancel (Demo.platform 0 "") "p" "old" None "job9"
           (VInt 0) [] "INT" Demo.cached
           (DJson (JDict [("jobid", JString "job9")]))).
  - apply pair_eta_fst. vm_compute. reflexivity.
  - apply NoDup_nil_2.
  - intros (key & x & Hin & _). by apply elem_of_nil in Hin.
  - intros (name & q & m & Hq & Hname & Hm & _).
    rewrite (Hname "p" eq_refl) in Hq. injection Hq as <-.
    by apply elem_of_nil in Hm.
Defined.

(** X8. A Schedule that fails, at whichever check, enqueues nothing: the
  queues, the processes, the finished records, the egg store and the
  request are as before; at most the spider-list cache has changed.  And
  whether it fails or not, Schedule never touches the processes, the
  finished records or the egg store. *)
Theorem Schedule_failure_enqueues_nothing (P : Platform)
    (project spider : str) (version : option str) (jobid : str)
    (priority : Value) (setting : list str) (s : State) (r : Res Data)
    (s' : State) :
  Schedule_render_POST P project spider version jobid priority setting s
  = (r, s') →
  tx s' = tx s
  ∧ processes (root s') = processes (root s)
  ∧ finished (root s') = finished (root s)
  ∧ eggstorage (root s') = eggstorage (root s)
  ∧ ∀ e, r = Raise e →
      queues (root s') = queues (root s)
      ∧ same_but_cache (root s) (root s').
Proof.
  intros Hrun.
  destruct (Schedule_cases _ _ _ _ _ _ _ _ _ _ Hrun)
    as (s1 & Htx & Hsame & [(e & -> & ->)|Hok]).
  - destruct (same_but_cache_fields _ _ Hsame) as (Hqs & Hps & Hfin & Hegg).
    do 4 (split; [done|]). by intros _ _.
  - destruct Hok as (q & spiders & message & _ & _ & _ & _ & _ & -> & ->).
    destruct (same_but_cache_fields _ _ Hsame) as (Hqs & Hps & Hfin & Hegg).
    do 4 (split; [done|]). by intros e.
Qed.

Lemma Schedule_failure_enqueues_nothing_witness :
  queues (root (Schedule_render_POST (Demo.platform 0 "") "p" "old" None
                  "job9" (VInt 0) ["LOG_LEVEL"] Demo.cached).2)
  = queues (root Demo.cached)
  ∧ same_but_cache (root Demo.cached)
      (root (Schedule_render_POST (Demo.platform 0 "") "p" "old" None
               "job9" (VInt 0) ["LOG_LEVEL"] Demo.cached).2).
Proof.
  destruct (Schedule_failure_enqueues_nothing (Demo.platform 0 "") "p" "old"
              None "job9" (VInt 0) ["LOG_LEVEL"] Demo.cached
              (Raise (Exception "ValueError"
                 "dictionary update sequence element #0 has length 1; 2 is required"))
              (Schedule_render_POST (Demo.platform 0 "") "p" "old" None
                 "job9" (VInt 0) ["LOG_LEVEL"] Demo.cached).2)
    as (_ & _ & _ & _ & H).
  - apply pair_eta_fst. vm_compute. reflexivity.
  - exact (H _ eq_refl).
Defined.

(** ** The counts of DaemonStatus and the lists of ListJobs *)

Lemma DaemonStatus_run (s : State) :
  DaemonStatus_render_GET s
  = (Ok (daemon_status (sum_list (List.length <$> (queues (root s)).*2))
           (List.length (processes (root s)))
           (List.length (finished (root s)))), s).
Proof. done. Qed.

Lemma daemon_status_inj p r f p' r' f' :
  daemon_status p r f = daemon_status p' r' f' → p = p' ∧ r = r' ∧ f = f'.
Proof.
  unfold daemon_status. intros [= Hp Hr Hf].
  by apply Nat2Z.inj in Hp, Hr, Hf.
Qed.

Lemma sum_lengths_set {V} (k : str) (v v' : list V)
    (d : list (str * list V)) :
  Dict.get k d = Some v →
  sum_list (List.length <$> (Dict.set k v' d).*2) + List.length v
  = sum_list (List.length <$> d.*2) + List.length v'.
Proof.
  induction d as [|[k0 v0] d IH]; [done|]. cbn [Dict.get Dict.set].
  destruct (decide (k = k0)) as [->|Hne].
  - intros [= ->]. rewrite !fmap_cons. cbn [snd sum_list sum_list_with id].
    lia.
  - intros H. specialize (IH H). rewrite !fmap_cons.
    cbn [snd sum_list sum_list_with id]. lia.
Qed.

Lemma length_filter_split {A} (f : A → bool) (l : list A) :
  List.length (filter (fun x => f x = true) l)
  + List.length (filter (fun x => f x ≠ true) l) = List.length l.
Proof.
  induction l as [|x l IH]; [done|]. rewrite !filter_cons.
  destruct (f x).
  - rewrite decide_True by done. rewrite decide_False by (intros H; by apply H).
    cbn [List.length]. lia.
  - rewrite decide_False by done. rewrite decide_True by done.
    cbn [List.length]. lia.
Qed.

Lemma length_filter_snd {A B} (f : B → bool) (l : list (A * B)) :
  List.length (filter (fun x => f x = true) l.*2)
  + List.length (filter (fun kx => f kx.2 ≠ true) l) = List.length l.
Proof.
  induction l as [|[k x] l IH]; [done|].
  rewrite fmap_cons, !filter_cons. cbn [snd].
  destruct (f x).
  - rewrite decide_True by done. rewrite decide_False by (intros H; by apply H).
    cbn [List.length]. lia.
  - rewrite decide_False by done. rewrite decide_True by done.
    cbn [List.length]. lia.
Qed.

Lemma existsb_length_filter {A} (f : A → bool) (l : list A) :
  existsb f l = (0 <? List.length (filter (fun x => f x = true) l))%nat.
Proof.
  induction l as [|x l IH]; [done|]. cbn [existsb]. rewrite filter_cons.
  destruct (f x); [by rewrite decide_True|].
  by rewrite decide_False.
Qed.

(** X9. Cancel loses no job: between the DaemonStatus before a Cancel and
  the one after it, the processes the Cancel stopped have moved from
  "running" to "finished" and the messages it removed have left "pending";
  [prevstate] is "running" when it stopped a process, else "pending" when it
  removed a message, else null. *)
Theorem Cancel_moves_jobs (P : Platform) (s : State)
    (project job signal : str) (res : Res Data) (s1 : State)
    (np nr nf : nat) :
  Dict.mem project (queues (root s)) = true →
  NoDup (processes (root s)).*1 →
  DaemonStatus_render_GET s
  = (Ok (DJson (JDict [("pending", JInt (Z.of_nat np));
                       ("running", JInt (Z.of_nat nr));
                       ("finished", JInt (Z.of_nat nf))])), s) →
  Cancel_render_POST P project job signal s = (res, s1) →
  ∃ removed stopped,
    (removed ≤ np)%nat ∧ (stopped ≤ nr)%nat
    ∧ DaemonStatus_render_GET s1
      = (Ok (DJson (JDict
           [("pending", JInt (Z.of_nat (np - removed)));
            ("running", JInt (Z.of_nat (nr - stopped)));
            ("finished", JInt (Z.of_nat (nf + stopped)))])), s1)
    ∧ res = Ok (DJson (JDict
        [("prevstate",
          if (0 <? stopped)%nat then JString "running"
          else if (0 <? removed)%nat then JString "pending"
          else JNull)])).
Proof.
  intros [q Hq]%Dict_mem_get Hnd Hbefore Hcancel.
  change (DaemonStatus_render_GET s = (Ok (daemon_status np nr nf), s))
    in Hbefore.
  rewrite DaemonStatus_run in Hbefore.
  assert (daemon_status (sum_list (List.length <$> (queues (root s)).*2))
            (List.length (processes (root s)))
            (List.length (finished (root s)))
          = daemon_status np nr nf) as Hinj by congruence.
  apply daemon_status_inj in Hinj as (<- & <- & <-). clear Hbefore.
  pose proof (Cancel_run P s project job signal q Hq Hnd) as Hrun.
  cbv zeta in Hrun. rewrite Hrun in Hcancel. injection Hcancel as <- <-.
  exists (List.length (filter (fun m => String.eqb (m_job m) job = true) q)),
    (List.length (filter (fun x => matches (Some project) job x = true)
                    (processes (root s)).*2)).
  pose proof (sum_lengths_set project q
                (filter (fun m => String.eqb (m_job m) job ≠ true) q)
                (queues (root s)) Hq) as Hsum.
  pose proof (length_filter_split (fun m => String.eqb (m_job m) job) q)
    as Hsplit.
  pose proof (length_filter_snd (matches (Some project) job)
                (processes (root s))) as Hprocs.
  cbv beta in Hsplit.
  split; [lia|]. split; [lia|]. split.
  2:{ rewrite existsb_length_filter. by repeat case_match. }
  match goal with |- DaemonStatus_render_GET ?st = _ => set (s1 := st) end.
  assert (queues (root s1)
          = Dict.set project
              (filter (fun m => String.eqb (m_job m) job ≠ true) q)
              (queues (root s))) as Hqs by done.
  assert (processes (root s1)
          = filter (fun kx => matches (Some project) job kx.2 ≠ true)
              (processes (root s))) as Hps by done.
  assert (finished (root s1)
          = finished (root s)
            ++ stamp P (clock_reads (root s))
                 (filter (fun x => matches (Some project) job x = true)
                    (processes (root s)).*2)) as Hfin by done.
  rewrite DaemonStatus_run, Hqs, Hps, Hfin, length_app, length_stamp.
  unfold daemon_status. repeat f_equal; lia.
Qed.

Lemma Cancel_moves_jobs_witness :
  ∃ removed stopped,
    (removed ≤ 2)%nat ∧ (stopped ≤ 2)%nat
    ∧ DaemonStatus_render_GET
        (Cancel_render_POST (Demo.platform 0 "") "p" "j1" "INT"
           Demo.pending_and_running).2
      = (Ok (DJson (JDict
           [("pending", JInt (Z.of_nat (2 - removed)));
            ("running", JInt (Z.of_nat (2 - stopped)));
            ("finished", JInt (Z.of_nat (0 + stopped)))])),
         (Cancel_render_POST (Demo.platform 0 "") "p" "j1" "INT"
            Demo.pending_and_running).2)
    ∧ Ok (DJson (JDict [("prevstate", JString "running")]))
      = Ok (DJson (JDict
          [("prevstate",
            if (0 <? stopped)%nat then JString "running"
            else if (0 <? removed)%nat then JString "pending"
            else JNull)])).
Proof.
  apply (Cancel_moves_jobs (Demo.platform 0 "") Demo.pending_and_running
           "p" "j1" "INT").
  - reflexivity.
  - apply (bool_decide_unpack _). vm_compute. reflexivity.
  - reflexivity.
  - apply pair_eta_fst. vm_compute. reflexivity.
Defined.

(** X10. Schedule adds exactly one pending job, or none: the DaemonStatus
  after a Schedule that succeeded counts one more pending job than the one
  before it, after a Schedule that failed the same number; running and
  finished are the same in both cases. *)
Theorem Schedule_adds_one_pending (P : Platform) (project spider : str)
    (version : option str) (jobid : str) (priority : Value)
    (setting : list str) (s : State) (r : Res Data) (s' : State)
    (np nr nf : nat) :
  DaemonStatus_render_GET s
  = (Ok (DJson (JDict [("pending", JInt (Z.of_nat np));
                       ("running", JInt (Z.of_nat nr));
                       ("finished", JInt (Z.of_nat nf))])), s) →
  Schedule_render_POST P project spider version jobid priority setting s
  = (r, s') →
  DaemonStatus_render_GET s'
  = (Ok (DJson (JDict
       [("pending",
         JInt (Z.of_nat match r with Ok _ => S np | Raise _ => np end));
        ("running", JInt (Z.of_nat nr));
        ("finished", JInt (Z.of_nat nf))])), s').
Proof.
  intros Hbefore Hrun.
  change (DaemonStatus_render_GET s = (Ok (daemon_status np nr nf), s))
    in Hbefore.
  rewrite DaemonStatus_run in Hbefore.
  assert (daemon_status (sum_list (List.length <$> (queues (root s)).*2))
            (List.length (processes (root s)))
            (List.length (finished (root s)))
          = daemon_status np nr nf) as Hinj by congruence.
  apply daemon_status_inj in Hinj as (<- & <- & <-). clear Hbefore.
  destruct (Schedule_cases _ _ _ _ _ _ _ _ _ _ Hrun)
    as (s1 & Htx & Hsame & [(e & -> & ->)|Hok]).
  - destruct (same_but_cache_fields _ _ Hsame) as (Hqs & Hps & Hfin & _).
    by rewrite DaemonStatus_run, Hqs, Hps, Hfin.
  - destruct Hok as (q & spiders & message & Hq & _ & _ & _ & _ & -> & ->).
    destruct (same_but_cache_fields _ _ Hsame) as (Hqs & Hps & Hfin & _).
    match goal with |- DaemonStatus_render_GET ?st = _ => set (s' := st) end.
    assert (queues (root s')
            = Dict.set project (q ++ [message]) (queues (root s))) as Hqs'
      by done.
    assert (processes (root s') = processes (root s)) as Hps' by done.
    assert (finished (root s') = finished (root s)) as Hfin' by done.
    pose proof (sum_lengths_set project q (q ++ [message])
                  (queues (root s)) Hq) as Hsum.
    rewrite length_app in Hsum. cbn [List.length] in Hsum.
    rewrite DaemonStatus_run, Hqs', Hps', Hfin'.
    unfold daemon_status. repeat f_equal; lia.
Qed.

Lemma Schedule_adds_one_pending_witness :
  DaemonStatus_render_GET
    (Schedule_render_POST (Demo.platform 0 "") "p" "old" None "job9"
       (VInt 0) [] Demo.cached).2
  = (Ok (DJson (JDict [("pending", JInt 1); ("running", JInt 0);
                       ("finished", JInt 0)])),
     (Schedule_render_POST (Demo.platform 0 "") "p" "old" None "job9"
        (VInt 0) [] Demo.cached).2).
Proof.
  apply (Schedule_adds_one_pending (Demo.platform 0 "") "p" "old" None "job9"
           (VInt 0) [] Demo.cached
           (Ok (DJson (JDict [("jobid", JString "job9")]))) _ 0 0 0).
  - reflexivity.
  - apply pair_eta_fst. vm_compute. reflexivity.
Defined.

Section ListingFacts.
Variable L : Listing.

Lemma ListJobs_run (s : State) (project : option str) :
  (∀ p, project = Some p → Dict.mem p (queues (root s)) = true) →
  ListJobs_render_GET L project s
  = (Ok (jobs
           (flat_map (fun queue_name =>
                        map (pending_entry queue_name)
                          (from_option id []
                             (Dict.get queue_name (queues (root s)))))
              match project with
              | None => Dict.keys (queues (root s))
              | Some p => [p]
              end)
           (map (running_entry L)
              (filter (fun x => selects project x = true)
                 (processes (root s)).*2))
           (map (finished_entry L)
              (filter (fun x => selects project x = true)
                 (finished (root s))))), s).
Proof.
  intros Hknown. unfold ListJobs_render_GET, bind, gets. simpl.
  assert (match project with
          | Some p => negb (Dict.mem p (queues (root s)))
          | None => false
          end = false) as ->; [|done].
  destruct project as [p|]; [|done]. by rewrite Hknown.
Qed.

Lemma ids_app (l1 l2 : list Json) : ids (l1 ++ l2) = ids l1 ++ ids l2.
Proof. apply omap_app. Qed.

Lemma ids_pending (queue_name : str) (q : list Message) :
  ids (map (pending_entry queue_name) q) = map m_job q.
Proof. induction q as [|m q IH]; [done|]. cbn [map]. by rewrite <- IH. Qed.

Lemma ids_processes (entry : Process → Json) (l : list Process) :
  (∀ x, id_of (entry x) = Some (Process.job x)) →
  ids (map entry l) = map Process.job l.
Proof.
  intros Hid. induction l as [|x l IH]; [done|].
  cbn [map]. unfold ids in *. cbn [omap list_omap]. by rewrite Hid, IH.
Qed.

Lemma pending_ids (job : str) (queue : str → list Message)
    (names : list str) :
  existsb (fun queue_name =>
             existsb (fun m => String.eqb (m_job m) job) (queue queue_name))
    names = true
  ↔ job ∈ ids (flat_map (fun queue_name =>
                           map (pending_entry queue_name) (queue queue_name))
                 names).
Proof.
  induction names as [|n names IH].
  - split; [done|]. by intros ?%elem_of_nil.
  - cbn [existsb flat_map]. rewrite ids_app, ids_pending, elem_of_app, <- IH.
    rewrite orb_true_iff. apply or_iff_compat_r.
    induction (queue n) as [|m q IHq].
    + split; [done|]. by intros ?%elem_of_nil.
    + cbn [existsb map]. rewrite orb_true_iff, elem_of_cons, IHq.
      apply or_iff_compat_r. rewrite String.eqb_eq. split; by intros ->.
Qed.

Lemma processes_ids (entry : Process → Json) (project : option str)
    (job : str) (l : list Process) :
  (∀ x, id_of (entry x) = Some (Process.job x)) →
  existsb (matches project job) l = true
  ↔ job ∈ ids (map entry (filter (fun x => selects project x = true) l)).
Proof.
  intros Hid. rewrite ids_processes by done.
  induction l as [|x l IH].
  - split; [done|]. by intros ?%elem_of_nil.
  - cbn [existsb]. rewrite filter_cons, orb_true_iff, IH.
    unfold matches at 1. fold (selects project x).
    destruct (selects project x).
    + rewrite decide_True by done. cbn [map andb].
      rewrite elem_of_cons, String.eqb_eq.
      apply or_iff_compat_r. split; by intros ->.
    + rewrite decide_False by done. cbn [andb]. split; [|by right].
      by intros [?|?].
Qed.

Lemma existsb_bool_decide {A} (f : A → bool) (l : list A) (Q : Prop)
    `{Decision Q} :
  (existsb f l = true ↔ Q) → existsb f l = bool_decide Q.
Proof.
  intros HQ. destruct (existsb f l).
  - symmetry. apply bool_decide_eq_true. by apply HQ.
  - symmetry. apply bool_decide_eq_false. intros HQ'. by apply HQ in HQ'.
Qed.

Lemma filter_selects_None {A} (f : A → Process) (l : list A) :
  filter (fun x => selects None (f x) = true) l = l.
Proof.
  induction l as [|x l IH]; [done|].
  rewrite filter_cons, decide_True by done. by rewrite IH.
Qed.

Lemma length_flat_map_queues {V C} (g : str → V → C)
    (d : list (str * list V)) :
  NoDup d.*1 →
  List.length
    (flat_map (fun k => map (g k) (from_option id [] (Dict.get k d))) d.*1)
  = sum_list (List.length <$> d.*2).
Proof.
  intros Hnd.
  assert (∀ names, names ⊆ d.*1 → NoDup names →
            List.length
              (flat_map (fun k => map (g k) (from_option id [] (Dict.get k d)))
                 names)
            = sum_list
                ((fun k => List.length (from_option id [] (Dict.get k d)))
                 <$> names)) as Hlen.
  { induction names as [|k names IH]; [done|]. intros Hsub Hn.
    cbn [flat_map]. rewrite fmap_cons, length_app, length_map.
    cbn [sum_list sum_list_with id]. rewrite IH; [done| |].
    - intros x Hx. apply Hsub. by right.
    - by apply NoDup_cons in Hn as [_ ?]. }
  rewrite Hlen by done. clear Hlen. f_equal.
  induction d as [|[k v] d IH]; [done|].
  rewrite !fmap_cons. cbn [fst snd Dict.get].
  rewrite decide_True by done. cbn [from_option id]. f_equal.
  rewrite fmap_cons in Hnd. apply NoDup_cons in Hnd as [Hk Hnd].
  rewrite <- IH by done. apply list_fmap_ext. intros i k' Hk'.
  rewrite decide_False; [done|]. intros ->. apply Hk.
  by apply list_elem_of_lookup_2 in Hk'.
Qed.

End ListingFacts.

(** X11. DaemonStatus counts what ListJobs lists: the three numbers of
  DaemonStatus are the lengths of the three lists that ListJobs returns
  when it is asked without a project. *)
Theorem DaemonStatus_counts_ListJobs (L : Listing) (s : State) :
  NoDup (Dict.keys (queues (root s))) →
  ∃ pending running finished : list Json,
    ListJobs_render_GET L None s
    = (Ok (DJson (JDict [("pending", JList pending);
                         ("running", JList running);
                         ("finished", JList finished)])), s)
    ∧ DaemonStatus_render_GET s
      = (Ok (DJson (JDict
           [("pending", JInt (Z.of_nat (List.length pending)));
            ("running", JInt (Z.of_nat (List.length running)));
            ("finished", JInt (Z.of_nat (List.length finished)))])), s).
Proof.
  intros Hnd. rewrite ListJobs_run by done.
  eexists _, _, _. split; [reflexivity|].
  rewrite DaemonStatus_run, !length_map. unfold daemon_status.
  rewrite (filter_selects_None id), (filter_selects_None id).
  rewrite (length_flat_map_queues pending_entry) by done.
  by rewrite length_fmap.
Qed.

(** X12. Status and ListJobs agree.  Asked with the same project filter
  (none, or a project that has a queue), Status reports the first of the
  lists "finished", "running" and "pending" of ListJobs that holds an entry
  with the job's id, and null when none of them does. *)
Theorem Status_agrees_with_ListJobs (L : Listing) (s : State) (job : str)
    (project : option str) :
  (∀ p, project = Some p → Dict.mem p (queues (root s)) = true) →
  ∃ pending running finished : list Json,
    ListJobs_render_GET L project s
    = (Ok (DJson (JDict [("pending", JList pending);
                         ("running", JList running);
                         ("finished", JList finished)])), s)
    ∧ Status_render_GET job project s
      = (Ok (DJson (JDict
           [("currstate",
             if bool_decide (job ∈ ids finished) then JString "finished"
             else if bool_decide (job ∈ ids running) then JString "running"
             else if bool_decide (job ∈ ids pending) then JString "pending"
             else JNull)])), s).
Proof.
  intros Hknown. rewrite ListJobs_run, Status_run by done.
  eexists _, _, _. split; [reflexivity|].
  unfold job_state.
  rewrite (existsb_bool_decide _ _ _
             (processes_ids (finished_entry L) project job
                (finished (root s)) (fun _ => eq_refl))).
  rewrite (existsb_bool_decide _ _ _
             (processes_ids (running_entry L) project job
                (processes (root s)).*2 (fun _ => eq_refl))).
  rewrite (existsb_bool_decide _ _ _
             (pending_ids job
                (fun queue_name =>
                   from_option id []
                     (Dict.get queue_name (queues (root s)))) _)).
  destruct (bool_decide _); [done|].
  destruct (bool_decide _); [done|].
  by destruct (bool_decide _).
Qed.

Lemma DaemonStatus_counts_ListJobs_witness :
  ∃ pending running finished : list Json,
    ListJobs_render_GET Cases.listing None Cases.two_projects
    = (Ok (DJson (JDict [("pending", JList pending);
                         ("running", JList running);
                         ("finished", JList finished)])),
       Cases.two_projects)
    ∧ DaemonStatus_render_GET Cases.two_projects
      = (Ok (DJson (JDict
           [("pending", JInt (Z.of_nat (List.length pending)));
            ("running", JInt (Z.of_nat (List.length running)));
            ("finished", JInt (Z.of_nat (List.length finished)))])),
         Cases.two_projects).
Proof.
  apply (DaemonStatus_counts_ListJobs Cases.listing Cases.two_projects).
  apply (bool_decide_unpack _). vm_compute. reflexivity.
Defined.

Lemma Status_agrees_with_ListJobs_witness :
  ∃ pending running finished : list Json,
    ListJobs_render_GET Cases.listing (Some "p") Demo.finished_and_running
    = (Ok (DJson (JDict [("pending", JList pending);
                         ("running", JList running);
                         ("finished", JList finished)])),
       Demo.finished_and_running)
    ∧ Status_render_GET "j1" (Some "p") Demo.finished_and_running
      = (Ok (DJson (JDict
           [("currstate",
             if bool_decide ("j1" ∈ ids finished) then JString "finished"
             else if bool_decide ("j1" ∈ ids running) then JString "running"
             else if bool_decide ("j1" ∈ ids pending) then JString "pending"
             else JNull)])), Demo.finished_and_running).
Proof.
  apply (Status_agrees_with_ListJobs Cases.listing Demo.finished_and_running
           "j1" (Some "p")).
  intros p [= <-]. reflexivity.
Defined.

Section ProjectFilter.
Variable L : Listing.
Variable p : str.

Lemma filter_pending_entries (queue_name : str) (q : list Message) :
  filter (fun e => of_project p e = true) (map (pending_entry queue_name) q)
  = if String.eqb queue_name p then map (pending_entry queue_name) q else [].
Proof.
  induction q as [|m q IH]; [by destruct (String.eqb _ _)|].
  cbn [map]. rewrite filter_cons, IH.
  change (of_project p (pending_entry queue_name m))
    with (String.eqb queue_name p).
  destruct (String.eqb queue_name p).
  - by rewrite decide_True.
  - by rewrite decide_False.
Qed.

Lemma filter_pending_absent (queue : str → list Message) (names : list str) :
  p ∉ names →
  filter (fun e => of_project p e = true)
    (flat_map (fun n => map (pending_entry n) (queue n)) names) = [].
Proof.
  induction names as [|n names IH]; [done|].
  intros [Hne Hnot]%not_elem_of_cons. cbn [flat_map].
  rewrite filter_app, filter_pending_entries, IH by done.
  assert (String.eqb n p = false) as ->; [|done].
  apply String.eqb_neq. congruence.
Qed.

Lemma filter_pending_present (queue : str → list Message)
    (names : list str) :
  NoDup names → p ∈ names →
  filter (fun e => of_project p e = true)
    (flat_map (fun n => map (pending_entry n) (queue n)) names)
  = map (pending_entry p) (queue p).
Proof.
  induction names as [|n names IH]; [by intros _ ?%elem_of_nil|].
  intros [Hn Hnd]%NoDup_cons Hin. cbn [flat_map].
  rewrite filter_app, filter_pending_entries.
  destruct (String.eqb_spec n p) as [->|Hne].
  - by rewrite filter_pending_absent, app_nil_r.
  - apply elem_of_cons in Hin as [->|Hin]; [done|]. by rewrite IH.
Qed.

Lemma filter_process_entries (entry : Process → Json) (l : list Process) :
  (∀ x, of_project p (entry x) = String.eqb (Process.project x) p) →
  filter (fun e => of_project p e = true) (map entry l)
  = map entry (filter (fun x => selects (Some p) x = true) l).
Proof.
  intros Hentry. induction l as [|x l IH]; [done|].
  cbn [map]. rewrite !filter_cons, IH, Hentry. cbn [selects].
  destruct (String.eqb (Process.project x) p).
  - by rewrite !decide_True.
  - by rewrite !decide_False.
Qed.

End ProjectFilter.

(** X13. The project filter of ListJobs selects and does nothing else: for
  a project that has a queue, ListJobs with the project returns, in each of
  its three lists, the entries of the unfiltered listing whose "project" is
  that project, in the same order. *)
Theorem ListJobs_project_filter (L : Listing) (s : State) (p : str)
    (pending running finished : list Json) :
  NoDup (Dict.keys (queues (root s))) →
  Dict.mem p (queues (root s)) = true →
  ListJobs_render_GET L None s
  = (Ok (DJson (JDict [("pending", JList pending);
                       ("running", JList running);
                       ("finished", JList finished)])), s) →
  ListJobs_render_GET L (Some p) s
  = (Ok (DJson (JDict
       [("pending", JList (filter (fun e => of_project p e = true) pending));
        ("running", JList (filter (fun e => of_project p e = true) running));
        ("finished",
         JList (filter (fun e => of_project p e = true) finished))])), s).
Proof.
  intros Hnd Hp Hall. rewrite ListJobs_run in Hall by done.
  unfold jobs in Hall. injection Hall as <- <- <-.
  rewrite ListJobs_run by (by intros ? [= <-]).
  rewrite (filter_selects_None id), (filter_selects_None id).
  rewrite (filter_process_entries p (running_entry L)) by done.
  rewrite (filter_process_entries p (finished_entry L)) by done.
  rewrite (filter_pending_present p
             (fun n => from_option id [] (Dict.get n (queues (root s))))).
  - cbn [flat_map]. by rewrite app_nil_r.
  - done.
  - apply Dict_get_keys. by apply Dict_mem_get in Hp as [q ->].
Qed.

Lemma ListJobs_project_filter_witness :
  ListJobs_render_GET Cases.listing (Some "q") Cases.two_projects
  = (Ok (DJson (JDict
       [("pending",
         JList (filter (fun e => of_project "q" e = true)
                  [pending_entry "p" (Demo.message "j1");
                   pending_entry "q" (Demo.message "j2")]));
        ("running",
         JList (filter (fun e => of_project "q" e = true)
                  [running_entry Cases.listing (Demo.process "q" "j3" 40);
                   running_entry Cases.listing (Demo.process "p" "j4" 41)]));
        ("finished",
         JList (filter (fun e => of_project "q" e = true)
                  [finished_entry Cases.listing
                     (Demo.process "q" "j5" 39)]))])),
     Cases.two_projects).
Proof.
  apply (ListJobs_project_filter Cases.listing Cases.two_projects "q").
  - apply (bool_decide_unpack _). vm_compute. reflexivity.
  - reflexivity.
  - reflexivity.
Defined.

(** ** What the resource classes send *)

Lemma methods_of (P : Platform) (op : Operation)
    (f : gmap str Value → M Data) :
  methods (resource_of P op f)
  = "OPTIONS, HEAD, " +:+ (if is_POST op then "POST" else "GET").
Proof. unfold resource_of. by destruct op. Qed.

(** X14. The envelope of a web-service response.  When the handler of a
  WsResource returns a dictionary, the body is the JSON encoding, with a
  final newline, of a dictionary in which "status" is "ok" and "node_name"
  is the node's name, whatever the handler had put under these two keys,
  and in which every other key reads as the handler returned it; the status
  code is the one the handler left and the content type is JSON. *)
Theorem WsResource_envelope (P : Platform) (op : Operation)
    (f : gmap str Value → M Data) (s : State) (d : list (str * Json))
    (s1 : State) :
  base_class op = WsResource →
  Resource_render (resource_of P op f) s = (Ok (DJson (JDict d)), s1) →
  ∃ d',
    body_of (render_of P op f s) = Some (json_encode P (JDict d') +:+ newline)
    ∧ Dict.get "status" d' = Some (JString "ok")
    ∧ Dict.get "node_name" d' = Some (JString (node_name (root s1)))
    ∧ (∀ k, k ≠ "status" → k ≠ "node_name" → Dict.get k d' = Dict.get k d)
    ∧ status_of (render_of P op f s) = code (tx s1)
    ∧ header_of (render_of P op f s) "Content-Type" = Some "application/json"
    ∧ root (render_of P op f s).2 = root s1.
Proof.
  intros Hclass Hdisp.
  exists (Dict.set "node_name" (JString (node_name (root s1)))
            (Dict.set "status" (JString "ok") d)).
  split; [|split; [|split; [|split]]].
  - unfold render_of. rewrite Hclass. unfold WsResource_render.
    rewrite Hdisp. by destruct s1 as [r1 [a m c h]].
  - rewrite Dict_get_set_ne by done. apply Dict_get_set_eq.
  - apply Dict_get_set_eq.
  - intros k Hs Hn. by rewrite !Dict_get_set_ne.
  - unfold render_of. rewrite Hclass. unfold WsResource_render.
    rewrite Hdisp. destruct s1 as [r1 [a m c h]].
    unfold WsResource_finish. response_simpl.
    split; [done|]. split; [|done].
    rewrite !lookup_insert_ne by done. apply lookup_insert_eq.
Qed.

Lemma WsResource_envelope_witness :
  ∃ d',
    body_of (render_of (Demo.platform 0 "") DaemonStatus
               (fun _ => ret (DJson (JDict [("status", JString "busy")])))
               (Demo.bare_get false))
    = Some (json_encode (Demo.platform 0 "") (JDict d') +:+ newline)
    ∧ Dict.get "status" d' = Some (JString "ok")
    ∧ Dict.get "node_name" d' = Some (JString "node").
Proof.
  destruct (WsResource_envelope (Demo.platform 0 "") DaemonStatus
              (fun _ => ret (DJson (JDict [("status", JString "busy")])))
              (Demo.bare_get false) [("status", JString "busy")]
              (Demo.bare_get false))
    as (d' & Hbody & Hstatus & Hnode & _).
  - reflexivity.
  - reflexivity.
  - by exists d'.
Defined.

(** Read a header off a stack of [setHeader] calls. *)
Ltac headers_solve :=
  repeat split;
  repeat (rewrite lookup_insert_ne by done);
  first [done | by rewrite lookup_insert_eq].

(** X15. Outside the debug traceback, every body that a WsResource or a
  JustContentResource sends -- a result, an error report, or the empty body
  of an OPTIONS request -- goes out with a [Content-Length] that is the
  length of that body and with the three CORS headers, the allowed methods
  being those of the resource. *)
Theorem Content_Length_is_body_length (P : Platform) (op : Operation)
    (f : gmap str Value → M Data) (s : State) (r : Res Data) (s1 : State)
    (body : bytes) :
  base_class op = WsResource ∨ base_class op = JustContentResource →
  Resource_render (resource_of P op f) s = (r, s1) →
  debug (root s1) = false ∨ (∃ data, r = Ok data) →
  body_of (render_of P op f s) = Some body →
  header_of (render_of P op f s) "Content-Length"
  = Some (str_of_nat (len body))
  ∧ header_of (render_of P op f s) "Access-Control-Allow-Origin" = Some "*"
  ∧ header_of (render_of P op f s) "Access-Control-Allow-Methods"
    = Some ("OPTIONS, HEAD, " +:+ (if is_POST op then "POST" else "GET"))
  ∧ header_of (render_of P op f s) "Access-Control-Allow-Headers"
    = Some "X-Requested-With".
Proof.
  intros Hclass Hdisp Hpath. rewrite <- (methods_of P op f).
  assert (debug (root s1) = true → ∃ data, r = Ok data) as Hdbg.
  { intros Hd. destruct Hpath as [Hf|?]; [congruence|done]. }
  clear Hpath. unfold render_of.
  destruct s1 as [r1 [a m c h]]. cbn [root] in Hdbg.
  destruct Hclass as [-> | ->].
  - unfold WsResource_render. rewrite Hdisp.
    destruct r as [[|[| | | | |d]|]|e]; unfold WsResource_finish;
      try (response_simpl; discriminate).
    + response_simpl. intros [= <-]. headers_solve.
    + response_simpl. intros [= <-]. headers_solve.
    + destruct (debug r1) eqn:Hd.
      { destruct (Hdbg eq_refl) as [? [=]]. }
      destruct e; response_simpl; rewrite Hd; response_simpl;
        intros [= <-]; headers_solve.
  - unfold JustContentResource_render. rewrite Hdisp.
    destruct r as [[|j|]|e]; unfold JustContentResource_finish;
      try (response_simpl; discriminate).
    + response_simpl. intros [= <-]. headers_solve.
    + response_simpl. intros [= <-]. headers_solve.
    + destruct (debug r1) eqn:Hd.
      { destruct (Hdbg eq_refl) as [? [=]]. }
      destruct e; response_simpl; rewrite Hd; response_simpl;
        intros [= <-]; headers_solve.
Qed.

Lemma Content_Length_is_body_length_witness :
  header_of (render_of (Demo.platform 0 "") Schedule Demo.no_body_of
               (Demo.only_project false)) "Content-Length"
  = Some (str_of_nat
            (len (error_envelope (Demo.platform 0 "") Schedule "node"
                    "'spider' parameter is required")))
  ∧ header_of (render_of (Demo.platform 0 "") Schedule Demo.no_body_of
                 (Demo.only_project false)) "Access-Control-Allow-Origin"
    = Some "*"
  ∧ header_of (render_of (Demo.platform 0 "") Schedule Demo.no_body_of
                 (Demo.only_project false)) "Access-Control-Allow-Methods"
    = Some "OPTIONS, HEAD, POST"
  ∧ header_of (render_of (Demo.platform 0 "") Schedule Demo.no_body_of
                 (Demo.only_project false)) "Access-Control-Allow-Headers"
    = Some "X-Requested-With".
Proof.
  apply (Content_Length_is_body_length (Demo.platform 0 "") Schedule
           Demo.no_body_of (Demo.only_project false)
           (Raise (Error OK "'spider' parameter is required"))
           (Resource_render
              (resource_of (Demo.platform 0 "") Schedule Demo.no_body_of)
              (Demo.only_project false)).2).
  - by left.
  - apply pair_eta_fst. vm_compute. reflexivity.
  - left. vm_compute. reflexivity.
  - vm_compute. reflexivity.
Defined.

(** X16. In debug mode a failure is answered with the traceback alone: for
  every class that intercepts failures, the body is the formatted
  traceback, the status code is the exception's when it is an
  [error.Error] and the one the handler left otherwise, and nothing else
  of the response is touched after the failure: no [Content-Type], no
  [Content-Length] and no CORS header is set. *)
Theorem debug_failure_is_traceback (P : Platform) (op : Operation)
    (f : gmap str Value → M Data) (s : State) (e : Exn) (s1 : State) :
  base_class op ≠ RawContentResource →
  Resource_render (resource_of P op f) s = (Raise e, s1) →
  debug (root s1) = true →
  (render_of P op f s).1 = Ok (DBytes (format_exc P e))
  ∧ status_of (render_of P op f s)
    = match e with Error status _ => status | Exception _ _ => code (tx s1) end
  ∧ headers (tx (render_of P op f s).2) = headers (tx s1)
  ∧ args (tx (render_of P op f s).2) = args (tx s1)
  ∧ root (render_of P op f s).2 = root s1.
Proof.
  intros Hraw Hdisp Hdbg. unfold render_of.
  destruct s1 as [r1 [a m c h]]. cbn [root] in Hdbg.
  destruct (base_class op); [| done | |].
  - unfold WsResource_render. rewrite Hdisp.
    destruct e; response_simpl; rewrite Hdbg; done.
  - unfold JustContentResource_render. rewrite Hdisp.
    destruct e; response_simpl; rewrite Hdbg; done.
  - unfold SpiderResults_render, try_except. rewrite Hdisp.
    destruct e; response_simpl; rewrite Hdbg; done.
Qed.

Lemma debug_failure_is_traceback_witness :
  (render_of (Demo.platform 0 "") Schedule Demo.no_body_of
     (Demo.only_project true)).1
  = Ok (DBytes "Traceback (most recent call last)")
  ∧ header_of (render_of (Demo.platform 0 "") Schedule Demo.no_body_of
                 (Demo.only_project true)) "Content-Length" = None.
Proof.
  destruct (debug_failure_is_traceback (Demo.platform 0 "") Schedule
              Demo.no_body_of (Demo.only_project true)
              (Error OK "'spider' parameter is required")
              (Resource_render
                 (resource_of (Demo.platform 0 "") Schedule Demo.no_body_of)
                 (Demo.only_project true)).2)
    as (Hbody & _ & Hheaders & _).
  - done.
  - apply pair_eta_fst. vm_compute. reflexivity.
  - vm_compute. reflexivity.
  - split; [exact Hbody|]. unfold header_of. rewrite Hheaders.
    vm_compute. reflexivity.
Defined.

(** X17. An OPTIONS request to a WsResource or a JustContentResource never
  reaches the handler: whatever the handler is, the answer is 204 with an
  empty body, the methods of the resource under [Allow] and under the CORS
  header, [Content-Length] 0 and no [Content-Type]; the request arguments
  and the host context are left as they were. *)
Theorem OPTIONS_preflight (P : Platform) (op : Operation)
    (f : gmap str Value → M Data) (s : State) :
  base_class op = WsResource ∨ base_class op = JustContentResource →
  method (tx s) = OPTIONS →
  (render_of P op f s).1 = Ok (DBytes "")
  ∧ status_of (render_of P op f s) = NO_CONTENT
  ∧ header_of (render_of P op f s) "Allow"
    = Some ("OPTIONS, HEAD, " +:+ (if is_POST op then "POST" else "GET"))
  ∧ header_of (render_of P op f s) "Access-Control-Allow-Methods"
    = Some ("OPTIONS, HEAD, " +:+ (if is_POST op then "POST" else "GET"))
  ∧ header_of (render_of P op f s) "Content-Length" = Some "0"
  ∧ header_of (render_of P op f s) "Content-Type"
    = headers (tx s) !! "Content-Type"
  ∧ args (tx (render_of P op f s).2) = args (tx s)
  ∧ root (render_of P op f s).2 = root s.
Proof.
  intros Hclass Hmethod.
  assert (Resource_render (resource_of P op f) s
          = render_OPTIONS_of
              {| render_GET :=
                   if is_POST op then None else Some (handler_of P op f);
                 render_POST :=
                   if is_POST op then Some (handler_of P op f) else None;
                 render_OPTIONS := None |} s) as Hdisp.
  { unfold Resource_render, bind, gets. rewrite Hmethod.
    unfold resource_of. by destruct Hclass as [-> | ->]. }
  assert (methods
            {| render_GET :=
                 if is_POST op then None else Some (handler_of P op f);
               render_POST :=
                 if is_POST op then Some (handler_of P op f) else None;
               render_OPTIONS := None |}
          = "OPTIONS, HEAD, " +:+ (if is_POST op then "POST" else "GET"))
    as Hallow by (by destruct (is_POST op)).
  unfold render_OPTIONS_of in Hdisp. rewrite Hallow in Hdisp.
  rewrite <- (methods_of P op f). rewrite <- (methods_of P op f) in Hdisp.
  unfold render_of. destruct s as [r0 [a m c h]].
  destruct Hclass as [-> | ->].
  - unfold WsResource_render. rewrite Hdisp. unfold WsResource_finish.
    response_simpl. split; [done|]. split; [done|]. headers_solve.
  - unfold JustContentResource_render. rewrite Hdisp.
    unfold JustContentResource_finish.
    response_simpl. split; [done|]. split; [done|]. headers_solve.
Qed.

Lemma OPTIONS_preflight_witness :
  (render_of (Demo.platform 0 "") Cancel Demo.no_body_of
     (Demo.state (root Demo.pending_and_running)
        (Demo.request OPTIONS [("project", ["p"]); ("job", ["j1"])]))).1
  = Ok (DBytes "")
  ∧ status_of
      (render_of (Demo.platform 0 "") Cancel Demo.no_body_of
         (Demo.state (root Demo.pending_and_running)
            (Demo.request OPTIONS [("project", ["p"]); ("job", ["j1"])])))
    = NO_CONTENT.
Proof.
  destruct (OPTIONS_preflight (Demo.platform 0 "") Cancel Demo.no_body_of
              (Demo.state (root Demo.pending_and_running)
                 (Demo.request OPTIONS [("project", ["p"]); ("job", ["j1"])])))
    as (Hbody & Hstatus & _).
  - by left.
  - reflexivity.
  - by split.
Defined.

(** ** The parameter decorator *)

(** X18. Parameters are checked in the order they are declared and the
  first failure is the answer.  When the declarations before [p] bind and
  [p] fails, the decorated function fails with the error of [p], in the
  state [p] left: the declarations after [p] are not evaluated and the
  function is not called, whatever they are. *)
Theorem param_validation_order (P : Platform) (pre post : list Param)
    (p : Param) (f : gmap str Value → M Data) (kwargs kwargs1 : gmap str Value)
    (s s0 s1 : State) (e : Exn) :
  bind_params P pre kwargs s = (Ok kwargs1, s0) →
  param_value P p s0 = (Raise e, s1) →
  decorate P (pre ++ p :: post) f kwargs s = (Raise e, s1).
Proof.
  intros Hpre Hp.
  rewrite decorate_bind_params. unfold bind at 1.
  rewrite bind_params_app. unfold bind at 1. rewrite Hpre.
  cbn [bind_params]. unfold bind at 1. by rewrite Hp.
Qed.

Lemma param_validation_order_witness :
  handler (Demo.platform 0 "") Demo.no_body Schedule
    (Demo.state (root Demo.cached)
       (Demo.request POST [("priority", ["high"]); ("project", ["p"])]))
  = (Raise (Error OK "'spider' parameter is required"),
     Demo.state (root Demo.cached)
       (Demo.request POST [("priority", ["high"])])).
Proof.
  apply (param_validation_order (Demo.platform 0 "") [param_ "project"]
           _ (param_ "spider") _ ∅ {[ "project" := VStr "p" ]}
           _ (Demo.state (root Demo.cached)
                (Demo.request POST [("priority", ["high"])]))).
  - reflexivity.
  - reflexivity.
Defined.

Lemma with_tx_with_tx (g g' : Request → Request) (s : State) :
  with_tx g (with_tx g' s) = with_tx (fun t => g (g' t)) s.
Proof. by destruct s. Qed.

(** No default declared in the module reads the request or fails. *)
Lemma decls_default (P : Platform) (op : Operation) (p : Param) (s : State) :
  p ∈ decls P op →
  ∃ d s0, ∀ g, eval_default p (with_tx g s) = (Ok d, with_tx g s0).
Proof.
  intros Hin.
  assert ((∃ v, default p = Literal v)
          ∨ default p = Callable (uuid1 P)
          ∨ default p = Callable (ret (VList []))) as Hd.
  { destruct op; cbn [decls] in Hin;
      repeat (apply elem_of_cons in Hin as [->|Hin]);
      try (by apply elem_of_nil in Hin);
      cbn [default param_ param_optional]; eauto. }
  unfold eval_default. destruct Hd as [[v ->]|[->| ->]].
  - by exists v, s.
  - exists (VStr (uuid1_hex P (uuid_reads (root s)))),
      (with_root (set_uuid_reads (S (uuid_reads (root s)))) s).
    intros g. by destruct s.
  - by exists (VList []), s.
Qed.

(** X19. Of a parameter that is not declared [multiple], only the first
  value counts.  For every such declaration of the module, two requests
  that differ only in the values after the first one for that parameter
  bind it alike -- the same value or the same error, and the same state
  afterwards: the later values are neither converted nor checked, and they
  are dropped from the request with the first. *)
Theorem later_values_are_ignored (P : Platform) (op : Operation) (p : Param)
    (s : State) (b : bytes) (rest rest' : list bytes) :
  p ∈ decls P op →
  multiple p = false →
  param_value P p
    (with_tx (set_args (Dict.set (decoded p) (b :: rest) (args (tx s)))) s)
  = param_value P p
      (with_tx (set_args (Dict.set (decoded p) (b :: rest') (args (tx s)))) s).
Proof.
  intros Hin Hsingle.
  destruct (decls_default P op p s Hin) as (d & s0 & Hdefault).
  assert (∀ values,
            param_value P p
              (with_tx (set_args
                 (Dict.set (decoded p) (b :: values) (args (tx s)))) s)
            = (match convert P (type p) b with
               | inl v => Ok v
               | inr e =>
                   Raise (Error OK (decoded p +:+ " is invalid: " +:+ e))
               end,
               with_tx (set_args (Dict.remove (decoded p) (args (tx s)))) s0))
    as Hrun.
  { intros values. unfold param_value. unfold bind at 1.
    rewrite Hdefault. unfold bind at 1. unfold gets.
    assert (args (tx (with_tx (set_args
              (Dict.set (decoded p) (b :: values) (args (tx s)))) s0))
            = Dict.set (decoded p) (b :: values) (args (tx s))) as ->
      by (by destruct s0 as [? []]).
    unfold Dict.pop. rewrite Dict_get_set_eq, Dict_remove_set.
    unfold bind at 1. unfold modify. rewrite with_tx_with_tx, Hsingle.
    assert (with_tx (fun t => set_args (Dict.remove (decoded p) (args (tx s)))
                      (set_args (Dict.set (decoded p) (b :: values)
                                   (args (tx s))) t)) s0
            = with_tx (set_args (Dict.remove (decoded p) (args (tx s)))) s0)
      as -> by (by destruct s0 as [? []]).
    by destruct (convert P (type p) b). }
  by rewrite !Hrun.
Qed.

Lemma later_values_are_ignored_witness :
  param_value (Demo.platform 0 "") (param_ "project")
    (with_tx (set_args
       (Dict.set "project" ["p"; "q"] (args (tx Demo.upload)))) Demo.upload)
  = param_value (Demo.platform 0 "") (param_ "project")
      (with_tx (set_args
         (Dict.set "project" ["p"] (args (tx Demo.upload)))) Demo.upload).
Proof.
  apply (later_values_are_ignored (Demo.platform 0 "") AddVersion
           (param_ "project") Demo.upload "p" ["q"] []).
  - apply elem_of_cons. by left.
  - reflexivity.
Defined.

(** ** Projects and versions *)

Lemma SpiderList_get_entry (P : Platform) (s : State) (p : str)
    (v : option str) (runner : str) (spiders : list str) (s1 : State) :
  SpiderList_get P p v runner s = (Ok spiders, s1) →
  entry s1 p v = Some spiders.
Proof.
  unfold SpiderList_get, cache_getitem. unfold bind at 1.
  destruct (cache (root s) !! p) as [d|] eqn:Hp.
  - destruct (d !! v) as [l|] eqn:Hv.
    + intros [= <- <-]. unfold entry. by rewrite Hp.
    + intros Hset. apply SpiderList_set_ok in Hset as ->.
      rewrite entry_set_cache, lookup_insert_eq. by rewrite lookup_insert_eq.
  - rewrite lookup_empty. intros Hset. apply SpiderList_set_ok in Hset as ->.
    rewrite entry_set_cache, lookup_insert_eq. by rewrite lookup_insert_eq.
Qed.

Lemma ListSpiders_after_checks (P : Platform) (project : str)
    (version : option str) (s : State) (res : Res (list str)) (s1 : State) :
  Dict.mem project (queues (root s)) = true →
  ¬ version_missing (root s) project version →
  SpiderList_get P project version (runner (root s)) s = (res, s1) →
  ListSpiders_render_GET P project version s
  = match res with
    | Ok spiders =>
        (Ok (DJson (JDict [("spiders", JList (map JString spiders))])), s1)
    | Raise e => (Raise e, s1)
    end.
Proof.
  intros Hq Hver Hget. unfold ListSpiders_render_GET.
  unfold bind at 1. unfold gets at 1. rewrite Hq.
  cbn [negb]. unfold bind at 1. unfold gets at 1. unfold bind at 1.
  assert (match version with
          | Some v =>
              if truthy version
                 && bool_decide
                      (eggstorage_get (eggstorage (root s)) project v = None)
              then version_not_found v else ret tt
          | None => ret tt
          end s = (Ok tt, s)) as ->.
  { destruct version as [v|]; [|done]. cbn [truthy].
    destruct (String.eqb v "") eqn:E; [done|]. cbn [negb andb].
    case_bool_decide as Hegg; [|done]. exfalso. apply Hver.
    exists v. split; [done|]. split; [|done]. by apply String.eqb_neq. }
  unfold bind at 1. unfold gets at 1. unfold bind at 1. rewrite Hget.
  by destruct res.
Qed.

(** X20. What Schedule accepts, ListSpiders lists.  After a Schedule that
  succeeded, ListSpiders for the same project and version answers from the
  cache, changing nothing and on any platform, with a list that holds the
  scheduled spider. *)
Theorem Schedule_then_ListSpiders (P P' : Platform) (project spider : str)
    (version : option str) (jobid : str) (priority : Value)
    (setting : list str) (s : State) (data : Data) (s' : State) :
  Schedule_render_POST P project spider version jobid priority setting s
  = (Ok data, s') →
  ∃ spiders,
    ListSpiders_render_GET P' project version s'
    = (Ok (DJson (JDict [("spiders", JList (map JString spiders))])), s')
    ∧ spider ∈ spiders.
Proof.
  intros Hrun.
  assert (¬ version_missing (root s) project version) as Hver.
  { intros (v & Hv & Hne & Hegg).
    destruct (Dict.mem project (queues (root s))) eqn:Hq.
    - by rewrite (Schedule_unknown_version P project spider version jobid
                    priority setting s v) in Hrun.
    - by rewrite Schedule_unknown_project in Hrun. }
  destruct (Schedule_cases _ _ _ _ _ _ _ _ _ _ Hrun)
    as (s1 & Htx & Hsame & [(e & ? & _)|Hok]); [done|].
  destruct Hok as (q & spiders & message & Hq & Hget & Hin & _ & _ & _ & ->).
  destruct (same_but_cache_fields _ _ Hsame) as (Hqs & _ & _ & Hegg).
  apply SpiderList_get_entry in Hget.
  exists spiders. split; [|done].
  match goal with |- ListSpiders_render_GET _ _ _ ?st = _ => set (s' := st) end.
  rewrite (ListSpiders_after_checks P' project version s' (Ok spiders) s').
  - done.
  - apply Dict_mem_get. eexists.
    change (queues (root s'))
      with (Dict.set project (q ++ [message]) (queues (root s))).
    apply Dict_get_set_eq.
  - intros (v & Hv & Hne & Hnone). apply Hver. exists v.
    split; [done|]. split; [done|]. by rewrite <- Hegg.
  - by apply SpiderList_get_hit.
Qed.

Lemma Schedule_then_ListSpiders_witness :
  ∃ spiders,
    ListSpiders_render_GET (Demo.platform 1 "") "p" None
      (Schedule_render_POST (Demo.platform 0 "") "p" "old" None "job9"
         (VInt 0) [] Demo.cached).2
    = (Ok (DJson (JDict [("spiders", JList (map JString spiders))])),
       (Schedule_render_POST (Demo.platform 0 "") "p" "old" None "job9"
          (VInt 0) [] Demo.cached).2)
    ∧ "old" ∈ spiders.
Proof.
  apply (Schedule_then_ListSpiders (Demo.platform 0 "") (Demo.platform 1 "")
           "p" "old" None "job9" (VInt 0) [] Demo.cached
           (DJson (JDict [("jobid", JString "job9")]))).
  apply pair_eta_fst. vm_compute. reflexivity.
Defined.

(** The state in which AddVersion lists the spiders: the egg is stored and
  the projects are refreshed. *)
Lemma AddVersion_stored (P : Platform) (project version : str) (egg : bytes)
    (s : State) (r : Res Data) (s' : State) :
  is_zipfile P egg = true →
  AddVersion_render_POST P project version egg s = (r, s') →
  ∃ s2 res,
    SpiderList_set P project (Some version) (runner (root s2)) s2 = (res, s')
    ∧ r = match res with
          | Ok spiders =>
              Ok (DJson (JDict
                [("project", JString project);
                 ("version", JString version);
                 ("spiders", JInt (Z.of_nat (List.length spiders)))]))
          | Raise e => Raise e
          end
    ∧ eggstorage_get (eggstorage (root s2)) project version
      = Some (version, egg)
    ∧ Dict.mem project (queues (root s2)) = true
    ∧ cache (root s2) = cache (root s)
    ∧ tx s2 = tx s.
Proof.
  intros Hzip. unfold AddVersion_render_POST. rewrite Hzip. cbn [negb].
  unfold bind at 1. unfold eggstorage_put, modify.
  unfold bind at 1. unfold update_projects, modify.
  unfold bind at 1. unfold gets.
  unfold bind at 1.
  match goal with
  | |- context [SpiderList_set P project (Some version) (runner (root ?st)) ?st] =>
      set (s2 := st)
  end.
  intros Hrun. exists s2.
  destruct (SpiderList_set P project (Some version) (runner (root s2)) s2)
    as [res s3] eqn:Hset.
  exists res. split; [by destruct res; injection Hrun as <- <-|].
  split; [by destruct res; injection Hrun as <- <-|].
  assert (eggstorage (root s2)
          = <[project := Dict.set version egg
                (from_option id [] (eggstorage (root s) !! project))]>
              (eggstorage (root s))) as Heggs by (by destruct s as [[] ?]).
  assert (queues (root s2)
          = map (fun p => (p, from_option id [] (Dict.get p (queues (root s)))))
              (elements (dom (eggstorage (root s2))))) as Hqs
    by (by destruct s as [[] ?]).
  split; [|split; [|split]].
  - unfold eggstorage_get. rewrite Heggs, lookup_insert_eq.
    by rewrite Dict_get_set_eq.
  - apply Dict_mem_get. apply Dict_get_keys. rewrite Hqs.
    unfold Dict.keys. rewrite <- list_fmap_compose.
    apply list_elem_of_fmap. exists project. split; [done|].
    apply elem_of_elements, elem_of_dom. rewrite Heggs, lookup_insert_eq.
    by eexists.
  - by destruct s as [[] ?].
  - by destruct s as [[] ?].
Qed.

(** X21. AddVersion is not atomic.  When the egg is a ZIP file and the
  request fails all the same -- the listing command exits with an error, or
  prints what does not decode -- the egg has been stored under the version
  and the project has its queue: only the spider-list cache is as it was
  before the request. *)
Theorem AddVersion_failure_keeps_egg (P : Platform) (project version : str)
    (egg : bytes) (s : State) (e : Exn) (s' : State) :
  is_zipfile P egg = true →
  AddVersion_render_POST P project version egg s = (Raise e, s') →
  eggstorage_get (eggstorage (root s')) project version = Some (version, egg)
  ∧ Dict.mem project (queues (root s')) = true
  ∧ cache (root s') = cache (root s)
  ∧ ∃ text, e = Exception "RunnerError" text
            ∨ e = Exception "UnicodeDecodeError" text.
Proof.
  intros Hzip Hrun.
  destruct (AddVersion_stored P project version egg s _ _ Hzip Hrun)
    as (s2 & res & Hset & Hres & Hegg & Hq & Hcache & _).
  destruct res as [spiders|e']; [done|]. injection Hres as ->.
  by apply SpiderList_set_failure in Hset as [-> He].
Qed.

Lemma AddVersion_failure_keeps_egg_witness :
  eggstorage_get
    (eggstorage
       (root (AddVersion_render_POST (Demo.platform 1 "no module named shop")
                "p" "2" "PK-egg" Demo.cached).2)) "p" "2"
  = Some ("2", "PK-egg")
  ∧ (AddVersion_render_POST (Demo.platform 1 "no module named shop")
       "p" "2" "PK-egg" Demo.cached).1
    = Raise (Exception "RunnerError" "no module named shop").
Proof.
  destruct (AddVersion_failure_keeps_egg
              (Demo.platform 1 "no module named shop") "p" "2" "PK-egg"
              Demo.cached (Exception "RunnerError" "no module named shop")
              (AddVersion_render_POST
                 (Demo.platform 1 "no module named shop")
                 "p" "2" "PK-egg" Demo.cached).2)
    as (Hegg & _).
  - reflexivity.
  - apply pair_eta_fst. vm_compute. reflexivity.
  - split; [exact Hegg|]. vm_compute. reflexivity.
Defined.

(** X22. What AddVersion has listed, ListSpiders returns.  After an
  AddVersion that succeeded, the count it reported is the length of the
  list that ListSpiders returns for that project and version, from the
  cache: nothing is changed and the listing command is not run again,
  whatever it would now print. *)
Theorem AddVersion_then_ListSpiders (P P' : Platform)
    (project version : str) (egg : bytes) (s : State) (data : Data)
    (s' : State) :
  AddVersion_render_POST P project version egg s = (Ok data, s') →
  ∃ spiders,
    data = DJson (JDict [("project", JString project);
                         ("version", JString version);
                         ("spiders", JInt (Z.of_nat (List.length spiders)))])
    ∧ ListSpiders_render_GET P' project (Some version) s'
      = (Ok (DJson (JDict [("spiders", JList (map JString spiders))])), s').
Proof.
  intros Hrun.
  assert (is_zipfile P egg = true) as Hzip.
  { destruct (is_zipfile P egg) eqn:Hz; [done|].
    unfold AddVersion_render_POST in Hrun. by rewrite Hz in Hrun. }
  destruct (AddVersion_stored P project version egg s _ _ Hzip Hrun)
    as (s2 & res & Hset & Hres & Hegg & Hq & Hcache & _).
  destruct res as [spiders|e']; [|done]. injection Hres as ->.
  exists spiders. split; [done|].
  pose proof (SpiderList_set_frame P _ _ _ _ _ _ Hset) as [_ Hsame].
  destruct (same_but_cache_fields _ _ Hsame) as (Hqs & _ & _ & Heggs).
  rewrite (ListSpiders_after_checks P' project (Some version) s'
             (Ok spiders) s').
  - done.
  - by rewrite Hqs.
  - intros (v & [= <-] & _ & Hnone). rewrite Heggs in Hnone. congruence.
  - apply SpiderList_get_hit. apply SpiderList_set_ok in Hset as ->.
    rewrite entry_set_cache, lookup_insert_eq. by rewrite lookup_insert_eq.
Qed.

Lemma AddVersion_then_ListSpiders_witness :
  ∃ spiders,
    DJson (JDict [("project", JString "p"); ("version", JString "2");
                  ("spiders", JInt 2)])
    = DJson (JDict [("project", JString "p"); ("version", JString "2");
                    ("spiders", JInt (Z.of_nat (List.length spiders)))])
    ∧ ListSpiders_render_GET (Demo.platform 1 "") "p" (Some "2")
        (AddVersion_render_POST (Demo.platform 0 Demo.two_spiders)
           "p" "2" "PK-egg" Demo.cached).2
      = (Ok (DJson (JDict [("spiders", JList (map JString spiders))])),
         (AddVersion_render_POST (Demo.platform 0 Demo.two_spiders)
            "p" "2" "PK-egg" Demo.cached).2).
Proof.
  apply (AddVersion_then_ListSpiders (Demo.platform 0 Demo.two_spiders)
           (Demo.platform 1 "") "p" "2" "PK-egg" Demo.cached).
  apply pair_eta_fst. vm_compute. reflexivity.
Defined.

(** X23. DeleteVersion maps the two not-found signals of the egg store and
  evicts only after a removal that succeeded.  When the store's [delete]
  raises its signal for an unknown project the answer is
  [project '<p>' not found], when it raises the one for an unknown version
  the answer is [version '<v>' not found]; in both cases the request ends in
  the state in which the store raised: the projects are not refreshed and
  nothing is evicted from the spider-list cache.  When the store's [delete]
  returns, the request succeeds with an empty object; the request and the
  egg store are as the store left them, and the cache has lost the lists of
  that version and of the unspecified version of the project, and no
  other. *)
Theorem DeleteVersion_effects (project version : str) (s s1 : State) :
  (∀ text,
     eggstorage_delete project (Some version) s
     = (Raise (Exception "ProjectNotFoundError" text), s1) →
     DeleteVersion_render_POST project version s
     = (Raise (Error OK ("project '" +:+ project +:+ "' not found")), s1))
  ∧ (∀ text,
       eggstorage_delete project (Some version) s
       = (Raise (Exception "EggNotFoundError" text), s1) →
       DeleteVersion_render_POST project version s
       = (Raise (Error OK ("version '" +:+ version +:+ "' not found")), s1))
  ∧ (eggstorage_delete project (Some version) s = (Ok tt, s1) →
     ∃ s',
       DeleteVersion_render_POST project version s
       = (Ok (DJson (JDict [])), s')
       ∧ tx s' = tx s1
       ∧ eggstorage (root s') = eggstorage (root s1)
       ∧ entry s' project (Some version) = None
       ∧ entry s' project None = None
       ∧ ∀ p v, p ≠ project ∨ (v ≠ Some version ∧ v ≠ None) →
                entry s' p v = entry s1 p v).
Proof.
  split; [|split].
  - intros text Hstore. unfold DeleteVersion_render_POST, _delete_version.
    unfold bind at 1. unfold bind at 1. unfold try_except.
    by rewrite Hstore.
  - intros text Hstore. unfold DeleteVersion_render_POST, _delete_version.
    unfold bind at 1. unfold bind at 1. unfold try_except.
    by rewrite Hstore.
  - intros Hstore. unfold DeleteVersion_render_POST, _delete_version.
    unfold bind at 1. unfold bind at 1. unfold try_except.
    rewrite Hstore. unfold update_projects, modify.
    unfold bind at 1. rewrite SpiderList_delete_ok.
    eexists. split; [reflexivity|].
    split; [by destruct s1 as [[] ?]|].
    split; [by destruct s1 as [[] ?]|].
    split; [|split].
    + rewrite entry_set_cache, lookup_insert_eq. apply lookup_delete_eq.
    + rewrite entry_set_cache, lookup_insert_eq.
      rewrite lookup_delete_ne by done. apply lookup_delete_eq.
    + intros p v Hother. rewrite entry_set_cache.
      assert (cache (root (with_root (fun r =>
                set_queues
                  (map (fun p0 =>
                          (p0, from_option id [] (Dict.get p0 (queues r))))
                     (elements (dom (eggstorage r)))) r) s1))
              = cache (root s1)) as Hc by (by destruct s1 as [[] ?]).
      rewrite Hc. unfold entry.
      destruct (decide (p = project)) as [->|Hne].
      * destruct Hother as [?|[Hv1 Hv2]]; [done|].
        rewrite lookup_insert_eq.
        rewrite lookup_delete_ne by done. rewrite lookup_delete_ne by done.
        by destruct (cache (root s1) !! project).
      * by rewrite lookup_insert_ne.
Qed.

(** Of the two stored versions of [p], a version that is not stored is
  reported as not found and nothing changes; version 1 is deleted, and its
  list and the list of the unspecified version leave the cache while the
  list of version 2 stays. *)
Lemma DeleteVersion_effects_witness :
  DeleteVersion_render_POST "p" "9" Cases.two_versions
  = (Raise (Error OK "version '9' not found"), Cases.two_versions)
  ∧ ∃ s',
      DeleteVersion_render_POST "p" "1" Cases.two_versions
      = (Ok (DJson (JDict [])), s')
      ∧ entry s' "p" (Some "1") = None
      ∧ entry s' "p" None = None
      ∧ entry s' "p" (Some "2") = Some ["b"].
Proof.
  split.
  - destruct (DeleteVersion_effects "p" "9" Cases.two_versions
                Cases.two_versions) as (_ & H & _).
    apply (H ""). reflexivity.
  - destruct (DeleteVersion_effects "p" "1" Cases.two_versions
                (eggstorage_delete "p" (Some "1") Cases.two_versions).2)
      as (_ & _ & H).
    destruct H as (s' & Hrun & _ & _ & H1 & H0 & Hother).
    + apply pair_eta_fst. vm_compute. reflexivity.
    + exists s'. rewrite Hrun, H1, H0, (Hother "p" (Some "2")).
      * repeat split; reflexivity.
      * right. by split.
Defined.

(** ** Paths *)

Lemma append_cons (c : ascii) (a b : str) :
  String c a +:+ b = String c (a +:+ b).
Proof. done. Qed.

Lemma append_nil_l (b : str) : "" +:+ b = b.
Proof. done. Qed.

Lemma append_assoc (a b c : str) : (a +:+ b) +:+ c = a +:+ b +:+ c.
Proof.
  induction a as [|x a IH]; [done|]. by rewrite !append_cons, IH.
Qed.

Lemma prefix_append (a t : str) : String.prefix a (a +:+ t) = true.
Proof.
  induction a as [|x a IH]; [by destruct t|].
  rewrite append_cons. cbn [String.prefix]. by destruct (ascii_dec x x).
Qed.

Lemma split_sep_nonempty (s : str) : split_sep s ≠ [].
Proof.
  destruct s as [|c s]; [done|]. cbn [split_sep].
  destruct (Ascii.eqb c "/"); [done|]. by destruct (split_sep s).
Qed.

Lemma split_sep_plain (s : str) : has_slash s = false → split_sep s = [s].
Proof.
  induction s as [|c s IH]; [done|]. cbn [has_slash split_sep].
  intros [Hc Hs]%orb_false_iff. rewrite Hc, (IH Hs). done.
Qed.

Lemma split_sep_app (x y : str) :
  split_sep (x +:+ "/" +:+ y) = split_sep x ++ split_sep y.
Proof.
  induction x as [|c x IH]; [done|].
  rewrite append_cons. cbn [split_sep]. rewrite IH.
  destruct (Ascii.eqb c "/"); [done|].
  pose proof (split_sep_nonempty x) as Hx.
  by destruct (split_sep x).
Qed.

Lemma endswith_cons (c : ascii) (t : str) :
  endswith (String c t) "/"
  = match t with
    | EmptyString => Ascii.eqb c "/"
    | String _ _ => endswith t "/"
    end.
Proof.
  destruct t as [|a t].
  - unfold endswith. cbn. by destruct (Ascii.eqb c "/").
  - unfold endswith. cbn [String.length]. cbn [Nat.leb Nat.sub].
    rewrite Nat.sub_0_r. cbn [String.substring]. done.
Qed.

Lemma endswith_slash_inv (t : str) :
  endswith t "/" = true → ∃ u, t = u +:+ "/".
Proof.
  induction t as [|c t IH]; [done|]. rewrite endswith_cons.
  destruct t as [|a t].
  - intros ->%Ascii.eqb_eq. by exists "".
  - intros [u Hu]%IH. exists (String c u). by rewrite append_cons, Hu.
Qed.

Lemma endswith_plain (pre s : str) :
  has_slash s = false → s ≠ "" → endswith (pre +:+ s) "/" = false.
Proof.
  intros Hs Hne. pose proof Hne as Hne0. induction pre as [|c pre IH].
  - rewrite append_nil_l. clear Hne0. induction s as [|c s IH]; [done|].
    rewrite endswith_cons. cbn [has_slash] in Hs.
    apply orb_false_iff in Hs as [Hc Hs].
    destruct s as [|a s]; [done|]. by apply IH.
  - rewrite append_cons, endswith_cons.
    destruct (pre +:+ s) as [|a u] eqn:Hu; [|done].
    destruct pre; [|done]. by rewrite append_nil_l in Hu.
Qed.

Lemma append_nil_r (a : str) : a +:+ "" = a.
Proof. induction a as [|x a IH]; [done|]. by rewrite append_cons, IH. Qed.

Lemma append_eq_nil (a b : str) : a +:+ b = "" → a = "" ∧ b = "".
Proof. destruct a; [by rewrite append_nil_l|by rewrite append_cons]. Qed.

Lemma plain_not_absolute (s : str) :
  has_slash s = false → startswith s "/" = false.
Proof.
  destruct s as [|c s]; [done|]. cbn [has_slash].
  intros [Hc _]%orb_false_iff. unfold startswith. cbn [String.prefix].
  destruct (ascii_dec "/" c) as [<-|]; [done|done].
Qed.

(** Where [join] puts a relative path after the working directory, and the
  components the directory contributes. *)
Lemma join_cwd (cwd : str) :
  ∃ D Dc,
    (∀ b, startswith b "/" = false → join cwd [b] = D +:+ b)
    ∧ (∀ y, split_sep (D +:+ y) = Dc ++ split_sep y).
Proof.
  destruct (String.eqb cwd "") eqn:Hempty.
  { apply String.eqb_eq in Hempty as ->. exists "", [].
    split; [|done]. intros b Hb. cbn [join]. by rewrite Hb. }
  destruct (endswith cwd "/") eqn:Hends.
  - destruct (endswith_slash_inv _ Hends) as [u Hu].
    exists cwd, (split_sep u). split.
    + intros b Hb. cbn [join]. by rewrite Hb, Hempty, Hends.
    + intros y. by rewrite Hu, append_assoc, split_sep_app.
  - exists (cwd +:+ "/"), (split_sep cwd). split.
    + intros b Hb. cbn [join]. rewrite Hb, Hempty, Hends.
      cbn [orb]. by rewrite append_assoc.
    + intros y. by rewrite append_assoc, split_sep_app.
Qed.

(** The relative path of a result with plain names. *)
Lemma join_results (project job_id : str) :
  plain_name project = true → plain_name job_id = true →
  ∃ E, join "results" [project; job_id] = "results" +:+ "/" +:+ E
       ∧ Forall (fun e => plain_name e = true) (split_sep E).
Proof.
  intros Hp Hj.
  pose proof Hp as [Hps _]%andb_true_iff. apply negb_true_iff in Hps.
  pose proof Hj as [Hjs _]%andb_true_iff. apply negb_true_iff in Hjs.
  cbn [join]. rewrite (plain_not_absolute _ Hps), (plain_not_absolute _ Hjs).
  change (String.eqb "results" "" || endswith "results" "/") with false.
  cbn match.
  destruct (decide (project = "")) as [->|Hne].
  - exists job_id. split; [done|]. rewrite split_sep_plain by done.
    by apply Forall_singleton.
  - assert (("results" +:+ "/" +:+ project =? "")
            || endswith ("results" +:+ "/" +:+ project) "/" = false) as ->.
    { apply orb_false_iff. split; [done|].
      by apply (endswith_plain "results/"). }
    exists (project +:+ "/" +:+ job_id). split.
    + by rewrite !append_assoc.
    + rewrite split_sep_app, !split_sep_plain by done.
      by repeat constructor.
Qed.

Lemma normpath_step_plain (i : nat) (comps : list str) (e : str) :
  plain_name e = true →
  normpath_step i comps e = comps ∨ normpath_step i comps e = comps ++ [e].
Proof.
  intros [_ He]%andb_true_iff. unfold normpath_step.
  destruct (String.eqb e "" || String.eqb e "."); [by left|].
  rewrite He. by right.
Qed.

Lemma foldl_normpath_step_plain (i : nat) (es : list str) :
  Forall (fun e => plain_name e = true) es →
  ∀ comps, ∃ es', foldl (normpath_step i) comps es = comps ++ es'.
Proof.
  induction 1 as [|e es He _ IH]; intros comps.
  - exists []. by rewrite app_nil_r.
  - cbn [foldl].
    destruct (normpath_step_plain i comps e He) as [-> | ->].
    + destruct (IH comps) as [es' ->]. by exists es'.
    + destruct (IH (comps ++ [e])) as [es' ->]. exists (e :: es').
      by rewrite <- app_assoc.
Qed.

Lemma concat_app (sep : str) (l l' : list str) :
  l ≠ [] → ∃ T, String.concat sep (l ++ l') = String.concat sep l +:+ T.
Proof.
  induction l as [|a l IH]; [done|]. intros _.
  destruct l as [|a2 l].
  - destruct l' as [|b l'].
    + exists "". by rewrite append_nil_r.
    + by exists (sep +:+ String.concat sep (b :: l')).
  - destruct IH as [T HT]; [done|]. exists T.
    change (String.concat sep ((a :: a2 :: l) ++ l'))
      with (a +:+ sep +:+ String.concat sep ((a2 :: l) ++ l')).
    change (String.concat sep (a :: a2 :: l))
      with (a +:+ sep +:+ String.concat sep (a2 :: l)).
    by rewrite HT, !append_assoc.
Qed.

Lemma concat_snoc_nonempty (l : list str) (x : str) :
  x ≠ "" → String.concat "/" (l ++ [x]) ≠ "".
Proof.
  intros Hx. destruct l as [|a l]; [done|].
  destruct (l ++ [x]) as [|b l'] eqn:Hl.
  { by destruct l. }
  change ((a :: l) ++ [x]) with (a :: (l ++ [x])). rewrite Hl.
  change (String.concat "/" (a :: b :: l'))
    with (a +:+ "/" +:+ String.concat "/" (b :: l')).
  by intros [_ ?]%append_eq_nil.
Qed.

Lemma prefix_nil (s : str) : String.prefix "" s = true.
Proof. by destruct s. Qed.

(** The leading slashes that [normpath] keeps depend on the first three
  characters only. *)
Lemma startswith_results (D z p : str) :
  p = "/" ∨ p = "//" ∨ p = "///" →
  startswith (D +:+ "results" +:+ z) p = startswith (D +:+ "results") p.
Proof.
  unfold startswith.
  intros [->|[->| ->]]; destruct D as [|c1 [|c2 [|c3 D]]];
    rewrite ?append_cons, ?append_nil_l; cbn [String.prefix];
    repeat (destruct (ascii_dec _ _); [|done]); by rewrite ?prefix_nil.
Qed.

Lemma normpath_results (D z : str) (Dc : list str) :
  (∀ y, split_sep (D +:+ y) = Dc ++ split_sep y) →
  Forall (fun e => plain_name e = true) (split_sep z) →
  ∃ T, normpath (D +:+ "results" +:+ "/" +:+ z)
       = normpath (D +:+ "results") +:+ T.
Proof.
  intros Hsplit Hplain. unfold normpath.
  assert (∀ y, (D +:+ "results" +:+ y =? "") = false) as Hne.
  { intros y. destruct D; by rewrite ?append_cons, ?append_nil_l. }
  assert ((D +:+ "results" =? "") = false) as HneA.
  { destruct D; by rewrite ?append_cons, ?append_nil_l. }
  rewrite Hne, HneA.
  rewrite !(startswith_results D ("/" +:+ z)) by tauto.
  set (i := if startswith (D +:+ "results") "/"
            then if startswith (D +:+ "results") "//"
                    && negb (startswith (D +:+ "results") "///")
                 then 2 else 1
            else 0).
  rewrite !Hsplit. rewrite split_sep_app, !foldl_app.
  change (split_sep "results") with ["results"]. cbn [foldl].
  set (N := foldl (normpath_step i) [] Dc).
  assert (normpath_step i N "results" = N ++ ["results"]) as -> by done.
  destruct (foldl_normpath_step_plain i _ Hplain (N ++ ["results"]))
    as [es' ->].
  destruct (concat_app "/" (N ++ ["results"]) es') as [T HT].
  { by destruct N. }
  rewrite HT.
  pose proof (concat_snoc_nonempty N "results" ltac:(done)) as Hc.
  set (c := String.concat "/" (N ++ ["results"])) in *.
  exists T.
  assert ((c =? "") = false) as H1 by (by apply String.eqb_neq).
  assert ((c +:+ T =? "") = false) as H2.
  { apply String.eqb_neq. by intros [? _]%append_eq_nil. }
  assert (∀ pre, (pre +:+ c =? "") = false) as H3.
  { intros pre. apply String.eqb_neq. by intros [_ ?]%append_eq_nil. }
  assert (∀ pre, (pre +:+ c +:+ T =? "") = false) as H4.
  { intros pre. apply String.eqb_neq.
    by intros [_ [? _]%append_eq_nil]%append_eq_nil. }
  destruct i as [|[|i]].
  - by rewrite H1, H2.
  - by rewrite H3, H4, !append_assoc.
  - by rewrite H3, H4, !append_assoc.
Qed.

Lemma plain_names_inside (cwd project job_id : str) :
  plain_name project = true → plain_name job_id = true →
  startswith (abspath cwd (join "results" [project; job_id]))
    (abspath cwd "results") = true.
Proof.
  intros Hp Hj.
  destruct (join_results project job_id Hp Hj) as (E & -> & Hplain).
  destruct (join_cwd cwd) as (D & Dc & Hjoin & Hsplit).
  unfold abspath.
  change (startswith ("results" +:+ "/" +:+ E) "/") with false.
  change (startswith "results" "/") with false. cbn match.
  rewrite !Hjoin by done.
  destruct (normpath_results D E Dc Hsplit Hplain) as [T ->].
  apply prefix_append.
Qed.

(** X24. Plain names are never refused.  When the project and the job id
  are single path components (no separator) other than [..], a result
  download never answers 403, whatever the working directory is: the
  request is answered 404 with [File not found], or 500 with
  [Error sending results] when the file cannot be read, or with the bytes
  of the file under the status code the request had. *)
Theorem plain_names_are_never_forbidden (project job_id : str) (s : State) :
  plain_name project = true →
  plain_name job_id = true →
  ((status_of (SpiderDownloadResult_render_GET project job_id s) = NOT_FOUND
    ∧ (SpiderDownloadResult_render_GET project job_id s).1
      = Ok (DBytes "File not found"))
   ∨ (status_of (SpiderDownloadResult_render_GET project job_id s)
      = INTERNAL_SERVER_ERROR
      ∧ (SpiderDownloadResult_render_GET project job_id s).1
        = Ok (DBytes "Error sending results"))
   ∨ (status_of (SpiderDownloadResult_render_GET project job_id s)
      = code (tx s)
      ∧ ∃ content,
          fs_read (files (root s)) (join "results" [project; job_id])
          = Ok content
          ∧ (SpiderDownloadResult_render_GET project job_id s).1
            = Ok (DBytes content)))
  ∧ (code (tx s) ≠ FORBIDDEN →
     status_of (SpiderDownloadResult_render_GET project job_id s)
     ≠ FORBIDDEN).
Proof.
  intros Hp Hj.
  pose proof (plain_names_inside (getcwd (files (root s))) project job_id
                Hp Hj) as Hinside.
  destruct (SpiderDownloadResult_render_GET project job_id s) as [r s']
    eqn:Hrun.
  assert ((status_of (r, s') = NOT_FOUND ∧ r = Ok (DBytes "File not found"))
          ∨ (status_of (r, s') = INTERNAL_SERVER_ERROR
             ∧ r = Ok (DBytes "Error sending results"))
          ∨ (status_of (r, s') = code (tx s)
             ∧ ∃ content,
                 fs_read (files (root s)) (join "results" [project; job_id])
                 = Ok content
                 ∧ r = Ok (DBytes content))) as Hcases.
  { revert Hrun.
    unfold status_of, SpiderDownloadResult_render_GET, bind, gets.
    destruct (fs_exists (files (root s))
                ("results/" +:+ project +:+ "/" +:+ job_id));
      [|intros [= <- <-]; left; by destruct s as [? []]].
    destruct (fs_isfile (files (root s))
                ("results/" +:+ project +:+ "/" +:+ job_id));
      [|intros [= <- <-]; left; by destruct s as [? []]].
    cbn [negb orb]. rewrite Hinside. cbn [negb].
    destruct (_ || _); [intros [= <- <-]; left; by destruct s as [? []]|].
    destruct (fs_read (files (root s)) (join "results" [project; job_id]))
      as [content|e] eqn:Hread.
    - intros [= <- <-]. right. right. destruct s as [? []].
      split; [done|]. by exists content.
    - intros [= <- <-]. right. left. by destruct s as [? []]. }
  cbn [fst]. split; [done|]. intros Hcode.
  destruct Hcases as [[-> _]|[[-> _]|[-> _]]]; done.
Qed.

Lemma plain_names_are_never_forbidden_witness :
  status_of (SpiderDownloadResult_render_GET "p" "job1"
               (Demo.disk Demo.stored false)) ≠ FORBIDDEN.
Proof.
  apply (plain_names_are_never_forbidden "p" "job1"
           (Demo.disk Demo.stored false)).
  - reflexivity.
  - reflexivity.
  - vm_compute. discriminate.
Defined.

(** ** Settings *)

Lemma split_eq_setting (k v : str) :
  split_eq k = None → split_eq (k +:+ "=" +:+ v) = Some (k, v).
Proof.
  induction k as [|c k IH]; [done|].
  rewrite append_cons. cbn [split_eq].
  destruct (Ascii.eqb c "="); [done|].
  destruct (split_eq k) as [[k' v']|]; [done|]. intros _. by rewrite IH.
Qed.

(** X25. Settings are split at the first [=] only.  When every element of
  [setting] is NAME=VALUE with no [=] in NAME, the dictionary of settings is
  the one built from the pairs (NAME, VALUE) in order, a later NAME
  replacing an earlier one in its place, whatever the values hold, [=]
  included.  When such elements are followed by one that holds no [=] at
  all, the request fails with a [ValueError] that names the position of
  that element, whatever comes after it. *)
Theorem settings_are_split_once (pairs : list (str * str)) (bad : str)
    (rest : list str) (s : State) :
  Forall (fun kv => split_eq kv.1 = None) pairs →
  split_eq bad = None →
  settings_dict (map (fun kv => kv.1 +:+ "=" +:+ kv.2) pairs) 0 [] s
  = (Ok (Dict.of_pairs pairs), s)
  ∧ settings_dict (map (fun kv => kv.1 +:+ "=" +:+ kv.2) pairs ++ bad :: rest)
      0 [] s
    = (Raise (Exception "ValueError"
                ("dictionary update sequence element #"
                 +:+ str_of_nat (List.length pairs)
                 +:+ " has length 1; 2 is required")), s).
Proof.
  intros Hpairs Hbad. unfold Dict.of_pairs.
  generalize (@nil (str * str)) as acc.
  change (List.length pairs) with (0 + List.length pairs).
  generalize 0 as i.
  induction Hpairs as [|[k v] pairs Hk _ IH]; intros i acc.
  - cbn [map app settings_dict foldl List.length]. rewrite Hbad.
    by rewrite Nat.add_0_r.
  - cbn [map app settings_dict foldl List.length fst snd].
    cbn [fst] in Hk. rewrite (split_eq_setting k v Hk).
    destruct (IH (S i) (Dict.set k v acc)) as [IH1 IH2].
    split; [exact IH1|]. rewrite IH2.
    by replace (S i + List.length pairs) with (i + S (List.length pairs))
      by lia.
Qed.

Lemma settings_are_split_once_witness :
  settings_dict ["A=1"; "B=x=y"; "A=2"] 0 [] Demo.cached
  = (Ok [("A", "2"); ("B", "x=y")], Demo.cached)
  ∧ settings_dict ["A=1"; "B=x=y"; "A=2"; "C"; "D=4"] 0 [] Demo.cached
    = (Raise (Exception "ValueError"
         "dictionary update sequence element #3 has length 1; 2 is required"),
       Demo.cached).
Proof.
  apply (settings_are_split_once [("A", "1"); ("B", "x=y"); ("A", "2")]
           "C" ["D=4"] Demo.cached).
  - repeat constructor.
  - reflexivity.
Defined.

(** ** SpiderStatus *)

Lemma SpiderStatus_not_running (measure : Process → list (str * Json))
    (project jobid : str) (s : State) :
  existsb (matches (Some project) jobid) (processes (root s)).*2 = false →
  SpiderStatus_render_GET measure project jobid s = (Ok Spider_not_found, s).
Proof.
  intros Hnone. unfold SpiderStatus_render_GET, bind, gets.
  assert (∀ acc,
            foldl (fun spider process =>
                     if String.eqb (Process.project process) project
                        && String.eqb (Process.job process) jobid
                     then Some process else spider)
              acc (processes (root s)).*2 = acc) as ->; [|done].
  induction (processes (root s)).*2 as [|x l IH]; intros acc; [done|].
  cbn [existsb] in Hnone. apply orb_false_iff in Hnone as [Hx Hl].
  cbn [foldl]. unfold matches in Hx. rewrite Hx. by apply IH.
Qed.

(** X26. A cancelled job has no status to measure.  After a Cancel of a job
  in a project that has a queue, SpiderStatus for that project and job
  answers with the object [Spider not found] (code 404 in the body), and
  changes nothing; nothing is measured, whatever the platform. *)
Theorem Cancel_then_SpiderStatus (P : Platform)
    (measure : Process → list (str * Json)) (s : State)
    (project job signal : str) (r : Res Data) (s1 : State) :
  Dict.mem project (queues (root s)) = true →
  NoDup (processes (root s)).*1 →
  Cancel_render_POST P project job signal s = (r, s1) →
  SpiderStatus_render_GET measure project job s1
  = (Ok (DJson (JDict
       [("code", JInt 404);
        ("usage", JDict [("cpu", JInt 0); ("memory", JInt 0)]);
        ("pid", JInt 0);
        ("message", JString "Spider not found")])), s1).
Proof.
  intros [q Hq]%Dict_mem_get Hnd Hcancel.
  pose proof (Cancel_run P s project job signal q Hq Hnd) as Hrun.
  cbv zeta in Hrun. rewrite Hrun in Hcancel. injection Hcancel as _ <-.
  apply SpiderStatus_not_running.
  match goal with |- context [processes (root ?st)] => set (s1 := st) end.
  assert (processes (root s1)
          = filter (fun kx => matches (Some project) job kx.2 ≠ true)
              (processes (root s))) as -> by done.
  apply existsb_filter_out.
Qed.

Lemma Cancel_then_SpiderStatus_witness :
  SpiderStatus_render_GET (fun x => [("pid", JInt (Z.of_nat (Process.pid x)))])
    "p" "j1"
    (Cancel_render_POST (Demo.platform 0 "") "p" "j1" "INT"
       Demo.pending_and_running).2
  = (Ok (DJson (JDict
       [("code", JInt 404);
        ("usage", JDict [("cpu", JInt 0); ("memory", JInt 0)]);
        ("pid", JInt 0);
        ("message", JString "Spider not found")])),
     (Cancel_render_POST (Demo.platform 0 "") "p" "j1" "INT"
        Demo.pending_and_running).2).
Proof.
  apply (Cancel_then_SpiderStatus (Demo.platform 0 "") _
           Demo.pending_and_running "p" "j1" "INT"
           (Ok (DJson (JDict [("prevstate", JString "running")])))).
  - reflexivity.
  - apply (bool_decide_unpack _). vm_compute. reflexivity.
  - apply pair_eta_fst. vm_compute. reflexivity.
Defined.

(** X27. SpiderStatus measures the last process of the job.  Where one or
  more running processes have the project and the job id, SpiderStatus
  returns the measurement of the last of them in the order of the
  launcher's slots, and changes nothing; where none has, it answers with
  the object [Spider not found], whether or not the job is pending or
  finished. *)
Theorem SpiderStatus_measures_running
    (measure : Process → list (str * Json)) (project jobid : str)
    (s : State) :
  (is_running s (Some project) jobid →
   ∃ key x before after,
     processes (root s) = before ++ (key, x) :: after
     ∧ job_of (Some project) jobid x
     ∧ (∀ kx, kx ∈ after → ¬ job_of (Some project) jobid kx.2)
     ∧ SpiderStatus_render_GET measure project jobid s
       = (Ok (DJson (JDict (measure x))), s))
  ∧ (¬ is_running s (Some project) jobid →
     SpiderStatus_render_GET measure project jobid s
     = (Ok (DJson (JDict
          [("code", JInt 404);
           ("usage", JDict [("cpu", JInt 0); ("memory", JInt 0)]);
           ("pid", JInt 0);
           ("message", JString "Spider not found")])), s)).
Proof.
  split.
  - intros Hrun. apply existsb_running in Hrun.
    unfold SpiderStatus_render_GET, bind, gets.
    assert (∀ acc,
              ∃ key x before after,
                processes (root s) = before ++ (key, x) :: after
                ∧ job_of (Some project) jobid x
                ∧ (∀ kx, kx ∈ after → ¬ job_of (Some project) jobid kx.2)
                ∧ foldl (fun spider process =>
                           if String.eqb (Process.project process) project
                              && String.eqb (Process.job process) jobid
                           then Some process else spider)
                    acc (processes (root s)).*2 = Some x) as Hlast.
    { induction (processes (root s)) as [|[k y] l IH]; [done|].
      intros acc. rewrite fmap_cons in Hrun |- *. cbn [existsb snd] in Hrun.
      cbn [foldl snd].
      destruct (existsb (matches (Some project) jobid) l.*2) eqn:Hl.
      - destruct (IH eq_refl
                    (if String.eqb (Process.project y) project
                        && String.eqb (Process.job y) jobid
                     then Some y else acc))
          as (key & x & before & after & -> & Hx & Hafter & Hfold).
        exists key, x, ((k, y) :: before), after. by rewrite Hfold.
      - rewrite orb_false_r in Hrun. exists k, y, [], l.
        split; [done|]. split; [by apply matches_job_of|]. split.
        + intros [k' x'] Hin Hjob. apply matches_job_of in Hjob.
          assert (existsb (matches (Some project) jobid) l.*2 = true)
            as Hex; [|congruence].
          apply existsb_exists. exists x'. split; [|done].
          apply list_elem_of_In, list_elem_of_fmap. by exists (k', x').
        + unfold matches in Hrun. rewrite Hrun. clear IH Hrun.
          assert (∀ acc',
                    foldl (fun spider process =>
                             if String.eqb (Process.project process) project
                                && String.eqb (Process.job process) jobid
                             then Some process else spider)
                      acc' l.*2 = acc') as ->; [|done].
          induction l as [|[k' x'] l IHl]; intros acc'; [done|].
          rewrite fmap_cons in Hl |- *. cbn [existsb snd] in Hl.
          apply orb_false_iff in Hl as [Hx' Hl]. cbn [foldl snd].
          unfold matches in Hx'. rewrite Hx'. by apply IHl. }
    destruct (Hlast None) as (key & x & before & after & Hps & Hx & Hafter
                              & ->).
    by exists key, x, before, after.
  - intros Hnot. apply SpiderStatus_not_running.
    apply not_true_is_false. intros H. by apply Hnot, existsb_running.
Qed.

Lemma SpiderStatus_measures_running_witness :
  ∃ key x before after,
    processes (root Demo.pending_and_running) = before ++ (key, x) :: after
    ∧ job_of (Some "p") "j1" x
    ∧ (∀ kx, kx ∈ after → ¬ job_of (Some "p") "j1" kx.2)
    ∧ SpiderStatus_render_GET
        (fun x => [("pid", JInt (Z.of_nat (Process.pid x)))]) "p" "j1"
        Demo.pending_and_running
      = (Ok (DJson (JDict
           ((fun x => [("pid", JInt (Z.of_nat (Process.pid x)))]) x))),
         Demo.pending_and_running).
Proof.
  destruct (SpiderStatus_measures_running
              (fun x => [("pid", JInt (Z.of_nat (Process.pid x)))]) "p" "j1"
              Demo.pending_and_running) as [H _].
  apply H. exists 1, (Demo.process "p" "j1" 41).
  split; [|by split; [intros ? [= <-]|]].
  apply elem_of_cons. right. apply elem_of_cons. by left.
Defined.

(** ** ListSpiders and DeleteProject *)

Lemma ListSpiders_unknown_project (P : Platform) (project : str)
    (version : option str) (s : State) :
  Dict.mem project (queues (root s)) = false →
  ListSpiders_render_GET P project version s
  = (Raise (Error OK ("project '" +:+ project +:+ "' not found")), s).
Proof.
  intros H. unfold ListSpiders_render_GET, bind, gets. by rewrite H.
Qed.

Lemma ListSpiders_unknown_version (P : Platform) (project v : str)
    (s : State) :
  Dict.mem project (queues (root s)) = true →
  v ≠ "" →
  eggstorage_get (eggstorage (root s)) project v = None →
  ListSpiders_render_GET P project (Some v) s
  = (Raise (Error OK ("version '" +:+ v +:+ "' not found")), s).
Proof.
  intros H Hv Hegg. unfold ListSpiders_render_GET, bind, gets.
  rewrite H. cbn [negb truthy]. rewrite Hegg.
  apply String.eqb_neq in Hv. rewrite Hv. cbn [negb andb].
  by rewrite bool_decide_eq_true_2.
Qed.

(** X28. What ListSpiders does not list, Schedule refuses.  From the same
  state, for the same project and version: when ListSpiders fails, Schedule
  fails with the same error and leaves the same state, whatever the spider,
  the job id, the priority and the settings are; and when ListSpiders
  returns a list, Schedule answers [spider '<s>' not found] for every spider
  that is not in it. *)
Theorem ListSpiders_bounds_Schedule (P : Platform) (project spider : str)
    (version : option str) (jobid : str) (priority : Value)
    (setting : list str) (s : State) (r : Res Data) (s1 : State) :
  ListSpiders_render_GET P project version s = (r, s1) →
  match r with
  | Raise e =>
      Schedule_render_POST P project spider version jobid priority setting s
      = (Raise e, s1)
  | Ok data =>
      ∃ spiders,
        data = DJson (JDict [("spiders", JList (map JString spiders))])
        ∧ (spider ∉ spiders →
           Schedule_render_POST P project spider version jobid priority
             setting s
           = (Raise (Error OK ("spider '" +:+ spider +:+ "' not found")),
              s1))
  end.
Proof.
  intros Hlist.
  destruct (Dict.get project (queues (root s))) as [q|] eqn:Hq.
  2:{ assert (Dict.mem project (queues (root s)) = false) as Hmem
        by (unfold Dict.mem; by rewrite Hq).
      rewrite ListSpiders_unknown_project in Hlist by done.
      injection Hlist as <- <-. by apply Schedule_unknown_project. }
  assert (Dict.mem project (queues (root s)) = true) as Hmem
    by (apply Dict_mem_get; eauto).
  assert (version_missing (root s) project version
          ∨ ¬ version_missing (root s) project version)
    as [(v & -> & Hne & Hegg)|Hver].
  { unfold version_missing. destruct version as [v|].
    2:{ right. by intros (v & ? & _). }
    destruct (decide (v = "")) as [->|Hne].
    { right. by intros (v' & [= <-] & ? & _). }
    destruct (eggstorage_get (eggstorage (root s)) project v) eqn:Hegg.
    - right. intros (v' & [= <-] & _ & ?). congruence.
    - left. eauto. }
  { rewrite ListSpiders_unknown_version in Hlist by done.
    injection Hlist as <- <-. by apply Schedule_unknown_version. }
  destruct (SpiderList_get P project version (runner (root s)) s)
    as [res s2] eqn:Hget.
  rewrite (ListSpiders_after_checks P project version s res s2) in Hlist
    by done.
  rewrite (Schedule_after_checks P project spider version jobid priority
             setting s q res s2 Hq Hver Hget).
  destruct res as [spiders|e]; injection Hlist as <- <-; [|done].
  exists spiders. split; [done|]. intros Hnot.
  by rewrite bool_decide_eq_false_2.
Qed.

Lemma ListSpiders_bounds_Schedule_witness :
  ∃ spiders,
    DJson (JDict [("spiders", JList (map JString ["old"]))])
    = DJson (JDict [("spiders", JList (map JString spiders))])
    ∧ ("new" ∉ spiders →
       Schedule_render_POST (Demo.platform 0 "") "p" "new" None "job9"
         (VInt 0) [] Demo.cached
       = (Raise (Error OK "spider 'new' not found"), Demo.cached)).
Proof.
  apply (ListSpiders_bounds_Schedule (Demo.platform 0 "") "p" "new" None
           "job9" (VInt 0) [] Demo.cached
           (Ok (DJson (JDict [("spiders", JList (map JString ["old"]))])))
           Demo.cached).
  reflexivity.
Defined.

(** X29. DeleteProject forgets the project, or changes nothing.  For a
  project the egg store does not hold the answer is
  [project '<p>' not found] and the state is as before.  Otherwise the
  request succeeds with an empty object; the egg store no longer holds the
  project, the project has no queue any more, and the spider-list cache
  holds no list of any version of the project, while the lists of the other
  projects are kept. *)
Theorem DeleteProject_effects (project : str) (s : State) :
  (eggstorage (root s) !! project = None →
   DeleteProject_render_POST project s
   = (Raise (Error OK ("project '" +:+ project +:+ "' not found")), s))
  ∧ (∀ versions,
       eggstorage (root s) !! project = Some versions →
       ∃ s',
         DeleteProject_render_POST project s = (Ok (DJson (JDict [])), s')
         ∧ eggstorage (root s') = delete project (eggstorage (root s))
         ∧ Dict.mem project (queues (root s')) = false
         ∧ (∀ v, entry s' project v = None)
         ∧ ∀ p v, p ≠ project → entry s' p v = entry s p v).
Proof.
  split.
  - intros Hp. unfold DeleteProject_render_POST, _delete_version.
    unfold bind at 1. unfold bind at 1. unfold try_except.
    unfold eggstorage_delete. unfold bind at 1. unfold gets.
    by rewrite Hp.
  - intros versions Hp.
    unfold DeleteProject_render_POST, _delete_version.
    unfold bind at 1. unfold bind at 1. unfold try_except.
    unfold eggstorage_delete. unfold bind at 1. unfold gets.
    rewrite Hp. unfold modify, update_projects, modify.
    unfold bind at 1. rewrite SpiderList_delete_ok.
    eexists. split; [reflexivity|].
    match goal with |- context [eggstorage (root ?st)] => set (s' := st) end.
    assert (eggstorage (root s') = delete project (eggstorage (root s)))
      as Heggs by (by destruct s as [[] ?]).
    assert (queues (root s')
            = map (fun p => (p, from_option id [] (Dict.get p (queues (root s)))))
                (elements (dom (delete project (eggstorage (root s))))))
      as Hqs by (by destruct s as [[] ?]).
    assert (cache (root s') = delete project (cache (root s))) as Hcache
      by (by destruct s as [[] ?]).
    split; [done|]. split; [|split].
    + destruct (Dict.mem project (queues (root s'))) eqn:Hmem; [|done].
      apply Dict_mem_get, Dict_get_keys in Hmem. rewrite Hqs in Hmem.
      unfold Dict.keys in Hmem. rewrite <- list_fmap_compose in Hmem.
      apply list_elem_of_fmap in Hmem as (p & Hpp & Hin). cbn in Hpp.
      subst p. apply elem_of_elements, elem_of_dom in Hin as [? Hin].
      by rewrite lookup_delete_eq in Hin.
    + intros v. unfold entry. by rewrite Hcache, lookup_delete_eq.
    + intros p v Hne. unfold entry. by rewrite Hcache, lookup_delete_ne.
Qed.

Lemma DeleteProject_effects_witness :
  ∃ s',
    DeleteProject_render_POST "p" Demo.versioned = (Ok (DJson (JDict [])), s')
    ∧ eggstorage (root s') = delete "p" (eggstorage (root Demo.versioned))
    ∧ Dict.mem "p" (queues (root s')) = false
    ∧ entry s' "p" (Some "2") = None.
Proof.
  destruct (DeleteProject_effects "p" Demo.versioned) as (_ & H).
  destruct (H [("1", "PK")]) as (s' & Hrun & Hegg & Hq & Hgone & _).
  - reflexivity.
  - exists s'. by rewrite Hrun, Hegg, Hq, Hgone.
Defined.

(** X30. What Schedule has enqueued, ListJobs shows.  After a Schedule that
  succeeded, the pending list in the listing of the project holds the
  entries it held before the Schedule and one more, in some order: where
  the new entry stands among the others is not stated.  The new entry
  carries the job id, the project and the spider of the request, and the
  version when one was given; the running and the finished lists are as
  before. *)
Theorem Schedule_then_ListJobs (L : Listing) (P : Platform)
    (project spider : str) (version : option str) (jobid : str)
    (priority : Value) (setting : list str) (s : State) (data : Data)
    (s' : State) :
  Schedule_render_POST P project spider version jobid priority setting s
  = (Ok data, s') →
  ∃ (before after : list Json) (entry : Json) (running finished : list Json),
    ListJobs_render_GET L (Some project) s
    = (Ok (DJson (JDict [("pending", JList before);
                         ("running", JList running);
                         ("finished", JList finished)])), s)
    ∧ ListJobs_render_GET L (Some project) s'
      = (Ok (DJson (JDict [("pending", JList after);
                           ("running", JList running);
                           ("finished", JList finished)])), s')
    ∧ after ≡ₚ entry :: before
    ∧ field "id" entry = Some (JString jobid)
    ∧ field "project" entry = Some (JString project)
    ∧ field "spider" entry = Some (JString spider)
    ∧ ∀ v, version = Some v → field "version" entry = Some (JString v).
Proof.
  intros Hrun.
  destruct (Schedule_ok_inv _ _ _ _ _ _ _ _ _ _ Hrun)
    as (q & spiders & s1 & extra & settings & Hq & Hget & _ & _ & _ & ->).
  destruct (SpiderList_get_frame P _ _ _ _ _ _ Hget) as [_ Hsame].
  destruct (same_but_cache_fields _ _ Hsame) as (Hqs & Hps & Hfin & _).
  set (message := scheduled spider jobid priority settings
                    (add_version version extra)).
  match goal with
  | |- context [ListJobs_render_GET L (Some project) ?st = (_, ?st)] =>
      match st with
      | s => fail 1
      | _ => set (s' := st)
      end
  end.
  assert (queues (root s')
          = Dict.set project (q ++ [message]) (queues (root s))) as Hqs'
    by done.
  assert (processes (root s') = processes (root s)) as Hps' by done.
  assert (finished (root s') = finished (root s)) as Hfin' by done.
  exists (map (pending_entry project) q),
    (map (pending_entry project) q ++ [pending_entry project message]),
    (pending_entry project message).
  eexists _, _. split; [|split; [|split]].
  - rewrite ListJobs_run.
    + cbn [flat_map]. rewrite Hq. cbn [from_option id].
      by rewrite app_nil_r.
    + intros p [= <-]. apply Dict_mem_get. eauto.
  - rewrite ListJobs_run.
    + cbn [flat_map]. rewrite Hqs', Dict_get_set_eq. cbn [from_option id].
      by rewrite app_nil_r, map_app, Hps', Hfin'.
    + intros p [= <-]. rewrite Hqs'. apply Dict_mem_get.
      eexists. apply Dict_get_set_eq.
  - symmetry. apply Permutation_cons_append.
  - do 3 (split; [done|]). intros v ->.
    unfold field, pending_entry. cbn [Dict.get].
    repeat (rewrite decide_False by done). rewrite decide_True by done.
    unfold message. cbn [m_args scheduled add_version].
    by rewrite Dict_get_set_eq.
Qed.

Lemma Schedule_then_ListJobs_witness :
  ∃ (before after : list Json) (entry : Json) (running finished : list Json),
    ListJobs_render_GET Cases.listing (Some "p") Demo.versioned
    = (Ok (DJson (JDict [("pending", JList before);
                         ("running", JList running);
                         ("finished", JList finished)])), Demo.versioned)
    ∧ ListJobs_render_GET Cases.listing (Some "p")
        (Schedule_render_POST (Demo.platform 0 "") "p" "a" (Some "1") "job7"
           (VInt 0) [] Demo.versioned).2
      = (Ok (DJson (JDict [("pending", JList after);
                           ("running", JList running);
                           ("finished", JList finished)])),
         (Schedule_render_POST (Demo.platform 0 "") "p" "a" (Some "1") "job7"
            (VInt 0) [] Demo.versioned).2)
    ∧ after ≡ₚ entry :: before
    ∧ field "id" entry = Some (JString "job7")
    ∧ field "project" entry = Some (JString "p")
    ∧ field "spider" entry = Some (JString "a")
    ∧ ∀ v, Some "1" = Some v → field "version" entry = Some (JString v).
Proof.
  apply (Schedule_then_ListJobs Cases.listing (Demo.platform 0 "") "p" "a"
           (Some "1") "job7" (VInt 0) [] Demo.versioned
           (DJson (JDict [("jobid", JString "job7")]))).
  apply pair_eta_fst. vm_compute. reflexivity.
Defined.
